(** * monad-developer-hub backend: submission lifecycle

    A shallow embedding of the submission / review / promotion core of the
    Go backend (packages [utils], [models], [repository], [services], the
    submission and project handlers, the credentials of the auth handler and
    the rate limiter of the middleware), followed by the properties of the
    specification that were checked against it and by further properties of
    the code.

    Conventions of the embedding:
    - a Go [string] is a byte sequence: Rocq's [string] (a list of 8-bit
      [ascii]); [len] is [String.length];
    - [*T] is [option T]; [time.Time] is an instant in [Z];
    - the relational store is an explicit state ([Store.DB]) threaded through
      a small state-and-error monad; a statement can fail for reasons outside
      the program (connection loss, ...), which a fault script decides;
    - [encoding/json] is an interface ([JSON]) the services are generic in. *)

From Stdlib Require Import ZArith NArith Ascii String List Lia Bool.
From stdpp Require Import base option list strings gmap fin_maps.

Local Open Scope Z_scope.

(** ** Package utils *)
Module Utils.

(** The byte [sep] occurs in [s] ([strings.IndexByte(s, sep) >= 0]). *)
Fixpoint has_byte (sep : ascii) (s : string) : bool :=
  match s with
  | EmptyString => false
  | String c r => if Ascii.eqb c sep then true else has_byte sep r
  end.

(** [strings.Split(s, sep)] for a one-byte separator: the pieces between
    consecutive occurrences of [sep]; a string without [sep] (the empty string
    too) is a single piece. *)
Fixpoint Split (s : string) (sep : ascii) : list string :=
  match s with
  | EmptyString => [EmptyString]
  | String c r =>
      if Ascii.eqb c sep then EmptyString :: Split r sep
      else match Split r sep with
           | [] => [String c EmptyString]
           | p :: ps => String c p :: ps
           end
  end.

(** [strings.Join(parts, sep)], the inverse of [Split]. *)
Fixpoint Join (parts : list string) (sep : ascii) : string :=
  match parts with
  | [] => EmptyString
  | [p] => p
  | p :: ps => p +:+ String sep (Join ps sep)
  end.

(** Decimal digits of a natural number, least significant digit first into
    the accumulator, as [strconv] prints them. *)
Definition digit (n : N) : ascii := ascii_of_N (48 + n).

Fixpoint fmt_digits (fuel : nat) (n : N) (acc : string) : string :=
  match fuel with
  | O => acc
  | S f =>
      let acc' := String (digit (n mod 10)) acc in
      if (n / 10 =? 0)%N then acc' else fmt_digits f (n / 10) acc'
  end.

(** The verb [%d] applied to an [int64]: [strconv.FormatInt(z, 10)]. A number
    has at most [log2 n + 1] decimal digits, which bounds the loop. *)
Definition FormatInt (z : Z) : string :=
  let n := Z.abs_N z in
  let body := fmt_digits (S (N.to_nat (N.log2 n))) n EmptyString in
  if z <? 0 then String "-" body else body.

(** What the printer produces: decimal digits only. *)
Definition is_digit (c : ascii) : bool :=
  (48 <=? N_of_ascii c)%N && (N_of_ascii c <=? 57)%N.

Fixpoint all_digits (s : string) : bool :=
  match s with
  | EmptyString => true
  | String c r => is_digit c && all_digits r
  end.

Definition charset : string := "ABCDEFGHIJKLMNOPQRSTUVWXYZ0123456789".

(** [charset[i]]; Go panics out of range, which [rand.Intn(len(charset))]
    never reaches. *)
Definition charset_at (i : nat) : ascii :=
  match String.get i charset with
  | Some c => c
  | None => "000"%char
  end.

(** [rand.Intn(n)] on the raw value [r] delivered by the generator: a number
    in the half-open interval from 0 to [n]. *)
Definition Intn (r : nat) (n : nat) : nat := (r mod n)%nat.

(** The loop of [generateRandomHash]: iteration [i] appends
    [charset[rand.Intn(len(charset))]]; [draw i] is the raw value the
    pseudo-random generator yields at the [i]-th call. *)
Fixpoint hash_loop (remaining i : nat) (draw : nat -> nat) : string :=
  match remaining with
  | O => EmptyString
  | S k =>
      String (charset_at (Intn (draw i) (String.length charset)))
             (hash_loop k (S i) draw)
  end.

Definition generateRandomHash (length : nat) (draw : nat -> nat) : string :=
  hash_loop length 0 draw.

(** [GenerateSubmissionID]: [timestamp] is [time.Now().UnixMilli()]. *)
Definition GenerateSubmissionID (timestamp : Z) (draw : nat -> nat) : string :=
  let randomHash := generateRandomHash 6 draw in
  "SUB-" +:+ FormatInt timestamp +:+ String "-" randomHash.

Definition ValidateSubmissionID (submissionID : string) : bool :=
  match Split submissionID "-" with
  | [p0; p1; p2] =>
      if negb (String.eqb p0 "SUB") then false
      else if (String.length p1 <? 10)%nat then false
      else if negb (String.length p2 =? 6)%nat then false
      else true
  | _ => false
  end.

Fixpoint Contains (slice : list string) (item : string) : bool :=
  match slice with
  | [] => false
  | s :: rest => if String.eqb s item then true else Contains rest item
  end.

Definition allowedCategories : list string :=
  ["DeFi"; "Gaming"; "AI"; "Infrastructure"; "Consumer"; "NFT"; "Stablecoins"].

Fixpoint all_allowed (allowed categories : list string) : bool :=
  match categories with
  | [] => true
  | category :: rest =>
      if negb (Contains allowed category) then false
      else all_allowed allowed rest
  end.

Definition ValidateCategories (categories : list string) : bool :=
  all_allowed allowedCategories categories.

Definition allowedEvents : list string :=
  ["Mission: 1 Crazy Contract"; "Mission: 2 Smart Wallet";
   "Mission: 3 DeFi Integration"; "Mission: 4 NFT Marketplace";
   "Hackathon 2023"; "Hackathon 2024"].

Definition ValidateEvent (event : string) : bool :=
  Contains allowedEvents event.

Definition allowedStatuses : list string :=
  ["pending"; "under_review"; "approved"; "rejected"; "requires_changes"].

Definition ValidateStatus (status : string) : bool :=
  Contains allowedStatuses status.

Definition allowedTypes : list string :=
  ["transfer"; "swap"; "mint"; "burn"; "stake"].

Definition ValidateTransactionType (txType : string) : bool :=
  Contains allowedTypes txType.

(** [RemoveEmpty]; [TrimSpace] is [strings.TrimSpace]. *)
Fixpoint RemoveEmpty (TrimSpace : string -> string) (slice : list string)
    : list string :=
  match slice with
  | [] => []
  | s :: rest =>
      if negb (String.eqb (TrimSpace s) "")
      then TrimSpace s :: RemoveEmpty TrimSpace rest
      else RemoveEmpty TrimSpace rest
  end.

(** The value of a string of decimal digits, most significant digit first;
    [None] when a byte is not a digit. *)
Fixpoint digits_value (s : string) (acc : N) : option N :=
  match s with
  | EmptyString => Some acc
  | String c r =>
      if is_digit c
      then digits_value r (10 * acc + (N_of_ascii c - 48))
      else None
  end.

(** [strconv.ParseUint(s, 10, 32)]: a non-empty string of digits whose value
    fits 32 bits; no sign, no underscore. [None] is the error. *)
Definition ParseUint32 (s : string) : option nat :=
  match s with
  | EmptyString => None
  | _ =>
      match digits_value s 0 with
      | Some n => if (n <? 2 ^ 32)%N then Some (N.to_nat n) else None
      | None => None
      end
  end.

End Utils.

(** ** Package models

    The structs, one module each so that the fields keep their Go names.
    GORM's bookkeeping columns ([CreatedAt], [UpdatedAt], [DeletedAt]) and the
    preloaded [ApprovedProject] association are not columns any modelled
    operation reads, and are left out. *)
Module TeamMemberInput.
Record t := mk { Name : string; Twitter : string }.
End TeamMemberInput.

Module TeamMember.
Record t := mk {
  ID : nat;
  ProjectID : nat;
  Name : string;
  Twitter : string;
  Image : string }.

Definition with_ID (m : t) (v : nat) : t :=
  mk v (ProjectID m) (Name m) (Twitter m) (Image m).
Definition with_Image (m : t) (v : string) : t :=
  mk (ID m) (ProjectID m) (Name m) (Twitter m) v.
End TeamMember.

Module Project.
Record t := mk {
  ID : nat;
  Name : string;
  Logo : string;
  Description : string;
  Categories : list string;
  Event : string;
  Award : string;
  Likes : Z;
  Comments : Z;
  HowToPlay : string;
  PlayURL : string;
  GithubURL : option string;
  WebsiteURL : option string;
  TeamMembers : list TeamMember.t;
  SubmissionID : option string }.

Definition with_ID (p : t) (v : nat) : t :=
  mk v (Name p) (Logo p) (Description p) (Categories p) (Event p) (Award p)
     (Likes p) (Comments p) (HowToPlay p) (PlayURL p) (GithubURL p)
     (WebsiteURL p) (TeamMembers p) (SubmissionID p).
Definition with_Award (p : t) (v : string) : t :=
  mk (ID p) (Name p) (Logo p) (Description p) (Categories p) (Event p) v
     (Likes p) (Comments p) (HowToPlay p) (PlayURL p) (GithubURL p)
     (WebsiteURL p) (TeamMembers p) (SubmissionID p).
Definition with_TeamMembers (p : t) (v : list TeamMember.t) : t :=
  mk (ID p) (Name p) (Logo p) (Description p) (Categories p) (Event p)
     (Award p) (Likes p) (Comments p) (HowToPlay p) (PlayURL p) (GithubURL p)
     (WebsiteURL p) v (SubmissionID p).
Definition with_Likes (p : t) (v : Z) : t :=
  mk (ID p) (Name p) (Logo p) (Description p) (Categories p) (Event p)
     (Award p) v (Comments p) (HowToPlay p) (PlayURL p) (GithubURL p)
     (WebsiteURL p) (TeamMembers p) (SubmissionID p).
End Project.

Module Submission.
Record t := mk {
  ID : string;
  ProjectName : string;
  Description : string;
  PhotoLink : string;
  Event : string;
  Categories : list string;
  TeamMembers : string;
  GithubLink : option string;
  WebsiteLink : option string;
  PlayLink : string;
  HowToPlay : string;
  AdditionalNotes : option string;
  Status : string;
  ReviewerID : option nat;
  Feedback : option string;
  ChangesRequested : list string;
  SubmittedAt : Z;
  ReviewStartedAt : option Z;
  ReviewedAt : option Z;
  PublishedAt : option Z;
  ApprovedProjectID : option nat }.

(** The four assignments at the head of [UpdateSubmissionStatus]. *)
Definition with_review (s : t) (status : string) (feedback : option string)
    (changesRequested : list string) (reviewerID : option nat) : t :=
  mk (ID s) (ProjectName s) (Description s) (PhotoLink s) (Event s)
     (Categories s) (TeamMembers s) (GithubLink s) (WebsiteLink s)
     (PlayLink s) (HowToPlay s) (AdditionalNotes s)
     status reviewerID feedback changesRequested
     (SubmittedAt s) (ReviewStartedAt s) (ReviewedAt s) (PublishedAt s)
     (ApprovedProjectID s).
Definition with_ReviewStartedAt (s : t) (v : option Z) : t :=
  mk (ID s) (ProjectName s) (Description s) (PhotoLink s) (Event s)
     (Categories s) (TeamMembers s) (GithubLink s) (WebsiteLink s)
     (PlayLink s) (HowToPlay s) (AdditionalNotes s)
     (Status s) (ReviewerID s) (Feedback s) (ChangesRequested s)
     (SubmittedAt s) v (ReviewedAt s) (PublishedAt s) (ApprovedProjectID s).
Definition with_ReviewedAt (s : t) (v : option Z) : t :=
  mk (ID s) (ProjectName s) (Description s) (PhotoLink s) (Event s)
     (Categories s) (TeamMembers s) (GithubLink s) (WebsiteLink s)
     (PlayLink s) (HowToPlay s) (AdditionalNotes s)
     (Status s) (ReviewerID s) (Feedback s) (ChangesRequested s)
     (SubmittedAt s) (ReviewStartedAt s) v (PublishedAt s)
     (ApprovedProjectID s).
Definition with_PublishedAt (s : t) (v : option Z) : t :=
  mk (ID s) (ProjectName s) (Description s) (PhotoLink s) (Event s)
     (Categories s) (TeamMembers s) (GithubLink s) (WebsiteLink s)
     (PlayLink s) (HowToPlay s) (AdditionalNotes s)
     (Status s) (ReviewerID s) (Feedback s) (ChangesRequested s)
     (SubmittedAt s) (ReviewStartedAt s) (ReviewedAt s) v
     (ApprovedProjectID s).
Definition with_ApprovedProjectID (s : t) (v : option nat) : t :=
  mk (ID s) (ProjectName s) (Description s) (PhotoLink s) (Event s)
     (Categories s) (TeamMembers s) (GithubLink s) (WebsiteLink s)
     (PlayLink s) (HowToPlay s) (AdditionalNotes s)
     (Status s) (ReviewerID s) (Feedback s) (ChangesRequested s)
     (SubmittedAt s) (ReviewStartedAt s) (ReviewedAt s) (PublishedAt s) v.
End Submission.

(** ** Errors *)
Inductive error : Type :=
| ErrRecordNotFound                 (* gorm.ErrRecordNotFound *)
| ErrDuplicatedKey                  (* primary-key or unique-index violation *)
| ErrBadConn                        (* a statement the database did not run *)
| SyntaxError                       (* encoding/json could not decode *)
| New (msg : string).               (* errors.New(msg) *)

(** [p == nil] for a pointer. *)
Definition is_nil {A} (p : option A) : bool :=
  match p with None => true | Some _ => false end.

(** [err.Error()] *)
Definition Error (e : error) : string :=
  match e with
  | ErrRecordNotFound => "record not found"
  | ErrDuplicatedKey => "duplicated key not allowed"
  | ErrBadConn => "driver: bad connection"
  | SyntaxError => "invalid character"
  | New msg => msg
  end.

Definition error_eqb (a b : error) : bool :=
  match a, b with
  | ErrRecordNotFound, ErrRecordNotFound => true
  | ErrDuplicatedKey, ErrDuplicatedKey => true
  | ErrBadConn, ErrBadConn => true
  | SyntaxError, SyntaxError => true
  | New x, New y => String.eqb x y
  | _, _ => false
  end.

(** ** The store and the monad of store operations *)
Module Store.

(** The three tables, rows in insertion order. A stored project row carries
    no team members: they live in [team_members], linked by [ProjectID]. *)
Record DB := mkDB {
  submissions : list Submission.t;
  projects : list Project.t;
  team_members : list TeamMember.t }.

Definition with_submissions (d : DB) (v : list Submission.t) : DB :=
  mkDB v (projects d) (team_members d).
Definition with_projects (d : DB) (v : list Project.t) : DB :=
  mkDB (submissions d) v (team_members d).
Definition with_team_members (d : DB) (v : list TeamMember.t) : DB :=
  mkDB (submissions d) (projects d) v.

(** What a request runs in: the database and the script of faults, one
    boolean per statement still to come ([true]: the statement fails without
    effect); an exhausted script means no further fault. *)
Record World := mkWorld { faults : list bool; db : DB }.

Definition M (A : Type) : Type := World -> (error + A) * World.

Definition ret {A} (a : A) : M A := fun w => (inr a, w).
Definition fail {A} (e : error) : M A := fun w => (inl e, w).
Definition bind {A B} (m : M A) (k : A -> M B) : M B :=
  fun w => match m w with
           | (inr a, w') => k a w'
           | (inl e, w') => (inl e, w')
           end.
Definition lift {A} (r : error + A) : M A :=
  match r with inl e => fail e | inr a => ret a end.

(** [if err != nil { return errors.New(..) }]: replace the error of [m]. *)
Definition or_else {A} (m : M A) (e : error) : M A :=
  fun w => match m w with
           | (inr a, w') => (inr a, w')
           | (inl _, w') => (inl e, w')
           end.

(** One statement sent to the database. *)
Definition stmt {A} (run : DB -> (error + A) * DB) : M A :=
  fun w =>
    match faults w with
    | true :: fs => (inl ErrBadConn, mkWorld fs (db w))
    | false :: fs => let (r, d) := run (db w) in (r, mkWorld fs d)
    | [] => let (r, d) := run (db w) in (r, mkWorld [] d)
    end.

(** [db.Transaction(func(tx) error {...})]: the body's writes are kept only
    if the body returns nil and the commit goes through; otherwise the
    database is as it was when the transaction began. *)
Definition Transaction {A} (body : M A) : M A :=
  fun w =>
    match body w with
    | (inr a, w') =>
        match faults w' with
        | true :: fs => (inl ErrBadConn, mkWorld fs (db w))
        | false :: fs => (inr a, mkWorld fs (db w'))
        | [] => (inr a, w')
        end
    | (inl e, w') => (inl e, mkWorld (faults w') (db w))
    end.

End Store.

Declare Scope store_scope.
Delimit Scope store_scope with store.
Notation "x <- m ;; k" := (Store.bind m (fun x => k))
  (at level 100, m at next level, right associativity) : store_scope.
Notation "m ;;; k" := (Store.bind m (fun _ => k))
  (at level 100, right associativity) : store_scope.

(** ** Package repository *)
Module Repository.
Import Store.
Local Open Scope store_scope.

(** The next value of a serial primary key: above every key in the table. *)
Definition next_id {A} (key : A -> nat) (rows : list A) : nat :=
  S (foldr (fun r top => Nat.max (key r) top) 0%nat rows).

(** [UPDATE ... WHERE pk = ?], and an [INSERT] when no row has the key (what
    GORM's [Save] does with a non-zero primary key). *)
Definition save_row {A} (same : A -> bool) (row : A) (rows : list A) : list A :=
  if existsb same rows
  then map (fun r => if same r then row else r) rows
  else rows ++ [row].

(** *** SubmissionRepository *)

(** [db.Create(submission)]: refused when the primary key is taken. *)
Definition CreateSubmission (submission : Submission.t) : M unit :=
  stmt (fun d =>
    if existsb (fun s => String.eqb (Submission.ID s) (Submission.ID submission))
               (submissions d)
    then (inl ErrDuplicatedKey, d)
    else (inr tt, with_submissions d (submissions d ++ [submission]))).

(** [First(&submission, "id = ?", submissionID)]. The preloaded project is
    not part of the row and no caller modelled here reads it. *)
Definition GetSubmissionByID (submissionID : string) : M Submission.t :=
  stmt (fun d =>
    match find (fun s => String.eqb (Submission.ID s) submissionID)
               (submissions d) with
    | Some s => (inr s, d)
    | None => (inl ErrRecordNotFound, d)
    end).

(** [db.Save(submission)]: the row with the key is written over. GORM
    upserts a preloaded association with ON CONFLICT DO NOTHING, which leaves
    the stored project and its members as they are. *)
Definition UpdateSubmission (submission : Submission.t) : M unit :=
  stmt (fun d =>
    (inr tt,
     with_submissions d
       (save_row (fun s => String.eqb (Submission.ID s) (Submission.ID submission))
                 submission (submissions d)))).

(** [Where("project_name = ?", projectName).First(&submission)] *)
Definition GetSubmissionByProjectName (projectName : string) : M Submission.t :=
  stmt (fun d =>
    match find (fun s => String.eqb (Submission.ProjectName s) projectName)
               (submissions d) with
    | Some s => (inr s, d)
    | None => (inl ErrRecordNotFound, d)
    end).

(** *** ProjectRepository *)

(** [Preload("TeamMembers")]: the rows of [team_members] whose foreign key is
    the project. *)
Definition preload_team (d : DB) (projectID : nat) : list TeamMember.t :=
  filter (fun m => TeamMember.ProjectID m = projectID) (team_members d).

(** [Preload("TeamMembers").First(&project, id)] *)
Definition GetProjectByID (id : nat) : M Project.t :=
  stmt (fun d =>
    match find (fun p => Nat.eqb (Project.ID p) id) (projects d) with
    | Some p => (inr (Project.with_TeamMembers p (preload_team d id)), d)
    | None => (inl ErrRecordNotFound, d)
    end).

(** Two projects claim the same submission ([submission_id] has a unique
    index; NULLs never collide). *)
Definition same_submission (p q : Project.t) : bool :=
  match Project.SubmissionID p, Project.SubmissionID q with
  | Some a, Some b => String.eqb a b
  | _, _ => false
  end.

(** [db.Create(project)]: the insert is refused by the unique indexes on
    [name] and [submission_id] and by the primary key; a zero [ID] is assigned
    from the serial. The struct comes back with its [ID] filled in (Go writes
    it through the pointer). The promotion passes a project without team
    members, so no association row is written here. *)
Definition CreateProject (project : Project.t) : M Project.t :=
  stmt (fun d =>
    if existsb (fun p => String.eqb (Project.Name p) (Project.Name project))
               (projects d)
    then (inl ErrDuplicatedKey, d)
    else if existsb (fun p => same_submission p project) (projects d)
    then (inl ErrDuplicatedKey, d)
    else if Nat.eqb (Project.ID project) 0
    then
      let created := Project.with_ID project (next_id Project.ID (projects d)) in
      (inr created,
       with_projects d (projects d ++ [Project.with_TeamMembers created []]))
    else if existsb (fun p => Nat.eqb (Project.ID p) (Project.ID project))
                    (projects d)
    then (inl ErrDuplicatedKey, d)
    else (inr project,
          with_projects d (projects d ++ [Project.with_TeamMembers project []]))).

(** [tx.Omit("TeamMembers").Save(project)] *)
Definition save_project (project : Project.t) : M unit :=
  stmt (fun d =>
    (inr tt,
     with_projects d
       (save_row (fun p => Nat.eqb (Project.ID p) (Project.ID project))
                 (Project.with_TeamMembers project []) (projects d)))).

(** [tx.Save(&member)]: a member with a zero [ID] is inserted under a fresh
    key, any other is written over the row with its key. *)
Definition save_member (member : TeamMember.t) : M unit :=
  stmt (fun d =>
    if Nat.eqb (TeamMember.ID member) 0
    then (inr tt,
          with_team_members d
            (team_members d
             ++ [TeamMember.with_ID member (next_id TeamMember.ID (team_members d))]))
    else (inr tt,
          with_team_members d
            (save_row (fun m => Nat.eqb (TeamMember.ID m) (TeamMember.ID member))
                      member (team_members d)))).

(** The loop over [project.TeamMembers]; it stops at the first error. *)
Fixpoint save_members (members : list TeamMember.t) : M unit :=
  match members with
  | [] => ret tt
  | member :: rest => save_member member ;;; save_members rest
  end.

(** [UpdateProject]: the project row and the members, in one transaction. *)
Definition UpdateProject (project : Project.t) : M unit :=
  Transaction (save_project project ;;; save_members (Project.TeamMembers project)).

(** [Where("name = ?", name).First(&project)] *)
Definition GetProjectByName (name : string) : M Project.t :=
  stmt (fun d =>
    match find (fun p => String.eqb (Project.Name p) name) (projects d) with
    | Some p => (inr p, d)
    | None => (inl ErrRecordNotFound, d)
    end).

(** The top of the 64-bit integer column [likes]. *)
Definition max_int64 : Z := 2 ^ 63 - 1.

Definition out_of_range : error := New "ERROR: bigint out of range (SQLSTATE 22003)".

(** [IncrementLikes]: [UPDATE projects SET likes = likes + 1 WHERE id = ?].
    A key without a row updates nothing and is no error; at the top of the
    column's range the database refuses the update. *)
Definition IncrementLikes (id : nat) : M unit :=
  stmt (fun d =>
    if existsb (fun p => Nat.eqb (Project.ID p) id
                         && (max_int64 <=? Project.Likes p))
               (projects d)
    then (inl out_of_range, d)
    else (inr tt,
          with_projects d
            (map (fun p => if Nat.eqb (Project.ID p) id
                           then Project.with_Likes p (Project.Likes p + 1)
                           else p)
                 (projects d)))).

(** The submissions a status filter keeps; the empty filter keeps all. *)
Definition with_status (status : string) (rows : list Submission.t)
    : list Submission.t :=
  if String.eqb status "" then rows
  else List.filter (fun s => String.eqb (Submission.Status s) status) rows.

(** [GetSubmissionsCount] *)
Definition GetSubmissionsCount (status : string) : M Z :=
  stmt (fun d => (inr (Z.of_nat (length (with_status status (submissions d)))), d)).

(** One [Where("status = ?", status).Count(&count)] of [GetSubmissionStats]. *)
Definition count_status (status : string) : M Z :=
  stmt (fun d =>
    (inr (Z.of_nat (length (List.filter
                              (fun s => String.eqb (Submission.Status s) status)
                              (submissions d)))), d)).

(** The loop of [GetSubmissionStats]: one count per status, stopped by the
    first error. *)
Fixpoint stats_loop (statuses : list string) (stats : gmap string Z)
    : M (gmap string Z) :=
  match statuses with
  | [] => ret stats
  | status :: rest =>
      count <- count_status status ;;
      stats_loop rest (<[status := count]> stats)
  end.

Definition GetSubmissionStats : M (gmap string Z) :=
  stats_loop
    ["pending"; "under_review"; "approved"; "rejected"; "requires_changes"] ∅.

(** [Preload("ApprovedProject.TeamMembers")]: the project a submission points
    to, with its team; nil without a link or when no row has the key. *)
Definition preload_project (d : DB) (approvedProjectID : option nat)
    : option Project.t :=
  match approvedProjectID with
  | Some id =>
      match find (fun p => Nat.eqb (Project.ID p) id) (projects d) with
      | Some p => Some (Project.with_TeamMembers p (preload_team d id))
      | None => None
      end
  | None => None
  end.

(** [GetSubmissionByID] with the preloaded association kept beside the row. *)
Definition GetSubmissionWithProject (submissionID : string)
    : M (Submission.t * option Project.t) :=
  stmt (fun d =>
    match find (fun s => String.eqb (Submission.ID s) submissionID)
               (submissions d) with
    | Some s => (inr (s, preload_project d (Submission.ApprovedProjectID s)), d)
    | None => (inl ErrRecordNotFound, d)
    end).

End Repository.

(** ** encoding/json, as far as the services use it: the codec of the
    [teamMembers] payload. *)
Class JSON := {
  Marshal : list TeamMemberInput.t -> error + string;
  Unmarshal : string -> error + list TeamMemberInput.t }.

(** ** Package services *)
Module Services.
Import Store Repository.
Local Open Scope store_scope.

Record SubmitProjectRequest := mkSubmitProjectRequest {
  PhotoLink : string;
  ProjectName : string;
  Description : string;
  Event : string;
  Categories : list string;
  TeamMembers : list TeamMemberInput.t;
  GithubLink : option string;
  WebsiteLink : option string;
  PlayLink : string;
  HowToPlay : string;
  AdditionalNotes : option string }.

Record SubmitProjectResponse := mkSubmitProjectResponse {
  Success : bool;
  SubmissionID : string;
  Message : string;
  EstimatedReviewTime : string;
  NextSteps : list string }.

Definition INVALID_CATEGORIES : error :=
  New "INVALID_CATEGORIES: Invalid categories provided".
Definition INVALID_EVENT : error :=
  New "INVALID_EVENT: Invalid event provided".
Definition INVALID_TEAM_MEMBERS : error :=
  New "INVALID_TEAM_MEMBERS: All team members must have name and twitter".
Definition DUPLICATE_PROJECT_NAME : error :=
  New "DUPLICATE_PROJECT_NAME: Project with this name already exists".
Definition DUPLICATE_SUBMISSION : error :=
  New "DUPLICATE_SUBMISSION: Submission with this project name already exists".
Definition project_not_found : error := New "project not found".

(** The loop over the team members in [validateSubmissionRequest]. *)
Fixpoint validate_members (members : list TeamMemberInput.t) : option error :=
  match members with
  | [] => None
  | member :: rest =>
      if String.eqb (TeamMemberInput.Name member) ""
         || String.eqb (TeamMemberInput.Twitter member) ""
      then Some INVALID_TEAM_MEMBERS
      else validate_members rest
  end.

(** [validateSubmissionRequest]: [None] is Go's nil error. *)
Definition validateSubmissionRequest (req : SubmitProjectRequest) : option error :=
  if negb (Utils.ValidateCategories (Categories req)) then Some INVALID_CATEGORIES
  else if negb (Utils.ValidateEvent (Event req)) then Some INVALID_EVENT
  else validate_members (TeamMembers req).

(** The loop of [UpdateProjectExtras] that builds [photoMap]: an entry enters
    the map when it has the key [memberName] and a non-empty [photoUrl]. *)
Fixpoint build_photoMap (teamPhotos : list (gmap string string))
    (photoMap : gmap string string) : gmap string string :=
  match teamPhotos with
  | [] => photoMap
  | teamPhoto :: rest =>
      build_photoMap rest
        (match teamPhoto !! "memberName" with
         | Some memberName =>
             match teamPhoto !! "photoUrl" with
             | Some photoUrl =>
                 if negb (String.eqb photoUrl "")
                 then <[memberName := photoUrl]> photoMap
                 else photoMap
             | None => photoMap
             end
         | None => photoMap
         end)
  end.

(** The loop over [project.TeamMembers] that writes the photos. *)
Definition apply_photoMap (photoMap : gmap string string)
    (members : list TeamMember.t) : list TeamMember.t :=
  map (fun m =>
         match photoMap !! TeamMember.Name m with
         | Some photoUrl => TeamMember.with_Image m photoUrl
         | None => m
         end) members.

Section WithJSON.
Context `{JSON}.

(** *** ProjectService *)

(** [SubmitProject]. [timestamp] and [draw] are the clock reading and the
    random values [GenerateSubmissionID] uses, [now] is the [time.Now()] of
    [SubmittedAt]. *)
Definition SubmitProject (req : SubmitProjectRequest)
    (timestamp : Z) (draw : nat -> nat) (now : Z) : M SubmitProjectResponse :=
  match validateSubmissionRequest req with
  | Some err => fail err
  | None =>
    fun w =>
    (* Check for duplicate project name *)
    match GetProjectByName (ProjectName req) w with
    | (inr _, w1) => (inl DUPLICATE_PROJECT_NAME, w1)
    | (inl err, w1) =>
      if negb (error_eqb err ErrRecordNotFound) then (inl err, w1)
      else
      (* Check for duplicate submission *)
      match GetSubmissionByProjectName (ProjectName req) w1 with
      | (inr _, w2) => (inl DUPLICATE_SUBMISSION, w2)
      | (inl err, w2) =>
        if negb (error_eqb err ErrRecordNotFound) then (inl err, w2)
        else
        (let submissionID := Utils.GenerateSubmissionID timestamp draw in
         teamMembersJSON <- lift (Marshal (TeamMembers req)) ;;
         let submission :=
           Submission.mk submissionID (ProjectName req) (Description req)
             (PhotoLink req) (Event req) (Categories req) teamMembersJSON
             (GithubLink req) (WebsiteLink req) (PlayLink req) (HowToPlay req)
             (AdditionalNotes req)
             "pending" None None [] now None None None None in
         CreateSubmission submission ;;;
         ret (mkSubmitProjectResponse true submissionID
                "Your project has been submitted successfully!"
                "2-3 business days"
                ["We'll review your submission within 2-3 business days";
                 "You'll receive an email update when review is complete";
                 "Use submission ID " +:+ submissionID
                   +:+ " to check status anytime"])) w2
      end
    end
  end.

(** *** SubmissionService *)

(** The first block of [createProjectFromSubmission]: the stored payload is
    decoded unless it is the empty string, which stands for no member. *)
Definition parse_team (teamMembers : string) : error + list TeamMemberInput.t :=
  if negb (String.eqb teamMembers "")
  then Unmarshal teamMembers
  else inr [].

(** The project built from the fields of a submission. *)
Definition project_of_submission (submission : Submission.t) : Project.t :=
  Project.mk 0
    (Submission.ProjectName submission)
    (Submission.PhotoLink submission)
    (Submission.Description submission)
    (Submission.Categories submission)
    (Submission.Event submission)
    ""
    0 0
    (Submission.HowToPlay submission)
    (Submission.PlayLink submission)
    (Submission.GithubLink submission)
    (Submission.WebsiteLink submission)
    []
    (Some (Submission.ID submission)).

(** The team member built from one entry of the payload. *)
Definition member_of_input (projectID : nat) (memberInput : TeamMemberInput.t)
    : TeamMember.t :=
  TeamMember.mk 0 projectID
    (TeamMemberInput.Name memberInput)
    (TeamMemberInput.Twitter memberInput)
    "".

(** [createProjectFromSubmission]. Go mutates [submission] through the
    pointer; here the updated struct is the result. *)
Definition createProjectFromSubmission (submission : Submission.t)
    : M Submission.t :=
  teamMembersInput <- lift (parse_team (Submission.TeamMembers submission)) ;;
  let project := project_of_submission submission in
  project <- CreateProject project ;;
  let teamMembers :=
    map (member_of_input (Project.ID project)) teamMembersInput in
  (if (0 <? length teamMembers)%nat
   then UpdateProject (Project.with_TeamMembers project teamMembers)
   else ret tt) ;;;
  ret (Submission.with_ApprovedProjectID submission (Some (Project.ID project))).

Definition is_decision (status : string) : bool :=
  String.eqb status "approved" || String.eqb status "rejected"
  || String.eqb status "requires_changes".

(** The guard of the promotion: approved now, not approved before, and no
    project linked yet. *)
Definition first_approval (submission : Submission.t)
    (previousStatus status : string) : bool :=
  String.eqb status "approved"
  && negb (String.eqb previousStatus "approved")
  && is_nil (Submission.ApprovedProjectID submission).

(** The [switch status] of [UpdateSubmissionStatus], which sets the
    timestamps and promotes on a first approval. *)
Definition status_switch (submission : Submission.t)
    (previousStatus status : string) (now : Z) : M Submission.t :=
  if String.eqb status "under_review" then
    ret (match Submission.ReviewStartedAt submission with
         | None => Submission.with_ReviewStartedAt submission (Some now)
         | Some _ => submission
         end)
  else if is_decision status then
    let submission := Submission.with_ReviewedAt submission (Some now) in
    if first_approval submission previousStatus status
    then
      submission <- createProjectFromSubmission submission ;;
      ret (Submission.with_PublishedAt submission (Some now))
    else ret submission
  else ret submission.

(** [UpdateSubmissionStatus]; [now] is its [time.Now()]. *)
Definition UpdateSubmissionStatus (submissionID : string) (status : string)
    (feedback : option string) (changesRequested : list string)
    (reviewerID : option nat) (now : Z) : M unit :=
  submission <- GetSubmissionByID submissionID ;;
  let previousStatus := Submission.Status submission in
  let submission :=
    Submission.with_review submission status feedback changesRequested
      reviewerID in
  submission <- status_switch submission previousStatus status now ;;
  UpdateSubmission submission.

(** [UpdateProjectExtras] *)
Definition UpdateProjectExtras (submissionID : string) (award : option string)
    (teamPhotos : list (gmap string string)) : M unit :=
  submission <- GetSubmissionByID submissionID ;;
  match Submission.ApprovedProjectID submission with
  | None => fail project_not_found
  | Some approvedProjectID =>
      project <- or_else (GetProjectByID approvedProjectID) project_not_found ;;
      let project :=
        match award with
        | Some a => Project.with_Award project a
        | None => project
        end in
      let project :=
        if (0 <? length teamPhotos)%nat
        then Project.with_TeamMembers project
               (apply_photoMap (build_photoMap teamPhotos ∅)
                               (Project.TeamMembers project))
        else project in
      UpdateProject project
  end.

End WithJSON.
End Services.

(** *** ProjectService, the operations on published projects *)
Module ProjectService.
Import Store Repository.
Local Open Scope store_scope.

(** [GetProject] *)
Definition GetProject (id : nat) : M Project.t := GetProjectByID id.

(** [LikeProject]: the project is looked up, then its counter is raised. *)
Definition LikeProject (id : nat) : M unit :=
  GetProjectByID id ;;; IncrementLikes id.

End ProjectService.

(** What the services take from the runtime to present a stored submission:
    [time.Time.Format] with the layout of the responses, and what
    [json.Unmarshal] has left in the slice when it returns an error (the
    services drop that error). *)
Class Render := {
  Format : Z -> string;
  Leftover : string -> list TeamMemberInput.t }.

(** *** SubmissionService, reading a submission *)
Module SubmissionService.
Import Store Repository.
Local Open Scope store_scope.

Record SubmissionWithTeamMembers := mkSubmissionWithTeamMembers {
  ID : string;
  ProjectName : string;
  Description : string;
  PhotoLink : string;
  Event : string;
  Categories : list string;
  TeamMembers : list TeamMemberInput.t;
  GithubLink : option string;
  WebsiteLink : option string;
  PlayLink : string;
  HowToPlay : string;
  AdditionalNotes : option string;
  Status : string;
  ReviewerID : option nat;
  Feedback : option string;
  ChangesRequested : list string;
  SubmittedAt : string;
  ReviewStartedAt : option string;
  ReviewedAt : option string;
  PublishedAt : option string;
  ApprovedProjectID : option nat;
  ApprovedProject : option Project.t }.

Section WithRuntime.
Context `{JSON} `{Render}.

(** The team members shown for a stored payload: decoded, with a decoding
    error dropped. *)
Definition shown_team (teamMembers : string) : list TeamMemberInput.t :=
  if negb (String.eqb teamMembers "")
  then match Unmarshal teamMembers with
       | inr l => l
       | inl _ => Leftover teamMembers
       end
  else [].

(** [GetSubmissionByID] of the service. *)
Definition GetSubmissionByID (submissionID : string)
    : M SubmissionWithTeamMembers :=
  found <- GetSubmissionWithProject submissionID ;;
  let submission := found.1 in
  ret (mkSubmissionWithTeamMembers
         (Submission.ID submission)
         (Submission.ProjectName submission)
         (Submission.Description submission)
         (Submission.PhotoLink submission)
         (Submission.Event submission)
         (Submission.Categories submission)
         (shown_team (Submission.TeamMembers submission))
         (Submission.GithubLink submission)
         (Submission.WebsiteLink submission)
         (Submission.PlayLink submission)
         (Submission.HowToPlay submission)
         (Submission.AdditionalNotes submission)
         (Submission.Status submission)
         (Submission.ReviewerID submission)
         (Submission.Feedback submission)
         (Submission.ChangesRequested submission)
         (Format (Submission.SubmittedAt submission))
         (option_map Format (Submission.ReviewStartedAt submission))
         (option_map Format (Submission.ReviewedAt submission))
         (option_map Format (Submission.PublishedAt submission))
         (Submission.ApprovedProjectID submission)
         found.2).

End WithRuntime.
End SubmissionService.

(** ** Package handlers: the review endpoint *)
Module Handlers.
Import Store.

(** The body of [PUT /submissions/:submissionId/review] once decoded. *)
Record ReviewRequest := mkReviewRequest {
  Status : string;
  Feedback : option string;
  ChangesRequested : list string;
  ReviewerID : nat }.

Record Response := mkResponse { StatusCode : nat; Code : string }.

(** The values of the [oneof] binding tag on [Status]. *)
Definition review_oneof : list string :=
  ["pending"; "under_review"; "approved"; "rejected"; "requires_changes"].

(** [c.ShouldBindJSON(&reviewRequest)] succeeds: [Status] is required and one
    of the listed values, [ReviewerID] is required (not the zero value). *)
Definition bind_review (r : ReviewRequest) : bool :=
  negb (String.eqb (Status r) "")
  && Utils.Contains review_oneof (Status r)
  && negb (Nat.eqb (ReviewerID r) 0).

Definition ReviewSubmission `{JSON} (submissionID : string)
    (reviewRequest : ReviewRequest) (now : Z) : World -> Response * World :=
  fun w =>
    if negb (Utils.ValidateSubmissionID submissionID)
    then (mkResponse 400 "INVALID_SUBMISSION_ID", w)
    else if negb (bind_review reviewRequest)
    then (mkResponse 400 "INVALID_REVIEW_DATA", w)
    else
      match Services.UpdateSubmissionStatus submissionID
              (Status reviewRequest) (Feedback reviewRequest)
              (ChangesRequested reviewRequest)
              (Some (ReviewerID reviewRequest)) now w with
      | (inl err, w') =>
          if String.eqb (Error err) "record not found"
          then (mkResponse 404 "SUBMISSION_NOT_FOUND", w')
          else (mkResponse 500 "INTERNAL_ERROR", w')
      | (inr _, w') => (mkResponse 200 "", w')
      end.

(** What the other handlers answer: a status with the body of a success, or
    a status with the error code of a refusal. *)
Inductive Answer (A : Type) : Type :=
| Sent (status : nat) (body : A)
| Refused (status : nat) (code : string).
Arguments Sent {A} status body.
Arguments Refused {A} status code.

(** [SubmitProject] of the submission handler. [bound] is the request
    [c.ShouldBindJSON] has decoded and accepted, [None] when it returns an
    error. *)
Definition SubmitProject `{JSON} (bound : option Services.SubmitProjectRequest)
    (timestamp : Z) (draw : nat -> nat) (now : Z)
    : World -> Answer Services.SubmitProjectResponse * World :=
  fun w =>
    match bound with
    | None => (Refused 400 "INVALID_SUBMISSION_DATA", w)
    | Some req =>
        match Services.SubmitProject req timestamp draw now w with
        | (inl err, w') =>
            if String.eqb (Error err)
                 "DUPLICATE_PROJECT_NAME: Project with this name already exists"
            then (Refused 409 "DUPLICATE_PROJECT_NAME", w')
            else if String.eqb (Error err)
                 "DUPLICATE_SUBMISSION: Submission with this project name already exists"
            then (Refused 409 "DUPLICATE_SUBMISSION", w')
            else if String.eqb (Error err)
                      "INVALID_CATEGORIES: Invalid categories provided"
                    || String.eqb (Error err)
                         "INVALID_EVENT: Invalid event provided"
                    || String.eqb (Error err)
                         "INVALID_TEAM_MEMBERS: All team members must have name and twitter"
            then (Refused 400 "VALIDATION_ERROR", w')
            else (Refused 500 "SUBMISSION_FAILED", w')
        | (inr response, w') => (Sent 201 response, w')
        end
    end.

(** The body of a submission status. *)
Module StatusBody.
Record t := mk {
  submissionId : string;
  status : string;
  projectName : string;
  submittedAt : string;
  reviewedAt : option string;
  feedback : option string;
  project : option Project.t;
  timeline : gmap string string }.
End StatusBody.

(** The [timeline] of [GetSubmissionStatus]: the submission instant, and the
    later instants that are set. *)
Definition build_timeline (s : SubmissionService.SubmissionWithTeamMembers)
    : gmap string string :=
  let timeline := {[ "submitted" := SubmissionService.SubmittedAt s ]} in
  let timeline :=
    match SubmissionService.ReviewStartedAt s with
    | Some t => <["review_started" := t]> timeline
    | None => timeline
    end in
  let timeline :=
    match SubmissionService.ReviewedAt s with
    | Some t => <["review_completed" := t]> timeline
    | None => timeline
    end in
  match SubmissionService.PublishedAt s with
  | Some t => <["published" := t]> timeline
  | None => timeline
  end.

(** [GetSubmissionStatus] *)
Definition GetSubmissionStatus `{JSON} `{Render} (submissionID : string)
    : World -> Answer StatusBody.t * World :=
  fun w =>
    if negb (Utils.ValidateSubmissionID submissionID)
    then (Refused 400 "INVALID_SUBMISSION_ID", w)
    else
      match SubmissionService.GetSubmissionByID submissionID w with
      | (inl err, w') =>
          if String.eqb (Error err) "record not found"
          then (Refused 404 "SUBMISSION_NOT_FOUND", w')
          else (Refused 500 "INTERNAL_ERROR", w')
      | (inr submission, w') =>
          (Sent 200
             (StatusBody.mk
                (SubmissionService.ID submission)
                (SubmissionService.Status submission)
                (SubmissionService.ProjectName submission)
                (SubmissionService.SubmittedAt submission)
                (SubmissionService.ReviewedAt submission)
                (SubmissionService.Feedback submission)
                (SubmissionService.ApprovedProject submission)
                (build_timeline submission)),
           w')
      end.

(** The body of [PUT /admin/submissions/:submissionId/project-extras]. *)
Record UpdateRequest := mkUpdateRequest {
  Award : option string;
  TeamPhotos : list (gmap string string) }.

(** [UpdateProjectExtras] of the submission handler; [bound] as in
    [SubmitProject]. *)
Definition UpdateProjectExtras (submissionID : string)
    (bound : option UpdateRequest) : World -> Response * World :=
  fun w =>
    if negb (Utils.ValidateSubmissionID submissionID)
    then (mkResponse 400 "INVALID_SUBMISSION_ID", w)
    else
      match bound with
      | None => (mkResponse 400 "INVALID_UPDATE_DATA", w)
      | Some updateRequest =>
          match Services.UpdateProjectExtras submissionID
                  (Award updateRequest) (TeamPhotos updateRequest) w with
          | (inl err, w') =>
              if String.eqb (Error err) "record not found"
              then (mkResponse 404 "SUBMISSION_NOT_FOUND", w')
              else if String.eqb (Error err) "project not found"
              then (mkResponse 404 "PROJECT_NOT_FOUND", w')
              else (mkResponse 500 "INTERNAL_ERROR", w')
          | (inr _, w') => (mkResponse 200 "", w')
          end
      end.

(** [GetProject] of the project handler. *)
Definition GetProject (idStr : string) : World -> Answer Project.t * World :=
  fun w =>
    match Utils.ParseUint32 idStr with
    | None => (Refused 400 "INVALID_PROJECT_ID", w)
    | Some id =>
        match ProjectService.GetProject id w with
        | (inl _, w') => (Refused 404 "PROJECT_NOT_FOUND", w')
        | (inr project, w') => (Sent 200 project, w')
        end
    end.

(** [LikeProject] of the project handler. The body carries the new count
    when the project could be read again, and none otherwise. *)
Definition LikeProject (idStr : string) : World -> Answer (option Z) * World :=
  fun w =>
    match Utils.ParseUint32 idStr with
    | None => (Refused 400 "INVALID_PROJECT_ID", w)
    | Some id =>
        match ProjectService.LikeProject id w with
        | (inl _, w') => (Refused 404 "PROJECT_NOT_FOUND", w')
        | (inr _, w') =>
            match ProjectService.GetProject id w' with
            | (inl _, w'') => (Sent 200 None, w'')
            | (inr project, w'') => (Sent 200 (Some (Project.Likes project)), w'')
            end
        end
    end.

End Handlers.

(** ** The credentials of the auth handler *)
Module AuthHandler.

(** [strings.Index(s, sep)] for a one-byte separator: the position of its
    first occurrence, [None] for Go's -1. *)
Fixpoint Index (s : string) (sep : ascii) : option nat :=
  match s with
  | EmptyString => None
  | String c r =>
      if Ascii.eqb c sep then Some 0%nat
      else match Index r sep with
           | Some i => Some (S i)
           | None => None
           end
  end.

(** [parseCredentials]: the input is cut at its first dash. *)
Definition parseCredentials (input : string) : string * string * bool :=
  match Index input "-" with
  | None => ("", "", false)
  | Some dashIndex =>
      if Nat.eqb dashIndex 0 || Nat.eqb dashIndex (String.length input - 1)
      then ("", "", false)
      else
        let username := String.substring 0 dashIndex input in
        let password :=
          String.substring (dashIndex + 1)
            (String.length input - (dashIndex + 1)) input in
        if (String.length username <? 2)%nat || (String.length password <? 3)%nat
        then ("", "", false)
        else (username, password, true)
  end.

End AuthHandler.

(** ** Package middleware: the rate limiter *)
Module Middleware.

(** [time.Minute], in the nanoseconds of [time.Duration]. *)
Definition Minute : Z := 60 * 1000000000.

(** [t.Sub(u)] on instants counted in nanoseconds: the difference, held at
    the ends of the 64-bit range of [time.Duration]. *)
Definition Sub (t u : Z) : Z :=
  if t - u <? - 2 ^ 63 then - 2 ^ 63
  else if 2 ^ 63 - 1 <? t - u then 2 ^ 63 - 1
  else t - u.

Record rateLimiter := mkRateLimiter {
  clients : gmap string (list Z);
  limit : Z;
  window : Z }.

Definition newRateLimiter (requestsPerMinute : Z) : rateLimiter :=
  mkRateLimiter ∅ requestsPerMinute Minute.

(** [allow], with [now] the reading of [time.Now()] it takes; the limiter
    after the call comes back with the verdict. *)
Definition allow (rl : rateLimiter) (now : Z) (clientID : string)
    : bool * rateLimiter :=
  (* Clean old entries *)
  let cleaned :=
    match clients rl !! clientID with
    | Some requests =>
        <[clientID := List.filter
                        (fun requestTime => Sub now requestTime <? window rl)
                        requests]> (clients rl)
    | None => clients rl
    end in
  let current := default [] (cleaned !! clientID) in
  (* Check if under limit *)
  if limit rl <=? Z.of_nat (length current)
  then (false, mkRateLimiter cleaned (limit rl) (window rl))
  else (true,
        mkRateLimiter (<[clientID := current ++ [now]]> cleaned)
          (limit rl) (window rl)).

(** [RateLimit]: the status the middleware answers with, [None] when the
    request goes on to the next handler. *)
Definition RateLimit (limiter : rateLimiter) (now : Z) (clientIP : string)
    : option (nat * string) * rateLimiter :=
  match allow limiter now clientIP with
  | (false, limiter') => (Some (429%nat, "RATE_LIMITED"), limiter')
  | (true, limiter') => (None, limiter')
  end.

(** The requests that reach one [RateLimit] middleware, in the order the
    mutex lets them in, each with the clock reading of its [allow]: the
    verdicts, [true] for a request let through. *)
Fixpoint verdicts (limiter : rateLimiter) (requests : list (Z * string))
    : list bool :=
  match requests with
  | [] => []
  | (now, clientIP) :: rest =>
      match RateLimit limiter now clientIP with
      | (Some _, limiter') => false :: verdicts limiter' rest
      | (None, limiter') => true :: verdicts limiter' rest
      end
  end.

(** The instants at which the requests of [client] were let through. *)
Fixpoint passes (client : string) (requests : list (Z * string))
    (verdict : list bool) : list Z :=
  match requests, verdict with
  | (now, clientIP) :: rest, ok :: oks =>
      if ok && String.eqb clientIP client
      then now :: passes client rest oks
      else passes client rest oks
  | _, _ => []
  end.

(** The clock readings never go back ([time.Now()] carries a monotonic
    reading, which [Sub] uses). *)
Fixpoint monotonic (last : Z) (requests : list (Z * string)) : bool :=
  match requests with
  | [] => true
  | (now, _) :: rest => (last <=? now) && monotonic now rest
  end.

End Middleware.

(** ** Reading the store, and the shape the schema keeps it in *)
Module Schema.
Import Store.

(** The submission stored under an identifier, if any. *)
Definition submission_of (d : DB) (submissionID : string) : option Submission.t :=
  find (fun s => String.eqb (Submission.ID s) submissionID) (submissions d).

(** The project row stored under a key, if any. *)
Definition project_of (d : DB) (id : nat) : option Project.t :=
  find (fun p => Nat.eqb (Project.ID p) id) (projects d).

Definition has_project_named (d : DB) (name : string) : bool :=
  existsb (fun p => String.eqb (Project.Name p) name) (projects d).

Definition has_submission_named (d : DB) (name : string) : bool :=
  existsb (fun s => String.eqb (Submission.ProjectName s) name) (submissions d).

(** Primary key of [team_members]: serial, so never zero, and unique. *)
Definition team_keys_ok (d : DB) : Prop :=
  NoDup (map TeamMember.ID (team_members d))
  /\ Forall (fun m => TeamMember.ID m <> 0%nat) (team_members d).

(** Foreign key of [team_members]: every member belongs to a stored project. *)
Definition team_refs_ok (d : DB) : Prop :=
  Forall (fun m => In (TeamMember.ProjectID m) (map Project.ID (projects d)))
         (team_members d).

(** The entry [teamPhoto] carries the photo [url] for the member [name]: it
    has both keys and its URL is not empty. *)
Definition usable_entry (teamPhoto : gmap string string) (name url : string)
    : Prop :=
  teamPhoto !! "memberName" = Some name
  /\ teamPhoto !! "photoUrl" = Some url
  /\ url <> "".

(** What [UpdateProjectExtras] does to one member of the project under the
    lookup [photoMap]. *)
Definition with_photo (photoMap : gmap string string) (m : TeamMember.t)
    : TeamMember.t :=
  match photoMap !! TeamMember.Name m with
  | Some photoUrl => TeamMember.with_Image m photoUrl
  | None => m
  end.

(** What links submissions and projects in a store the service has built. *)
Record consistent (d : DB) : Prop := mkConsistent {
  (* the primary key of submissions *)
  submission_ids : NoDup (map Submission.ID (submissions d));
  (* one submission per project name *)
  submission_names : NoDup (map Submission.ProjectName (submissions d));
  (* the primary key and the unique indexes of projects *)
  project_ids : NoDup (map Project.ID (projects d));
  project_names : NoDup (map Project.Name (projects d));
  project_submissions : NoDup (map Project.SubmissionID (projects d));
  (* every project was made from a stored submission of the same name *)
  project_origin : forall p, In p (projects d) ->
    exists s, In s (submissions d)
              /\ Project.SubmissionID p = Some (Submission.ID s)
              /\ Project.Name p = Submission.ProjectName s;
  (* a link points to the project made from the submission *)
  link_target : forall s pid, In s (submissions d) ->
    Submission.ApprovedProjectID s = Some pid ->
    exists p, In p (projects d) /\ Project.ID p = pid
              /\ Project.SubmissionID p = Some (Submission.ID s);
  (* an approved submission is linked, and linked means published *)
  approved_linked : forall s, In s (submissions d) ->
    Submission.Status s = "approved" ->
    Submission.ApprovedProjectID s <> None;
  published_linked : forall s, In s (submissions d) ->
    Submission.PublishedAt s <> None <-> Submission.ApprovedProjectID s <> None;
  (* the foreign key of team members *)
  team_refs : team_refs_ok d }.

(** What the submitter wrote in a submission. *)
Definition submitted (s : Submission.t) :=
  (Submission.ID s, Submission.ProjectName s, Submission.Description s,
   Submission.PhotoLink s, Submission.Event s, Submission.Categories s,
   Submission.TeamMembers s, Submission.GithubLink s, Submission.WebsiteLink s,
   Submission.PlayLink s, Submission.HowToPlay s, Submission.AdditionalNotes s,
   Submission.SubmittedAt s).

(** What a project row takes from its submission. *)
Definition listed (p : Project.t) :=
  (Project.ID p, Project.Name p, Project.Logo p, Project.Description p,
   Project.Categories p, Project.Event p, Project.HowToPlay p,
   Project.PlayURL p, Project.GithubURL p, Project.WebsiteURL p,
   Project.SubmissionID p, Project.Comments p).

(** Every stored status is one of the five. *)
Definition statuses_ok (d : DB) : Prop :=
  Forall (fun s => In (Submission.Status s) Utils.allowedStatuses) (submissions d).

End Schema.

(** ** The specification's wording of the photo lookup

    Section 4.4 step 5: every entry is a pair of member name and photo URL,
    and a duplicated name resolves to the last-seen entry. *)
Module Spec.

Fixpoint last_seen_lookup (teamPhotos : list (gmap string string))
    (name : string) : option string :=
  match teamPhotos with
  | [] => None
  | teamPhoto :: rest =>
      match last_seen_lookup rest name with
      | Some url => Some url
      | None =>
          if decide (teamPhoto !! "memberName" = Some name)
          then teamPhoto !! "photoUrl"
          else None
      end
  end.

End Spec.

(** ** The life of the store *)
Module Lifecycle.
Import Store.
Section WithJSON.
Context `{JSON}.

(** One request to the submission workflow served on the store [d], under
    some fault script. *)
Inductive step (d : DB) : DB -> Prop :=
| submit req timestamp draw now fs :
    step d (db (Services.SubmitProject req timestamp draw now (mkWorld fs d)).2)
| review id status feedback changesRequested reviewerID now fs :
    step d (db (Services.UpdateSubmissionStatus id status feedback
                  changesRequested reviewerID now (mkWorld fs d)).2)
| extras id award teamPhotos fs :
    step d (db (Services.UpdateProjectExtras id award teamPhotos
                  (mkWorld fs d)).2)
| like id fs :
    step d (db (ProjectService.LikeProject id (mkWorld fs d)).2).

(** The stores the service can be in, starting from the empty one. *)
Inductive reachable : DB -> Prop :=
| reach_empty : reachable (mkDB [] [] [])
| reach_step d d' : reachable d -> step d d' -> reachable d'.

(** One request answered by a handler that writes, on the store [d]. *)
Inductive answered (d : DB) : DB -> Prop :=
| post_submission bound timestamp draw now fs :
    answered d (db (Handlers.SubmitProject bound timestamp draw now
                      (mkWorld fs d)).2)
| put_review id reviewRequest now fs :
    answered d (db (Handlers.ReviewSubmission id reviewRequest now
                      (mkWorld fs d)).2)
| put_extras id bound fs :
    answered d (db (Handlers.UpdateProjectExtras id bound (mkWorld fs d)).2)
| post_like idStr fs :
    answered d (db (Handlers.LikeProject idStr (mkWorld fs d)).2).

(** The stores the API can be in, starting from the empty one. *)
Inductive served : DB -> Prop :=
| serve_empty : served (mkDB [] [] [])
| serve_next d d' : served d -> answered d d' -> served d'.

End WithJSON.
End Lifecycle.

(** ** Sample data *)
Module Sample.
Import Store.

Definition team : list TeamMemberInput.t := [TeamMemberInput.mk "Alex" "a"].

Definition payload : string := "[Alex,a]".

(** A codec that writes a team as a bracketed list of name,handle pairs and
    reads back the sample payload and the empty list; every other text is
    malformed to it. *)
Fixpoint encode (l : list TeamMemberInput.t) : string :=
  match l with
  | [] => ""
  | [m] => TeamMemberInput.Name m +:+ "," +:+ TeamMemberInput.Twitter m
  | m :: rest =>
      TeamMemberInput.Name m +:+ "," +:+ TeamMemberInput.Twitter m
      +:+ ";" +:+ encode rest
  end.

Definition codec : JSON := {|
  Marshal := fun l => inr ("[" +:+ encode l +:+ "]");
  Unmarshal := fun s =>
    if String.eqb s payload then inr team
    else if String.eqb s "[]" then inr []
    else inl SyntaxError |}.

Definition sid : string := "SUB-1749035470531-4W6UZJ".

(** The sample submission in the state the review fields say. *)
Definition stored (teamMembers status : string) (reviewerID : option nat)
    (feedback : option string) (reviewStartedAt reviewedAt publishedAt : option Z)
    (approvedProjectID : option nat) : Submission.t :=
  Submission.mk sid "MonadSwap" "A swap" "https://x/logo.png"
    "Hackathon 2024" ["DeFi"] teamMembers None None "https://x/play" "Click"
    None status reviewerID feedback [] 1000 reviewStartedAt reviewedAt
    publishedAt approvedProjectID.

Definition submission (teamMembers : string) : Submission.t :=
  stored teamMembers "pending" None None None None None None.

Definition db0 : DB := mkDB [submission payload] [] [].

Definition request : Services.SubmitProjectRequest :=
  Services.mkSubmitProjectRequest "https://x/logo.png" "MonadSwap" "A swap"
    "Hackathon 2024" ["DeFi"] team None None "https://x/play" "Click" None.

(** A request with a category outside the vocabulary. *)
Definition bad_request : Services.SubmitProjectRequest :=
  Services.mkSubmitProjectRequest "https://x/logo.png" "MetaSwap" "A swap"
    "Hackathon 2024" ["Metaverse"] team None None "https://x/play" "Click" None.

Definition entry (memberName photoUrl : string) : gmap string string :=
  <["memberName" := memberName]> (<["photoUrl" := photoUrl]> ∅).

(** The sample submission, its project and the member of its team, as the
    approval at instant 2000 by reviewer 7 stores them. *)
Definition approved_submission : Submission.t :=
  stored payload "approved" (Some 7%nat) None None (Some 2000) (Some 2000)
    (Some 1%nat).

Definition project : Project.t :=
  Project.mk 1 "MonadSwap" "https://x/logo.png" "A swap" ["DeFi"]
    "Hackathon 2024" "" 0 0 "Click" "https://x/play" None None []
    (Some sid).

Definition alex (image : string) : TeamMember.t :=
  TeamMember.mk 1 1 "Alex" "a" image.

Definition approved_db : DB :=
  mkDB [approved_submission] [project] [alex ""].

(** The same submission stored with a payload that does not decode. *)
Definition db_garbled : DB := mkDB [submission "{not json"] [] [].

(** The store after the sample submission went under review at instant 1500. *)
Definition under_review_db : DB :=
  mkDB [stored payload "under_review" (Some 7%nat) None (Some 1500) None None
          None] [] [].

(** The store after the approved submission was put back to pending. *)
Definition pending_db : DB :=
  mkDB [stored payload "pending" (Some 7%nat) (Some "later") None (Some 2000)
          (Some 2000) (Some 1%nat)]
       [project] [alex ""].

Definition photos : list (gmap string string) :=
  [entry "Alex" "https://x/y.png"].

(** The store after the photo of Alex was set on the approved project. *)
Definition extras_db : DB :=
  mkDB [approved_submission] [project] [alex "https://x/y.png"].

(** A run of the approval in which the store fails while the team members
    are being saved: the lookup of the submission, the insert of the project
    and the update of the project row go through, the insert of the first
    team member does not. *)
Definition interrupted : (error + unit) * World :=
  Services.UpdateSubmissionStatus (H := codec) sid "approved" None []
    (Some 7%nat) 2000 (mkWorld [false; false; false; true] db0).

(** The clock reading and the random values behind the sample identifier. *)
Definition clock : Z := 1749035470531.

Definition draw (i : nat) : nat := nth i [30; 22; 32; 20; 25; 9]%nat 0%nat.

(** A rendering of instants, as decimal numbers. *)
Definition render : Render := {|
  Format := Utils.FormatInt;
  Leftover := fun _ => [] |}.

(** The store after the approved project got one like. *)
Definition liked_db : DB :=
  mkDB [approved_submission]
       [Project.mk 1 "MonadSwap" "https://x/logo.png" "A swap" ["DeFi"]
          "Hackathon 2024" "" 1 0 "Click" "https://x/play" None None []
          (Some sid)]
       [alex ""].

(** The store an interrupted approval leaves behind: the project is there,
    the submission is still pending and not linked. *)
Definition orphan_db : DB := mkDB [submission payload] [project] [].

(** A stand-in for [strings.TrimSpace] on the sample slice: a single blank
    is trimmed away. *)
Definition trim (s : string) : string :=
  if String.eqb s " " then "" else s.

End Sample.

(** * Properties *)

(** ** Identifiers *)
Example FormatInt_sample : Utils.FormatInt 1749035470531 = "1749035470531".
Proof. reflexivity. Qed.

Example FormatInt_neg : Utils.FormatInt (-42) = "-42".
Proof. reflexivity. Qed.

Example Split_sample :
  Utils.Split "SUB-123-AB" "-" = ["SUB"; "123"; "AB"].
Proof. reflexivity. Qed.

Example Generate_sample :
  Utils.GenerateSubmissionID 1749035470531 (fun i => (i * 7 + 29)%nat)
  = "SUB-1749035470531-3AHOV2".
Proof. vm_compute. reflexivity. Qed.

Section Identifiers.
Import Utils.

Lemma append_cons c s t : String c s +:+ t = String c (s +:+ t).
Proof. reflexivity. Qed.

Lemma append_nil t : "" +:+ t = t.
Proof. reflexivity. Qed.

Lemma length_append s t :
  String.length (s +:+ t) = (String.length s + String.length t)%nat.
Proof. induction s as [|c s IH]; [reflexivity|]. rewrite append_cons. simpl. now rewrite IH. Qed.

Lemma Split_not_nil s sep : Split s sep <> [].
Proof.
  destruct s as [|c r]; simpl; [discriminate|].
  destruct (Ascii.eqb c sep); [discriminate|].
  destruct (Split r sep); discriminate.
Qed.

(** A string without the separator is one piece. *)
Lemma Split_one s sep : has_byte sep s = false -> Split s sep = [s].
Proof.
  induction s as [|c r IH]; simpl; [reflexivity|].
  destruct (Ascii.eqb c sep); [discriminate|].
  intros Hr. now rewrite (IH Hr).
Qed.

(** The first piece ends at the first separator. *)
Lemma Split_first s r sep :
  has_byte sep s = false -> Split (s +:+ String sep r) sep = s :: Split r sep.
Proof.
  induction s as [|c s IH]; intros Hs.
  - rewrite append_nil. simpl. now rewrite Ascii.eqb_refl.
  - rewrite append_cons. simpl in *.
    destruct (Ascii.eqb c sep); [discriminate|].
    now rewrite (IH Hs).
Qed.

(** [Split] cuts exactly at the separators: its pieces are free of the
    separator and joining them gives the string back. *)
Lemma Split_Join s sep :
  Join (Split s sep) sep = s
  /\ Forall (fun p => has_byte sep p = false) (Split s sep).
Proof.
  induction s as [|c r [IHj IHf]]; simpl.
  - split; [reflexivity|]. repeat constructor.
  - destruct (Ascii.eqb c sep) eqn:Hc.
    + apply Ascii.eqb_eq in Hc. subst c. split.
      * destruct (Split r sep) as [|p ps] eqn:Hs.
        { now apply Split_not_nil in Hs. }
        change (Join ("" :: p :: ps) sep) with ("" +:+ String sep (Join (p :: ps) sep)).
        now rewrite append_nil, IHj.
      * constructor; [reflexivity|assumption].
    + destruct (Split r sep) as [|p ps] eqn:Hs.
      { now apply Split_not_nil in Hs. }
      split.
      * destruct ps as [|q qs].
        { simpl in *. now rewrite IHj. }
        change (Join (String c p :: q :: qs) sep)
          with (String c p +:+ String sep (Join (q :: qs) sep)).
        rewrite append_cons. f_equal. exact IHj.
      * inversion IHf; subst. constructor; [|assumption].
        simpl. now rewrite Hc.
Qed.

Lemma Split_three sep a b c :
  has_byte sep a = false -> has_byte sep b = false -> has_byte sep c = false ->
  Split (a +:+ String sep (b +:+ String sep c)) sep = [a; b; c].
Proof.
  intros Ha Hb Hc.
  rewrite (Split_first _ _ _ Ha), (Split_first _ _ _ Hb), (Split_one _ _ Hc).
  reflexivity.
Qed.

(** *** The decimal printer *)

Lemma digit_is_digit n : (n < 10)%N -> is_digit (digit n) = true.
Proof.
  intros Hn. unfold is_digit, digit.
  rewrite N_ascii_embedding by lia.
  apply andb_true_iff. split; apply N.leb_le; lia.
Qed.

Lemma fmt_digits_all_digits fuel : forall n acc,
  all_digits acc = true -> all_digits (fmt_digits fuel n acc) = true.
Proof.
  induction fuel as [|f IH]; intros n acc Hacc; simpl; [assumption|].
  assert (Hd : all_digits (String (digit (n mod 10)) acc) = true).
  { simpl. rewrite digit_is_digit, Hacc; [reflexivity|].
    apply N.mod_lt. discriminate. }
  destruct (n / 10 =? 0)%N; [assumption|].
  now apply IH.
Qed.

Lemma all_digits_no_hyphen s : all_digits s = true -> has_byte "-" s = false.
Proof.
  induction s as [|c r IH]; simpl; [reflexivity|].
  intros Hc. apply andb_true_iff in Hc as [Hc Hr].
  destruct (Ascii.eqb c "-") eqn:E; [|now apply IH].
  apply Ascii.eqb_eq in E. subst c. discriminate.
Qed.

Lemma fmt_digits_length_ge fuel : forall n acc,
  (String.length acc <= String.length (fmt_digits fuel n acc))%nat.
Proof.
  induction fuel as [|f IH]; intros n acc; simpl; [lia|].
  destruct (n / 10 =? 0)%N; simpl; [lia|].
  specialize (IH (n / 10)%N (String (digit (n mod 10)) acc)). simpl in IH. lia.
Qed.

(** A number of at least [10^k] prints with more than [k] digits, given the
    fuel for them. *)
Lemma fmt_digits_length fuel : forall k n acc,
  (k < fuel)%nat -> (10 ^ N.of_nat k <= n)%N ->
  (String.length acc + k + 1 <= String.length (fmt_digits fuel n acc))%nat.
Proof.
  induction fuel as [|f IH]; intros k n acc Hk Hn; [lia|].
  simpl. destruct (n / 10 =? 0)%N eqn:Hq.
  - apply N.eqb_eq in Hq.
    destruct k as [|k]; [simpl; lia|].
    exfalso.
    assert (10 <= n)%N.
    { etransitivity; [|exact Hn].
      rewrite Nat2N.inj_succ, N.pow_succ_r'.
      assert (10 ^ N.of_nat k <> 0)%N by (apply N.pow_nonzero; discriminate).
      lia. }
    assert (1 <= n / 10)%N by (apply N.div_le_lower_bound; lia).
    lia.
  - destruct k as [|k].
    + pose proof (fmt_digits_length_ge f (n / 10)%N (String (digit (n mod 10)) acc)) as L.
      simpl in L. lia.
    + assert (Hn' : (10 ^ N.of_nat k <= n / 10)%N).
      { apply N.div_le_lower_bound; [lia|].
        rewrite Nat2N.inj_succ, N.pow_succ_r' in Hn. exact Hn. }
      specialize (IH k (n / 10)%N (String (digit (n mod 10)) acc) ltac:(lia) Hn').
      simpl in IH. lia.
Qed.

Lemma FormatInt_clock timestamp :
  10 ^ 9 <= timestamp ->
  has_byte "-" (FormatInt timestamp) = false
  /\ (10 <= String.length (FormatInt timestamp))%nat.
Proof.
  intros Hts. unfold FormatInt.
  assert (Hpos : (timestamp <? 0) = false) by (apply Z.ltb_ge; lia).
  rewrite Hpos. cbv zeta. split.
  - apply all_digits_no_hyphen, fmt_digits_all_digits. reflexivity.
  - set (n := Z.abs_N timestamp).
    assert (Hn : (10 ^ 9 <= n)%N).
    { unfold n. apply N2Z.inj_le. rewrite N2Z.inj_abs_N, Z.abs_eq by lia.
      exact Hts. }
    pose proof (fmt_digits_length (S (N.to_nat (N.log2 n))) 9 n EmptyString) as L.
    assert (9 < S (N.to_nat (N.log2 n)))%nat.
    { assert (2 ^ 9 <= n)%N by (etransitivity; [|exact Hn]; vm_compute; discriminate).
      assert (9 <= N.log2 n)%N by (apply N.log2_le_pow2; lia).
      lia. }
    exact (L ltac:(assumption) Hn).
Qed.

(** *** The random part *)

Lemma charset_no_hyphen i :
  (i < 36)%nat -> Ascii.eqb (charset_at i) "-" = false.
Proof.
  intros Hi.
  do 36 (destruct i as [|i]; [reflexivity|]). lia.
Qed.

Lemma hash_loop_shape n : forall i draw,
  String.length (hash_loop n i draw) = n
  /\ has_byte "-" (hash_loop n i draw) = false.
Proof.
  induction n as [|n IH]; intros i draw; [split; reflexivity|].
  destruct (IH (S i) draw) as [IHl IHh].
  change (hash_loop (S n) i draw)
    with (String (charset_at (Intn (draw i) 36)) (hash_loop n (S i) draw)).
  cbn [String.length has_byte]. split; [now rewrite IHl|].
  rewrite charset_no_hyphen; [exact IHh|].
  unfold Intn. apply Nat.mod_upper_bound. discriminate.
Qed.

Lemma Validate_iff_split s :
  ValidateSubmissionID s = true <->
  exists p1 p2 p3, Split s "-" = [p1; p2; p3] /\ p1 = "SUB"
    /\ (10 <= String.length p2)%nat /\ String.length p3 = 6%nat.
Proof.
  unfold ValidateSubmissionID. split.
  - destruct (Split s "-") as [|p1 [|p2 [|p3 [|p4 ps]]]]; try discriminate.
    destruct (String.eqb p1 "SUB") eqn:E1; [|discriminate].
    destruct (String.length p2 <? 10)%nat eqn:E2; [discriminate|].
    destruct (String.length p3 =? 6)%nat eqn:E3; [|discriminate].
    intros _. exists p1, p2, p3.
    apply String.eqb_eq in E1. apply Nat.ltb_ge in E2. apply Nat.eqb_eq in E3.
    auto.
  - intros (p1 & p2 & p3 & -> & -> & H2 & H3).
    apply Nat.ltb_ge in H2. apply Nat.eqb_eq in H3.
    now rewrite String.eqb_refl, H2, H3.
Qed.

Lemma Validate_iff_shape s :
  ValidateSubmissionID s = true <->
  exists p2 p3, s = "SUB-" +:+ p2 +:+ String "-" p3
    /\ has_byte "-" p2 = false /\ has_byte "-" p3 = false
    /\ (10 <= String.length p2)%nat /\ String.length p3 = 6%nat.
Proof.
  rewrite Validate_iff_split. split.
  - intros (p1 & p2 & p3 & Hs & -> & H2 & H3).
    destruct (Split_Join s "-") as [Hj Hf]. rewrite Hs in Hj, Hf.
    exists p2, p3. inversion Hf as [|? ? _ Hf']; subst.
    inversion Hf' as [|? ? Hp2 Hf'']; subst.
    inversion Hf'' as [|? ? Hp3 _]; subst.
    repeat split; assumption.
  - intros (p2 & p3 & -> & Hp2 & Hp3 & H2 & H3).
    exists "SUB", p2, p3. repeat split; try assumption.
    change ("SUB-" +:+ p2 +:+ String "-" p3)
      with ("SUB" +:+ String "-" (p2 +:+ String "-" p3)).
    now apply Split_three.
Qed.

Lemma Generate_valid timestamp draw :
  10 ^ 9 <= timestamp ->
  ValidateSubmissionID (GenerateSubmissionID timestamp draw) = true.
Proof.
  intros Hts. apply Validate_iff_shape.
  destruct (FormatInt_clock timestamp Hts) as [Hh Hl].
  destruct (hash_loop_shape 6 0 draw) as [Rl Rh].
  exists (FormatInt timestamp), (generateRandomHash 6 draw).
  repeat split; assumption.
Qed.

(** A number below [10^(k+1)] prints with at most [k+1] digits. *)
Lemma fmt_digits_length_le fuel : forall k n acc,
  (n < 10 ^ N.of_nat (S k))%N ->
  (String.length (fmt_digits fuel n acc) <= String.length acc + k + 1)%nat.
Proof.
  induction fuel as [|f IH]; intros k n acc Hn; [simpl; lia|].
  simpl. destruct (n / 10 =? 0)%N eqn:Hq; [simpl; lia|].
  apply N.eqb_neq in Hq.
  destruct k as [|k].
  - exfalso. apply Hq. apply N.div_small.
    change (10 ^ N.of_nat 1)%N with 10%N in Hn. exact Hn.
  - assert (Hn' : (n / 10 < 10 ^ N.of_nat (S k))%N).
    { apply N.Div0.div_lt_upper_bound.
      rewrite (Nat2N.inj_succ (S k)), N.pow_succ_r' in Hn. exact Hn. }
    specialize (IH k (n / 10)%N (String (digit (n mod 10)) acc) Hn').
    simpl in IH. lia.
Qed.

(** Before [10^9] the printer gives at most nine digits. *)
Lemma FormatInt_early timestamp :
  0 <= timestamp < 10 ^ 9 ->
  has_byte "-" (FormatInt timestamp) = false
  /\ (String.length (FormatInt timestamp) <= 9)%nat.
Proof.
  intros [H0 H9]. unfold FormatInt.
  assert (Hpos : (timestamp <? 0) = false) by (apply Z.ltb_ge; lia).
  rewrite Hpos. cbv zeta. split.
  - apply all_digits_no_hyphen, fmt_digits_all_digits. reflexivity.
  - set (n := Z.abs_N timestamp).
    assert (Hn : (n < 10 ^ N.of_nat 9)%N).
    { unfold n. apply N2Z.inj_lt. rewrite N2Z.inj_abs_N, Z.abs_eq by lia.
      exact H9. }
    pose proof (fmt_digits_length_le (S (N.to_nat (N.log2 n))) 8 n EmptyString Hn) as L.
    cbn [String.length] in L. lia.
Qed.

(** A negative number prints with a leading minus sign, the same byte as the
    hyphen of the identifier. *)
Lemma FormatInt_negative timestamp :
  timestamp < 0 ->
  exists body, FormatInt timestamp = String "-" body
    /\ has_byte "-" body = false.
Proof.
  intros Hneg. unfold FormatInt.
  assert (Hlt : (timestamp <? 0) = true) by (apply Z.ltb_lt; lia).
  rewrite Hlt. cbv zeta. eexists. split; [reflexivity|].
  apply all_digits_no_hyphen, fmt_digits_all_digits. reflexivity.
Qed.

(** The pieces [strings.Split] finds in a generated identifier, by the sign
    of the clock reading. *)
Lemma Generate_Split timestamp draw :
  0 <= timestamp ->
  Split (GenerateSubmissionID timestamp draw) "-"
  = ["SUB"; FormatInt timestamp; generateRandomHash 6 draw].
Proof.
  intros H0.
  assert (Hh : has_byte "-" (FormatInt timestamp) = false).
  { destruct (Z_lt_le_dec timestamp (10 ^ 9)) as [Hlt|Hge].
    - apply FormatInt_early. split; assumption.
    - now apply FormatInt_clock. }
  destruct (hash_loop_shape 6 0 draw) as [_ Rh].
  unfold GenerateSubmissionID. cbv zeta.
  change ("SUB-" +:+ FormatInt timestamp +:+ String "-" (generateRandomHash 6 draw))
    with ("SUB" +:+ String "-"
            (FormatInt timestamp +:+ String "-" (generateRandomHash 6 draw))).
  now apply Split_three.
Qed.

Lemma Generate_Split_negative timestamp draw :
  timestamp < 0 ->
  exists body,
    FormatInt timestamp = String "-" body
    /\ Split (GenerateSubmissionID timestamp draw) "-"
       = ["SUB"; ""; body; generateRandomHash 6 draw].
Proof.
  intros Hneg.
  destruct (FormatInt_negative timestamp Hneg) as (body & HF & Hb).
  destruct (hash_loop_shape 6 0 draw) as [_ Rh].
  exists body. split; [exact HF|].
  unfold GenerateSubmissionID. cbv zeta. rewrite HF.
  change ("SUB-" +:+ String "-" body +:+ String "-" (generateRandomHash 6 draw))
    with ("SUB" +:+ String "-"
            ("" +:+ String "-" (body +:+ String "-" (generateRandomHash 6 draw)))).
  rewrite (Split_first "SUB" _ "-") by reflexivity.
  rewrite (Split_first "" _ "-") by reflexivity.
  rewrite (Split_first body _ "-" Hb).
  now rewrite (Split_one (generateRandomHash 6 draw) "-" Rh).
Qed.

(** Before [10^9], negative readings included, the generated identifier does
    not pass the validator. *)
Lemma Generate_early_invalid timestamp draw :
  timestamp < 10 ^ 9 ->
  ValidateSubmissionID (GenerateSubmissionID timestamp draw) = false.
Proof.
  intros H9. unfold ValidateSubmissionID.
  destruct (Z_lt_le_dec timestamp 0) as [Hneg|H0].
  - destruct (Generate_Split_negative timestamp draw Hneg) as (body & _ & ->).
    reflexivity.
  - rewrite (Generate_Split timestamp draw H0).
    destruct (FormatInt_early timestamp (conj H0 H9)) as [_ Hl].
    rewrite String.eqb_refl.
    assert (E : (String.length (FormatInt timestamp) <? 10)%nat = true)
      by (apply Nat.ltb_lt; lia).
    now rewrite E.
Qed.

Lemma Generate_valid_iff timestamp draw :
  ValidateSubmissionID (GenerateSubmissionID timestamp draw) = true
  <-> 10 ^ 9 <= timestamp.
Proof.
  split; [|apply Generate_valid].
  intros Hv. destruct (Z_lt_le_dec timestamp (10 ^ 9)) as [Hlt|Hge]; [|exact Hge].
  rewrite (Generate_early_invalid timestamp draw Hlt) in Hv. discriminate.
Qed.

(** C4, as the claim words it, fails: the generator prints whatever the clock
    reads, and the validator wants ten bytes or more between the hyphens and
    no further hyphen. One millisecond before [10^9] the decimal part has nine
    digits; with the clock before the epoch the minus sign of [%d] is a
    fourth hyphen-delimited part. *)
Lemma C4_counterexample :
  let draw := fun i : nat => (i * 7 + 29)%nat in
  GenerateSubmissionID 999999999 draw = "SUB-999999999-3AHOV2"
  /\ ValidateSubmissionID (GenerateSubmissionID 999999999 draw) = false
  /\ GenerateSubmissionID (-1749035470531) draw = "SUB--1749035470531-3AHOV2"
  /\ Split (GenerateSubmissionID (-1749035470531) draw) "-"
     = ["SUB"; ""; "1749035470531"; "3AHOV2"]
  /\ ValidateSubmissionID (GenerateSubmissionID (-1749035470531) draw) = false
  /\ ~ (forall timestamp draw,
          ValidateSubmissionID (GenerateSubmissionID timestamp draw) = true).
Proof.
  cbv zeta.
  assert (A : ValidateSubmissionID
                (GenerateSubmissionID 999999999 (fun i : nat => (i * 7 + 29)%nat))
              = false) by (vm_compute; reflexivity).
  split; [vm_compute; reflexivity|]. split; [exact A|].
  split; [vm_compute; reflexivity|]. split; [vm_compute; reflexivity|].
  split; [vm_compute; reflexivity|].
  intros Hall. rewrite Hall in A. discriminate.
Qed.

(** C4 (amended). The identifier the generator produces passes
    [ValidateSubmissionID] exactly when the clock reads at least 10^9
    milliseconds since the epoch (any instant after 12 January 1970): from
    there on every produced identifier is accepted, before it none is. And
    [ValidateSubmissionID] accepts a string exactly when [strings.Split] on
    the hyphen gives three parts, the first the literal SUB, the second of
    length at least 10, the third of length exactly 6, that is exactly the
    strings SUB-p2-p3 with hyphen-free p2 and p3 of those lengths. The two
    examples of the specification are rejected and accepted as it says. *)
Theorem C4_identifier_format (timestamp : Z) (draw : nat -> nat) (s : string) :
  (10 ^ 9 <= timestamp ->
   ValidateSubmissionID (GenerateSubmissionID timestamp draw) = true)
  /\ (timestamp < 10 ^ 9 ->
      ValidateSubmissionID (GenerateSubmissionID timestamp draw) = false)
  /\ (ValidateSubmissionID s = true <->
      exists p1 p2 p3, Split s "-" = [p1; p2; p3] /\ p1 = "SUB"
        /\ (10 <= String.length p2)%nat /\ String.length p3 = 6%nat)
  /\ (ValidateSubmissionID s = true <->
      exists p2 p3, s = "SUB-" +:+ p2 +:+ String "-" p3
        /\ has_byte "-" p2 = false /\ has_byte "-" p3 = false
        /\ (10 <= String.length p2)%nat /\ String.length p3 = 6%nat)
  /\ ValidateSubmissionID "SUB-123-AB" = false
  /\ ValidateSubmissionID "SUB-1749035470531-4W6UZJ" = true.
Proof.
  split; [apply Generate_valid|].
  split; [apply Generate_early_invalid|].
  split; [apply Validate_iff_split|].
  split; [apply Validate_iff_shape|].
  split; reflexivity.
Qed.

Lemma C4_identifier_format_witness :
  10 ^ 9 <= 1749035470531
  /\ ValidateSubmissionID
       (GenerateSubmissionID 1749035470531 (fun i => (i * 7 + 29)%nat)) = true.
Proof.
  assert (Hclock : 10 ^ 9 <= 1749035470531) by (vm_compute; discriminate).
  split; [exact Hclock|].
  exact (proj1 (C4_identifier_format 1749035470531
                  (fun i => (i * 7 + 29)%nat) "") Hclock).
Defined.

End Identifiers.

(** ** Running store operations *)
Section Running.
Import Store.

Lemma bind_inv {A B} (m : M A) (k : A -> M B) w r w' :
  bind m k w = (r, w') ->
  (exists e, m w = (inl e, w') /\ r = inl e)
  \/ (exists a w1, m w = (inr a, w1) /\ k a w1 = (r, w')).
Proof.
  unfold bind. destruct (m w) as [[e|a] w1]; intros E.
  - left. exists e. now inversion E.
  - right. now exists a, w1.
Qed.

(** A statement either hits a fault and changes nothing, or runs. *)
Lemma stmt_inv {A} (run : DB -> (error + A) * DB) w r w' :
  stmt run w = (r, w') ->
  (r = inl ErrBadConn /\ db w' = db w) \/ run (db w) = (r, db w').
Proof.
  unfold stmt. destruct (faults w) as [|[|] fs].
  - destruct (run (db w)) as [r0 d0]. intros E. inversion E. now right.
  - intros E. inversion E. now left.
  - destruct (run (db w)) as [r0 d0]. intros E. inversion E. now right.
Qed.

(** With the fault script exhausted a statement just runs. *)
Lemma stmt_calm {A} (run : DB -> (error + A) * DB) d :
  stmt run (mkWorld [] d) = ((run d).1, mkWorld [] (run d).2).
Proof. unfold stmt. simpl. now destruct (run d). Qed.

Lemma Transaction_inr {A} (body : M A) w a w' :
  Transaction body w = (inr a, w') ->
  exists w1, body w = (inr a, w1) /\ db w' = db w1.
Proof.
  unfold Transaction. destruct (body w) as [[e|a0] w1]; [discriminate|].
  destruct (faults w1) as [|[|] fs]; intros E; inversion E; subst.
  - now exists w'.
  - now exists w1.
Qed.

(** A transaction that fails leaves the database as it found it. *)
Lemma Transaction_inl {A} (body : M A) w e w' :
  Transaction body w = (inl e, w') -> db w' = db w.
Proof.
  unfold Transaction. destruct (body w) as [[e0|a0] w1].
  - intros E. now inversion E.
  - destruct (faults w1) as [|[|] fs]; intros E; inversion E; reflexivity.
Qed.

End Running.

(** Inverts the run of a sequence of store operations found in hypothesis
    [H], one [bind] at a time. *)
Tactic Notation "run_bind" hyp(Hyp) "as" ident(a) ident(w1) ident(H1) ident(H2) :=
  let e := fresh "e" in
  apply bind_inv in Hyp as [(e & H1 & H2) | (a & w1 & H1 & H2)].

Tactic Notation "run_bind" hyp(Hyp) :=
  let a := fresh "a" in
  let w1 := fresh "w" in
  let H1 := fresh "Hrun" in
  let H2 := fresh "Hrest" in
  run_bind Hyp as a w1 H1 H2.

(** ** Tables *)
Section Tables.
Import Store Repository.

Lemma next_id_above {A} (key : A -> nat) rows r :
  In r rows -> (key r < next_id key rows)%nat.
Proof.
  unfold next_id. induction rows as [|x rows IH]; simpl; [tauto|].
  intros [->|Hin]; [lia|]. specialize (IH Hin). lia.
Qed.

Lemma next_id_snoc {A} (key : A -> nat) rows r :
  key r = next_id key rows -> next_id key (rows ++ [r]) = S (next_id key rows).
Proof.
  unfold next_id. intros Hk. f_equal.
  assert (G : foldr (fun r0 top => Nat.max (key r0) top) 0%nat (rows ++ [r])
            = Nat.max (key r) (foldr (fun r0 top => Nat.max (key r0) top) 0%nat rows)).
  { clear Hk. induction rows as [|y rows IH]; simpl; [lia|]. rewrite IH. lia. }
  rewrite G. lia.
Qed.

Lemma existsb_false_map {A} (same : A -> bool) (row : A) rows :
  existsb same rows = false -> map (fun r => if same r then row else r) rows = rows.
Proof.
  induction rows as [|r rows IH]; simpl; [reflexivity|].
  intros E. apply orb_false_iff in E as [E1 E2]. now rewrite E1, IH.
Qed.

(** Saving over the row just appended under a fresh key touches no other
    row. *)
Lemma save_row_last {A} (key : A -> nat) (row row' : A) rows :
  key row = next_id key rows ->
  save_row (fun r => Nat.eqb (key r) (key row)) row' (rows ++ [row])
  = rows ++ [row'].
Proof.
  intros Hk. unfold save_row.
  assert (E : existsb (fun r => Nat.eqb (key r) (key row)) (rows ++ [row]) = true).
  { apply existsb_exists. exists row. split; [apply in_app_iff; simpl; tauto|].
    apply Nat.eqb_refl. }
  rewrite E, map_app. simpl. rewrite Nat.eqb_refl. f_equal.
  apply existsb_false_map.
  apply not_true_is_false. intros F. apply existsb_exists in F as (r & Hin & F).
  apply Nat.eqb_eq in F. pose proof (next_id_above key rows r Hin). lia.
Qed.

(** After a save the row is what a lookup by key returns. *)
Lemma find_save_row {A} (same : A -> bool) (row : A) rows old :
  find same rows = Some old -> same row = true ->
  find same (save_row same row rows) = Some row.
Proof.
  intros Hf Hs. unfold save_row.
  assert (E : existsb same rows = true).
  { apply existsb_exists. exists old. apply find_some in Hf. tauto. }
  rewrite E. clear E.
  induction rows as [|r rows IH]; simpl in *; [discriminate|].
  destruct (same r) eqn:Er; simpl.
  - now rewrite Hs.
  - rewrite Er. now apply IH.
Qed.

End Tables.

(** ** The repository operations, statement by statement *)
Section RepositoryFacts.
Import Store Repository Schema.

Lemma GetSubmissionByID_inv id w r w' :
  GetSubmissionByID id w = (r, w') ->
  db w' = db w
  /\ (r = inl ErrBadConn
      \/ r = match submission_of (db w) id with
             | Some s => inr s
             | None => inl ErrRecordNotFound
             end).
Proof.
  intros E. apply stmt_inv in E as [[-> E]|E]; [tauto|].
  unfold submission_of.
  destruct (find _ (submissions (db w))); inversion E; subst; auto.
Qed.

Lemma UpdateSubmission_inv s w r w' :
  UpdateSubmission s w = (r, w') ->
  projects (db w') = projects (db w)
  /\ team_members (db w') = team_members (db w)
  /\ ((exists e, r = inl e /\ submissions (db w') = submissions (db w))
      \/ (r = inr tt
          /\ submissions (db w')
             = save_row (fun x => String.eqb (Submission.ID x) (Submission.ID s))
                        s (submissions (db w)))).
Proof.
  intros E. apply stmt_inv in E as [[-> E]|E].
  - rewrite E. repeat split. left. now exists ErrBadConn.
  - apply pair_equal_spec in E as [Hr Hd]. rewrite <- Hd. simpl. repeat split. now right.
Qed.

Lemma CreateProject_inv p w r w' :
  CreateProject p w = (r, w') ->
  submissions (db w') = submissions (db w)
  /\ team_members (db w') = team_members (db w)
  /\ match r with
     | inl _ => projects (db w') = projects (db w)
     | inr created =>
         Project.ID p = 0%nat ->
         created = Project.with_ID p (next_id Project.ID (projects (db w)))
         /\ projects (db w')
            = projects (db w) ++ [Project.with_TeamMembers created []]
     end.
Proof.
  intros E. apply stmt_inv in E as [[-> E]|E]; [now rewrite E|].
  destruct (existsb _ (projects (db w))).
  { apply pair_equal_spec in E as [Hr Hd]. subst r. now rewrite <- Hd. }
  destruct (existsb _ (projects (db w))).
  { apply pair_equal_spec in E as [Hr Hd]. subst r. now rewrite <- Hd. }
  destruct (Nat.eqb (Project.ID p) 0) eqn:Hz.
  { apply pair_equal_spec in E as [Hr Hd]. subst r. rewrite <- Hd. simpl. auto. }
  apply Nat.eqb_neq in Hz.
  destruct (existsb _ (projects (db w))); apply pair_equal_spec in E as [Hr Hd];
    subst r; rewrite <- Hd; simpl; repeat split; intros; contradiction.
Qed.

Lemma save_members_frame ms : forall w r w',
  save_members ms w = (r, w') ->
  submissions (db w') = submissions (db w)
  /\ projects (db w') = projects (db w).
Proof.
  induction ms as [|m ms IH]; intros w r w' E; simpl in E.
  - inversion E. auto.
  - run_bind E.
    + apply stmt_inv in Hrun as [[_ Hd]|Hd]; [now rewrite Hd|].
      destruct (Nat.eqb (TeamMember.ID m) 0); apply pair_equal_spec in Hd as [Hr Hd'];
        now rewrite <- Hd'.
    + apply IH in Hrest as [-> ->].
      apply stmt_inv in Hrun as [[_ Hd]|Hd]; [now rewrite Hd|].
      destruct (Nat.eqb (TeamMember.ID m) 0); apply pair_equal_spec in Hd as [Hr Hd'];
        now rewrite <- Hd'.
Qed.

(** Members without a key are appended, in order, each under a fresh key. *)
Lemma save_members_new ms : forall w w',
  Forall (fun m => TeamMember.ID m = 0%nat) ms ->
  save_members ms w = (inr tt, w') ->
  exists news,
    team_members (db w') = team_members (db w) ++ news
    /\ map (fun m => TeamMember.with_ID m 0) news = ms.
Proof.
  induction ms as [|m ms IH]; intros w w' Hz E; simpl in E.
  - inversion E. exists []. now rewrite app_nil_r.
  - inversion Hz as [|? ? Hm Hms]; subst.
    run_bind E; [discriminate|].
    apply stmt_inv in Hrun as [[? _]|Hd]; [discriminate|].
    rewrite Hm in Hd. simpl in Hd. apply pair_equal_spec in Hd as [Hr Hd'].
    destruct (IH _ _ Hms Hrest) as (news & Ht & Hn).
    exists (TeamMember.with_ID m (next_id TeamMember.ID (team_members (db w))) :: news).
    split.
    + rewrite Ht, <- Hd'. simpl. now rewrite <- app_assoc.
    + simpl. rewrite Hn. f_equal. destruct m; simpl in *. now subst.
Qed.

Lemma UpdateProject_frame p w r w' :
  UpdateProject p w = (r, w') -> submissions (db w') = submissions (db w).
Proof.
  intros E. destruct r as [e|[]].
  - apply Transaction_inl in E. now rewrite E.
  - apply Transaction_inr in E as (w1 & E & ->).
    run_bind E; [discriminate|].
    apply save_members_frame in Hrest as [-> _].
    apply stmt_inv in Hrun as [[_ Hd]|Hd]; [now rewrite Hd|].
    apply pair_equal_spec in Hd as [Hr Hd']. now rewrite <- Hd'.
Qed.

End RepositoryFacts.

(** ** Promotion and review *)
Section Review.
Context `{JSON}.
Import Store Repository Schema Services.

Lemma lift_inv {A} (x : error + A) w r w' :
  lift x w = (r, w') -> r = x /\ w' = w.
Proof. destruct x; intros E; inversion E; auto. Qed.

Lemma members_of_input_new pid inputs :
  Forall (fun m => TeamMember.ID m = 0%nat) (map (member_of_input pid) inputs).
Proof. induction inputs; simpl; constructor; auto. Qed.

(** What promotion leaves behind. Whatever happens it does not write the
    submissions table; when it succeeds, it has appended one project and one
    team member per entry of the payload, and hands back the submission
    linked to the new project. *)
Lemma createProject_inv sub w r w' :
  createProjectFromSubmission sub w = (r, w') ->
  submissions (db w') = submissions (db w)
  /\ match r with
     | inl _ => True
     | inr s' =>
         let pid := next_id Project.ID (projects (db w)) in
         s' = Submission.with_ApprovedProjectID sub (Some pid)
         /\ exists inputs news,
              parse_team (Submission.TeamMembers sub) = inr inputs
              /\ projects (db w')
                 = projects (db w)
                   ++ [Project.with_ID (project_of_submission sub) pid]
              /\ team_members (db w') = team_members (db w) ++ news
              /\ map (fun m => TeamMember.with_ID m 0) news
                 = map (member_of_input pid) inputs
     end.
Proof.
  unfold createProjectFromSubmission. intros E.
  run_bind E as inputs w1 Hparse E1.
  { apply lift_inv in Hparse as [_ ->]. now subst r. }
  apply lift_inv in Hparse as [Hparse ->].
  run_bind E1 as created w2 Hcreate E2.
  { apply CreateProject_inv in Hcreate as (-> & _ & _). now subst r. }
  apply CreateProject_inv in Hcreate as (Hs1 & Ht1 & Hp1).
  destruct (Hp1 eq_refl) as [-> Hp1']. clear Hp1.
  set (pid := next_id Project.ID (projects (db w))) in *.
  change (Project.ID (Project.with_ID (project_of_submission sub) pid)) with pid in *.
  change (Project.with_TeamMembers (Project.with_ID (project_of_submission sub) pid) [])
    with (Project.with_ID (project_of_submission sub) pid) in Hp1'.
  run_bind E2 as u w3 Hupd E3.
  { subst r. split; [|exact I].
    destruct (0 <? length (map (member_of_input pid) inputs))%nat.
    - apply UpdateProject_frame in Hupd. congruence.
    - inversion Hupd. }
  inversion E3; subst r w'. clear E3.
  destruct (0 <? length (map (member_of_input pid) inputs))%nat eqn:Hlen.
  - pose proof (UpdateProject_frame _ _ _ _ Hupd) as Hs2.
    split; [congruence|]. split; [reflexivity|].
    destruct u.
    apply Transaction_inr in Hupd as (w4 & Hbody & Hdb).
    run_bind Hbody as u w5 Hsave Hmembers; [discriminate|].
    pose proof (save_members_frame _ _ _ _ Hmembers) as [_ Hp2].
    apply save_members_new in Hmembers as (news & Ht2 & Hn);
      [|apply members_of_input_new].
    apply stmt_inv in Hsave as [[? _]|Hsave]; [discriminate|].
    apply pair_equal_spec in Hsave as [_ Hd].
    exists inputs, news. split; [now symmetry|].
    rewrite Hdb, Hp2, Ht2, <- Hd. simpl.
    rewrite Hp1', Ht1. split; [|split; [reflexivity|exact Hn]].
    apply (save_row_last Project.ID
             (Project.with_ID (project_of_submission sub) pid)
             (Project.with_ID (project_of_submission sub) pid)).
    reflexivity.
  - inversion Hupd; subst. split; [assumption|]. split; [reflexivity|].
    exists inputs, []. split; [now symmetry|].
    rewrite Hp1', Ht1, app_nil_r. repeat split.
    destruct inputs; [reflexivity|discriminate].
Qed.

(** The switch never writes the submissions table, and writes nothing at all
    unless it promotes. *)
Lemma status_switch_inv s prev status now w r w' :
  status_switch s prev status now w = (r, w') ->
  submissions (db w') = submissions (db w)
  /\ (first_approval s prev status = false ->
      db w' = db w
      /\ r = inr (if String.eqb status "under_review"
                  then match Submission.ReviewStartedAt s with
                       | None => Submission.with_ReviewStartedAt s (Some now)
                       | Some _ => s
                       end
                  else if is_decision status
                  then Submission.with_ReviewedAt s (Some now)
                  else s))
  /\ (first_approval s prev status = true ->
      exists r0,
        createProjectFromSubmission
          (Submission.with_ReviewedAt s (Some now)) w = (r0, w')
        /\ r = match r0 with
               | inl e => inl e
               | inr s' => inr (Submission.with_PublishedAt s' (Some now))
               end).
Proof.
  unfold status_switch, first_approval. intros E.
  destruct (String.eqb status "under_review") eqn:Hu.
  { apply String.eqb_eq in Hu. subst status. simpl.
    inversion E; subst. repeat split; discriminate. }
  destruct (is_decision status) eqn:Hd.
  2:{ inversion E; subst. split; [reflexivity|]. split; [auto|].
      unfold is_decision in Hd. intros G.
      destruct (String.eqb status "approved"); discriminate. }
  change (Submission.ApprovedProjectID (Submission.with_ReviewedAt s (Some now)))
    with (Submission.ApprovedProjectID s) in E.
  destruct (String.eqb status "approved"
            && negb (String.eqb prev "approved")
            && is_nil (Submission.ApprovedProjectID s)) eqn:Hg.
  - run_bind E as s' w1 Hp E1.
    + split; [now apply createProject_inv in Hp|].
      split; [discriminate|]. intros _. exists (inl e). now subst r.
    + inversion E1; subst. split; [now apply createProject_inv in Hp|].
      split; [discriminate|]. intros _. now exists (inr s').
  - inversion E; subst. split; [reflexivity|]. split; [auto|discriminate].
Qed.

(** How a review call ends, given the stored submission it finds: an error
    leaves the submissions table as it was; success stores the submission the
    switch produced. *)
Lemma review_inv id status fb cr rv now w r w' sub :
  submission_of (db w) id = Some sub ->
  UpdateSubmissionStatus id status fb cr rv now w = (r, w') ->
  let base := Submission.with_review sub status fb cr rv in
  (r = inl ErrBadConn /\ db w' = db w)
  \/ exists w1 w2 r2,
       db w1 = db w
       /\ status_switch base (Submission.Status sub) status now w1 = (r2, w2)
       /\ match r2 with
          | inl e => r = inl e /\ w' = w2
          | inr final =>
              projects (db w') = projects (db w2)
              /\ team_members (db w') = team_members (db w2)
              /\ ((exists e, r = inl e /\ submissions (db w') = submissions (db w2))
                  \/ (r = inr tt
                      /\ submission_of (db w') id = Some final
                      /\ submissions (db w')
                         = save_row
                             (fun x => String.eqb (Submission.ID x) id)
                             final (submissions (db w2))))
          end.
Proof.
  intros Hsub E base. subst base. unfold UpdateSubmissionStatus in E.
  run_bind E as s0 w1 Hget E1.
  { apply GetSubmissionByID_inv in Hget as [Hd [Hr|Hr]].
    - left. inversion Hr. now subst.
    - rewrite Hsub in Hr. discriminate. }
  apply GetSubmissionByID_inv in Hget as [Hd [?|Hr]]; [discriminate|].
  rewrite Hsub in Hr. inversion Hr; subst s0. clear Hr.
  right. run_bind E1 as final w2 Hsw E2.
  { exists w1, w', (inl e). now subst r. }
  exists w1, w2, (inr final). split; [assumption|]. split; [assumption|].
  apply UpdateSubmission_inv in E2 as (Hp & Ht & Hs).
  split; [assumption|]. split; [assumption|].
  destruct Hs as [Hs|[-> Hs]]; [now left|]. right.
  assert (Hid : Submission.ID final = id).
  { apply status_switch_inv in Hsw as (_ & Hno & Hyes).
    assert (Hsid : Submission.ID sub = id).
    { unfold submission_of in Hsub. apply find_some in Hsub as [_ Hsub].
      now apply String.eqb_eq in Hsub. }
    destruct (first_approval (Submission.with_review sub status fb cr rv)
                (Submission.Status sub) status) eqn:G.
    - destruct (Hyes eq_refl) as (r0 & Hc & Hr0).
      apply createProject_inv in Hc as [_ Hc].
      destruct r0 as [e|s']; [discriminate|].
      destruct Hc as [-> _]. inversion Hr0. subst final. exact Hsid.
    - destruct (Hno eq_refl) as [_ Hr0].
      destruct (String.eqb status "under_review");
        [destruct (Submission.ReviewStartedAt
                     (Submission.with_review sub status fb cr rv))|
         destruct (is_decision status)]; inversion Hr0; exact Hsid. }
  rewrite Hid in Hs. split; [reflexivity|]. split; [|assumption].
  unfold submission_of. rewrite Hs.
  apply status_switch_inv in Hsw as (Hsame & _). rewrite Hsame, Hd.
  apply (find_save_row _ _ _ sub); [exact Hsub|].
  rewrite Hid. apply String.eqb_refl.
Qed.

End Review.

(** ** Review: the claims *)
Section ReviewClaims.
Context `{JSON}.
Import Store Repository Schema Services.

Lemma find_fresh_last {A} (key : A -> nat) rows row :
  key row = next_id key rows ->
  find (fun r => Nat.eqb (key r) (key row)) (rows ++ [row]) = Some row.
Proof.
  intros Hk.
  assert (Hold : forall r, In r rows -> Nat.eqb (key r) (key row) = false).
  { intros r Hin. apply Nat.eqb_neq. pose proof (next_id_above key rows r Hin). lia. }
  clear Hk. induction rows as [|x rows IH]; simpl.
  - now rewrite Nat.eqb_refl.
  - rewrite (Hold x) by (now left). apply IH. intros r Hin. apply Hold. now right.
Qed.

Lemma news_shape pid inputs news :
  map (fun m => TeamMember.with_ID m 0) news = map (member_of_input pid) inputs ->
  map (fun m => (TeamMember.ProjectID m, TeamMember.Name m,
                 TeamMember.Twitter m, TeamMember.Image m)) news
  = map (fun i => (pid, TeamMemberInput.Name i, TeamMemberInput.Twitter i, ""))
        inputs.
Proof.
  revert inputs. induction news as [|m news IH]; intros [|i inputs] E;
    simpl in *; try discriminate; [reflexivity|].
  injection E as E1 E2 E3 E4 E5. rewrite E1, E2, E3, E4. f_equal. now apply IH.
Qed.

(** Under a fresh project key the only rows of [team_members] that point to
    it are the ones the promotion has just appended. *)
Lemma new_team_only pid (projects : list Project.t) (old : list TeamMember.t)
    inputs news :
  pid = next_id Project.ID projects ->
  Forall (fun m => In (TeamMember.ProjectID m) (map Project.ID projects)) old ->
  map (fun m => TeamMember.with_ID m 0) news = map (member_of_input pid) inputs ->
  filter (fun m => TeamMember.ProjectID m = pid) old = []
  /\ filter (fun m => TeamMember.ProjectID m = pid) news = news.
Proof.
  intros Hpid Hold Hn. split.
  - induction Hold as [|m old Hm Hold IH]; [reflexivity|].
    rewrite filter_cons_False; [exact IH|].
    intros Hq. apply in_map_iff in Hm as (p & Hp & Hin).
    pose proof (next_id_above Project.ID projects p Hin). lia.
  - clear Hold. revert inputs Hn.
    induction news as [|m news IH]; intros [|i inputs] Hn;
      simpl in Hn; try discriminate; [reflexivity|].
    injection Hn as Hp _ _ _ Hn.
    rewrite filter_cons_True by exact Hp. f_equal. now apply (IH inputs).
Qed.

(** A review that does not promote writes neither projects nor team
    members. *)
Lemma review_without_promotion id status fb cr rv now w r w' sub :
  submission_of (db w) id = Some sub ->
  first_approval (Submission.with_review sub status fb cr rv)
                 (Submission.Status sub) status = false ->
  UpdateSubmissionStatus id status fb cr rv now w = (r, w') ->
  projects (db w') = projects (db w)
  /\ team_members (db w') = team_members (db w).
Proof.
  intros Hsub Hg E.
  destruct (review_inv _ _ _ _ _ _ _ _ _ _ Hsub E)
    as [[_ ->]|(w1 & w2 & r2 & Hd & Hsw & Hend)]; [auto|].
  apply status_switch_inv in Hsw as (_ & Hno & _).
  destruct (Hno Hg) as [Hd2 ->]. destruct Hend as (-> & -> & _).
  now rewrite Hd2, Hd.
Qed.

(** C1. A review with status approved of a stored submission that is not yet
    approved and has no linked project, when it succeeds, appends exactly one
    project to the projects table: name, logo, description, categories, event
    and links are copied from the submission, the award is empty, likes and
    comments are 0; it appends one team member per entry of the deserialized
    payload, in the same order, with the entry's name and handle and an empty
    photo; and the stored submission gets published-at set to now and its
    project reference set to the key of the new project. Any further review
    with status approved of the same submission, whatever its outcome, leaves
    the projects and team members as they are. *)
Theorem C1_first_approval_promotes_once
    (id : string) (fb : option string) (cr : list string) (rv : option nat)
    (now : Z) (w w' : World) (sub : Submission.t)
    (Hsub : submission_of (db w) id = Some sub)
    (Hstatus : Submission.Status sub <> "approved")
    (Hlink : Submission.ApprovedProjectID sub = None)
    (Hok : UpdateSubmissionStatus id "approved" fb cr rv now w = (inr tt, w')) :
  let pid := next_id Project.ID (projects (db w)) in
  let project :=
    Project.mk pid (Submission.ProjectName sub) (Submission.PhotoLink sub)
      (Submission.Description sub) (Submission.Categories sub)
      (Submission.Event sub) "" 0 0 (Submission.HowToPlay sub)
      (Submission.PlayLink sub) (Submission.GithubLink sub)
      (Submission.WebsiteLink sub) [] (Some (Submission.ID sub)) in
  exists inputs news final,
    parse_team (Submission.TeamMembers sub) = inr inputs
    /\ projects (db w') = projects (db w) ++ [project]
    /\ project_of (db w') pid = Some project
    /\ team_members (db w') = team_members (db w) ++ news
    /\ map (fun m => (TeamMember.ProjectID m, TeamMember.Name m,
                      TeamMember.Twitter m, TeamMember.Image m)) news
       = map (fun i => (pid, TeamMemberInput.Name i, TeamMemberInput.Twitter i, ""))
             inputs
    /\ (team_refs_ok (db w) -> preload_team (db w') pid = news)
    /\ submission_of (db w') id = Some final
    /\ Submission.Status final = "approved"
    /\ Submission.PublishedAt final = Some now
    /\ Submission.ApprovedProjectID final = Some pid
    /\ forall fb2 cr2 rv2 now2 fs r2 w2,
         UpdateSubmissionStatus id "approved" fb2 cr2 rv2 now2
           (mkWorld fs (db w')) = (r2, w2) ->
         projects (db w2) = projects (db w')
         /\ team_members (db w2) = team_members (db w').
Proof.
  intros pid project.
  destruct (review_inv _ _ _ _ _ _ _ _ _ _ Hsub Hok)
    as [[? _]|(w1 & w2 & r2 & Hd & Hsw & Hend)]; [discriminate|].
  apply status_switch_inv in Hsw as (_ & _ & Hyes).
  assert (Hg : first_approval (Submission.with_review sub "approved" fb cr rv)
                 (Submission.Status sub) "approved" = true).
  { unfold first_approval. simpl. rewrite Hlink.
    apply String.eqb_neq in Hstatus. now rewrite Hstatus. }
  destruct (Hyes Hg) as (r0 & Hc & ->). clear Hyes.
  apply createProject_inv in Hc as [Hsame Hc].
  destruct r0 as [e|s']. { destruct Hend as [? _]. discriminate. }
  rewrite Hd in Hc. destruct Hc as (-> & inputs & news & Hparse & Hp & Ht & Hn).
  destruct Hend as (Hp' & Ht' & [(e & ? & _)|(_ & Hfinal & _)]); [discriminate|].
  exists inputs, news. eexists. split; [exact Hparse|].
  assert (Hprojects : projects (db w') = projects (db w) ++ [project]).
  { rewrite Hp', Hp. reflexivity. }
  split; [exact Hprojects|].
  split.
  { unfold project_of. rewrite Hprojects.
    apply (find_fresh_last Project.ID (projects (db w)) project). reflexivity. }
  split; [now rewrite Ht', Ht|].
  split; [now apply news_shape|].
  split.
  { intros Hrefs. unfold preload_team. rewrite Ht', Ht, filter_app.
    rewrite (proj1 (new_team_only pid (projects (db w)) (team_members (db w))
                      inputs news eq_refl Hrefs Hn)).
    now rewrite (proj2 (new_team_only pid (projects (db w)) (team_members (db w))
                          inputs news eq_refl Hrefs Hn)). }
  split; [exact Hfinal|].
  split; [reflexivity|]. split; [reflexivity|]. split; [reflexivity|].
  intros fb2 cr2 rv2 now2 fs r2 w3 E.
  exact (review_without_promotion id "approved" fb2 cr2 rv2 now2
           (mkWorld fs (db w')) r2 w3 _ Hfinal eq_refl E).
Qed.

(** A statement the fault script does not hit runs on the database. *)
Lemma stmt_runs {A} (run : DB -> (error + A) * DB) w :
  head (faults w) <> Some true ->
  stmt run w = ((run (db w)).1, mkWorld (tail (faults w)) (run (db w)).2).
Proof.
  unfold stmt. destruct (faults w) as [|[|] fs]; simpl; intros Hh.
  - now destruct (run (db w)).
  - now contradiction Hh.
  - now destruct (run (db w)).
Qed.

(** A review that returns an error has not written the submissions table. *)
Lemma review_error_keeps_submissions id status fb cr rv now w e w' :
  UpdateSubmissionStatus id status fb cr rv now w = (inl e, w') ->
  submissions (db w') = submissions (db w).
Proof.
  intros E. destruct (submission_of (db w) id) as [sub|] eqn:Hsub.
  - destruct (review_inv _ _ _ _ _ _ _ _ _ _ Hsub E)
      as [[_ ->]|(w1 & w2 & r2 & Hd & Hsw & Hend)]; [reflexivity|].
    apply status_switch_inv in Hsw as (Hsame & _).
    destruct r2 as [e2|final].
    + destruct Hend as [_ ->]. now rewrite Hsame, Hd.
    + destruct Hend as (_ & _ & [(e2 & _ & Hs)|(? & _)]); [|discriminate].
      now rewrite Hs, Hsame, Hd.
  - unfold UpdateSubmissionStatus in E.
    run_bind E as s0 w1 Hget E1.
    + apply GetSubmissionByID_inv in Hget as [-> _]. reflexivity.
    + apply GetSubmissionByID_inv in Hget as [_ [?|Hr]]; [discriminate|].
      rewrite Hsub in Hr. discriminate.
Qed.

(** C3. When the promotion step of a review fails (the payload does not
    deserialize, or a statement of the promotion errors), the review returns
    that error and the submissions table is as before the call: the stored
    submission keeps its status, feedback, requested changes, reviewer and
    timestamps, and its project reference stays unset. In particular a
    payload that does not deserialize makes the review return the decoding
    error with the whole database untouched. *)
Theorem C3_failed_promotion_keeps_submission
    (id : string) (fb : option string) (cr : list string) (rv : option nat)
    (now : Z) (w wp : World) (sub : Submission.t) (e : error)
    (Hsub : submission_of (db w) id = Some sub)
    (Hstatus : Submission.Status sub <> "approved")
    (Hlink : Submission.ApprovedProjectID sub = None)
    (Hget : head (faults w) <> Some true)
    (Hfail : createProjectFromSubmission
               (Submission.with_ReviewedAt
                  (Submission.with_review sub "approved" fb cr rv) (Some now))
               (mkWorld (tail (faults w)) (db w)) = (inl e, wp)) :
  UpdateSubmissionStatus id "approved" fb cr rv now w = (inl e, wp)
  /\ submissions (db wp) = submissions (db w)
  /\ submission_of (db wp) id = Some sub
  /\ (forall e', parse_team (Submission.TeamMembers sub) = inl e' ->
      e = e' /\ db wp = db w).
Proof.
  assert (Hrun : UpdateSubmissionStatus id "approved" fb cr rv now w = (inl e, wp)).
  { unfold UpdateSubmissionStatus, bind, GetSubmissionByID.
    rewrite (stmt_runs _ _ Hget).
    unfold submission_of in Hsub. rewrite Hsub. simpl.
    unfold status_switch, first_approval, bind. simpl. rewrite Hlink.
    apply String.eqb_neq in Hstatus. rewrite Hstatus. simpl.
    now rewrite Hfail. }
  pose proof (review_error_keeps_submissions _ _ _ _ _ _ _ _ _ Hrun) as Hs.
  split; [exact Hrun|]. split; [exact Hs|].
  split; [unfold submission_of in *; now rewrite Hs|].
  intros e' Hparse. unfold createProjectFromSubmission, bind in Hfail.
  change (Submission.TeamMembers
            (Submission.with_ReviewedAt
               (Submission.with_review sub "approved" fb cr rv) (Some now)))
    with (Submission.TeamMembers sub) in Hfail.
  rewrite Hparse in Hfail. simpl in Hfail. inversion Hfail. auto.
Qed.

(** C8. A successful review with status under_review stores review-started-at
    as now when the stored submission had none, and as it was otherwise; a
    second successful review with status under_review right after it leaves
    review-started-at at the value the first one stored. Every successful
    review with status approved, rejected or requires_changes stores
    reviewed-at as its own now, whatever it was before. *)
Theorem C8_review_started_once_reviewed_always
    (id : string) (fb : option string) (cr : list string) (rv : option nat)
    (now : Z) (w w' : World) (sub : Submission.t)
    (Hsub : submission_of (db w) id = Some sub)
    (Hok : UpdateSubmissionStatus id "under_review" fb cr rv now w = (inr tt, w')) :
  (exists s1,
     submission_of (db w') id = Some s1
     /\ Submission.ReviewStartedAt s1
        = match Submission.ReviewStartedAt sub with
          | None => Some now
          | Some t => Some t
          end
     /\ forall fb2 cr2 rv2 now2 fs w2,
          UpdateSubmissionStatus id "under_review" fb2 cr2 rv2 now2
            (mkWorld fs (db w')) = (inr tt, w2) ->
          exists s2,
            submission_of (db w2) id = Some s2
            /\ Submission.ReviewStartedAt s2 = Submission.ReviewStartedAt s1)
  /\ (forall status fb3 cr3 rv3 now3 v v' s,
        status = "approved" \/ status = "rejected" \/ status = "requires_changes" ->
        submission_of (db v) id = Some s ->
        UpdateSubmissionStatus id status fb3 cr3 rv3 now3 v = (inr tt, v') ->
        exists s3,
          submission_of (db v') id = Some s3
          /\ Submission.ReviewedAt s3 = Some now3).
Proof.
  assert (Started : forall fb0 cr0 rv0 now0 u u' s,
            submission_of (db u) id = Some s ->
            UpdateSubmissionStatus id "under_review" fb0 cr0 rv0 now0 u = (inr tt, u') ->
            exists s1, submission_of (db u') id = Some s1
              /\ Submission.ReviewStartedAt s1
                 = match Submission.ReviewStartedAt s with
                   | None => Some now0
                   | Some t => Some t
                   end).
  { intros fb0 cr0 rv0 now0 u u' s Hs E.
    destruct (review_inv _ _ _ _ _ _ _ _ _ _ Hs E)
      as [[? _]|(w1 & w2 & r2 & Hd & Hsw & Hend)]; [discriminate|].
    apply status_switch_inv in Hsw as (_ & Hno & _).
    destruct (Hno eq_refl) as [_ ->].
    destruct Hend as (_ & _ & [(? & ? & _)|(_ & Hfinal & _)]); [discriminate|].
    eexists. split; [exact Hfinal|].
    cbn. destruct (Submission.ReviewStartedAt s) eqn:Q; cbn; now rewrite ?Q. }
  split.
  - destruct (Started _ _ _ _ _ _ _ Hsub Hok) as (s1 & Hs1 & Ht1).
    exists s1. split; [exact Hs1|]. split; [exact Ht1|].
    intros fb2 cr2 rv2 now2 fs w2 E.
    destruct (Started fb2 cr2 rv2 now2 (mkWorld fs (db w')) w2 s1 Hs1 E)
      as (s2 & Hs2 & Ht2).
    exists s2. split; [exact Hs2|]. rewrite Ht2, Ht1.
    now destruct (Submission.ReviewStartedAt sub).
  - intros status fb3 cr3 rv3 now3 v v' s Hst Hs E.
    destruct (review_inv _ _ _ _ _ _ _ _ _ _ Hs E)
      as [[? _]|(w1 & w2 & r2 & Hd & Hsw & Hend)]; [discriminate|].
    apply status_switch_inv in Hsw as (_ & Hno & Hyes).
    destruct (first_approval (Submission.with_review s status fb3 cr3 rv3)
                (Submission.Status s) status) eqn:G.
    + destruct (Hyes eq_refl) as (r0 & Hc & ->).
      apply createProject_inv in Hc as [_ Hc].
      destruct r0 as [e0|s']. { destruct Hend as [? _]. discriminate. }
      destruct Hc as [-> _].
      destruct Hend as (_ & _ & [(? & ? & _)|(_ & Hfinal & _)]); [discriminate|].
      eexists. split; [exact Hfinal|]. reflexivity.
    + destruct (Hno eq_refl) as [_ ->].
      destruct Hend as (_ & _ & [(? & ? & _)|(_ & Hfinal & _)]); [discriminate|].
      eexists. split; [exact Hfinal|].
      destruct Hst as [->|[->| ->]]; reflexivity.
Qed.

(** C9. The status pending is accepted, by [ValidateStatus] and by the
    binding of the review endpoint. A review with status pending of a stored
    submission never writes projects or team members (no promotion); it either
    fails leaving the submissions table as it was, or it stores the submission
    with status, feedback, requested changes and reviewer overwritten and
    review-started-at, reviewed-at, published-at and the project reference as
    they were; with no fault in the store it succeeds. *)
Theorem C9_pending_stamps_nothing
    (id : string) (fb : option string) (cr : list string) (rv : option nat)
    (now : Z) (w w' : World) (r : error + unit) (sub : Submission.t)
    (Hsub : submission_of (db w) id = Some sub)
    (Hrun : UpdateSubmissionStatus id "pending" fb cr rv now w = (r, w')) :
  Utils.ValidateStatus "pending" = true
  /\ (forall reviewer,
        Handlers.bind_review
          (Handlers.mkReviewRequest "pending" fb cr (S reviewer)) = true
        /\ (Utils.ValidateSubmissionID id = true ->
            Handlers.StatusCode
              (Handlers.ReviewSubmission id
                 (Handlers.mkReviewRequest "pending" fb cr (S reviewer))
                 now w).1 <> 400%nat))
  /\ projects (db w') = projects (db w)
  /\ team_members (db w') = team_members (db w)
  /\ ((exists e, r = inl e /\ submissions (db w') = submissions (db w))
      \/ (r = inr tt
          /\ exists final,
               submission_of (db w') id = Some final
               /\ final = Submission.with_review sub "pending" fb cr rv
               /\ Submission.Status final = "pending"
               /\ Submission.Feedback final = fb
               /\ Submission.ChangesRequested final = cr
               /\ Submission.ReviewerID final = rv
               /\ Submission.ReviewStartedAt final = Submission.ReviewStartedAt sub
               /\ Submission.ReviewedAt final = Submission.ReviewedAt sub
               /\ Submission.PublishedAt final = Submission.PublishedAt sub
               /\ Submission.ApprovedProjectID final
                  = Submission.ApprovedProjectID sub))
  /\ (faults w = [] -> r = inr tt).
Proof.
  split; [reflexivity|]. split.
  { intros reviewer. split; [reflexivity|]. intros Hid.
    unfold Handlers.ReviewSubmission. rewrite Hid.
    change (Handlers.bind_review
              (Handlers.mkReviewRequest "pending" fb cr (S reviewer)))
      with true.
    cbn [negb Handlers.Status Handlers.Feedback Handlers.ChangesRequested
         Handlers.ReviewerID].
    destruct (UpdateSubmissionStatus id "pending" fb cr (Some (S reviewer)) now w)
      as [[e|u] w2]; [destruct (String.eqb (Error e) "record not found")|];
      simpl; discriminate. }
  destruct (review_without_promotion id "pending" fb cr rv now w r w' sub
              Hsub eq_refl Hrun) as [Hp Ht].
  split; [exact Hp|]. split; [exact Ht|]. split.
  - destruct r as [e|[]].
    + left. exists e. split; [reflexivity|].
      now apply review_error_keeps_submissions in Hrun.
    + right. split; [reflexivity|].
      destruct (review_inv _ _ _ _ _ _ _ _ _ _ Hsub Hrun)
        as [[? _]|(w1 & w2 & r2 & Hd & Hsw & Hend)]; [discriminate|].
      apply status_switch_inv in Hsw as (_ & Hno & _).
      destruct (Hno eq_refl) as [_ ->].
      destruct Hend as (_ & _ & [(? & ? & _)|(_ & Hfinal & _)]); [discriminate|].
      eexists. split; [exact Hfinal|]. repeat split.
  - intros Hcalm. unfold UpdateSubmissionStatus, bind, GetSubmissionByID,
      UpdateSubmission in Hrun.
    destruct w as [fs d]. simpl in Hcalm. subst fs.
    rewrite stmt_calm in Hrun. simpl in Hrun, Hsub.
    unfold submission_of in Hsub. rewrite Hsub in Hrun. simpl in Hrun.
    rewrite stmt_calm in Hrun. simpl in Hrun. now inversion Hrun.
Qed.

End ReviewClaims.

(** ** The photo lookup *)
Section PhotoMap.
Import Store Repository Schema Services.

Lemma build_photoMap_app l1 l2 acc :
  build_photoMap (l1 ++ l2) acc = build_photoMap l2 (build_photoMap l1 acc).
Proof. revert acc. induction l1 as [|e l1 IH]; intros acc; simpl; [reflexivity|apply IH]. Qed.

(** One entry: it is either usable and inserted, or skipped. *)
Lemma build_photoMap_step e acc :
  (exists n u, usable_entry e n u
               /\ build_photoMap [e] acc = <[n := u]> acc)
  \/ ((forall n u, ~ usable_entry e n u) /\ build_photoMap [e] acc = acc).
Proof.
  unfold usable_entry. simpl.
  destruct (e !! "memberName") as [n|] eqn:En.
  2:{ right. split; [|reflexivity]. intros n u (? & _). discriminate. }
  destruct (e !! "photoUrl") as [u|] eqn:Eu.
  2:{ right. split; [|reflexivity]. intros n' u (_ & ? & _). discriminate. }
  destruct (String.eqb u "") eqn:Es; simpl.
  - right. split; [|reflexivity]. intros n' u' (_ & Hu & Hne).
    apply String.eqb_eq in Es. congruence.
  - left. exists n, u. apply String.eqb_neq in Es. auto.
Qed.

(** The value the lookup gives for a key depends on the accumulator only
    through that key. *)
Lemma build_photoMap_congr l k : forall acc acc' : gmap string string,
  acc !! k = acc' !! k ->
  build_photoMap l acc !! k = build_photoMap l acc' !! k.
Proof.
  induction l as [|e l IH]; intros acc acc' Hk; [exact Hk|].
  change (e :: l) with ([e] ++ l). rewrite !build_photoMap_app.
  apply IH.
  destruct (build_photoMap_step e acc) as [(n & u & Hu & ->)|[Hno ->]];
    destruct (build_photoMap_step e acc') as [(n' & u' & Hu' & ->)|[Hno' ->]].
  - destruct Hu as (Hn & Hp & _), Hu' as (Hn' & Hp' & _).
    assert (n = n') by congruence. assert (u = u') by congruence. subst n' u'.
    rewrite !lookup_insert. now case_decide.
  - now destruct (Hno' n u).
  - now destruct (Hno n' u').
  - exact Hk.
Qed.

(** Entries that carry nothing for a key leave its binding alone. *)
Lemma build_photoMap_skip l k : forall acc : gmap string string,
  (forall e u, In e l -> ~ usable_entry e k u) ->
  build_photoMap l acc !! k = acc !! k.
Proof.
  induction l as [|e l IH]; intros acc Hl; [reflexivity|].
  change (e :: l) with ([e] ++ l). rewrite build_photoMap_app.
  rewrite IH by (intros e' u Hin; apply Hl; now right).
  destruct (build_photoMap_step e acc) as [(n & u & Hu & ->)|[Hno ->]];
    [|reflexivity].
  apply lookup_insert_ne. intros ->. apply (Hl e u); [now left|exact Hu].
Qed.

(** The last usable entry for a name decides its photo. *)
Lemma build_photoMap_last l1 e l2 k u (acc : gmap string string) :
  usable_entry e k u ->
  (forall e' u', In e' l2 -> ~ usable_entry e' k u') ->
  build_photoMap (l1 ++ e :: l2) acc !! k = Some u.
Proof.
  intros Hu Hl2. rewrite build_photoMap_app.
  change (e :: l2) with ([e] ++ l2). rewrite build_photoMap_app.
  rewrite build_photoMap_skip by exact Hl2.
  destruct (build_photoMap_step e (build_photoMap l1 acc))
    as [(n & u' & Hu' & ->)|[Hno _]]; [|now destruct (Hno k u)].
  destruct Hu as (Hn & Hp & _), Hu' as (Hn' & Hp' & _).
  assert (n = k) by congruence. assert (u' = u) by congruence. subst.
  apply lookup_insert_eq.
Qed.

(** An entry that is not usable is not in the lookup at all. *)
Lemma build_photoMap_drop l1 e l2 (acc : gmap string string) :
  (forall n u, ~ usable_entry e n u) ->
  build_photoMap (l1 ++ e :: l2) acc = build_photoMap (l1 ++ l2) acc.
Proof.
  intros Hno. rewrite !build_photoMap_app.
  change (e :: l2) with ([e] ++ l2). rewrite build_photoMap_app.
  destruct (build_photoMap_step e (build_photoMap l1 acc))
    as [(n & u & Hu & _)|[_ ->]]; [now destruct (Hno n u)|reflexivity].
Qed.

(** An entry for another name does not change the photo of this one. *)
Lemma build_photoMap_other l1 e l2 k (acc : gmap string string) :
  e !! "memberName" <> Some k ->
  build_photoMap (l1 ++ e :: l2) acc !! k = build_photoMap (l1 ++ l2) acc !! k.
Proof.
  intros Hk. rewrite !build_photoMap_app.
  change (e :: l2) with ([e] ++ l2). rewrite build_photoMap_app.
  apply build_photoMap_congr.
  destruct (build_photoMap_step e (build_photoMap l1 acc))
    as [(n & u & Hu & ->)|[_ ->]]; [|reflexivity].
  apply lookup_insert_ne. intros ->. now destruct Hu.
Qed.

Lemma apply_photoMap_ext (pm pm' : gmap string string) members :
  (forall m, In m members -> pm !! TeamMember.Name m = pm' !! TeamMember.Name m) ->
  apply_photoMap pm members = apply_photoMap pm' members.
Proof.
  intros Hk. unfold apply_photoMap. apply map_ext_in.
  intros m Hin. now rewrite (Hk m Hin).
Qed.

End PhotoMap.

(** ** Saving the members of a project *)
Section Extras.
Import Store Repository Schema Services.

Lemma keys_unique (tbl : list TeamMember.t) r m :
  NoDup (map TeamMember.ID tbl) -> In r tbl -> In m tbl ->
  TeamMember.ID r = TeamMember.ID m -> r = m.
Proof.
  induction tbl as [|x tbl IH]; simpl; [tauto|].
  intros Hnd Hr Hm Hk. apply NoDup_cons in Hnd as [Hx Hnd].
  assert (Hin : forall y, In y tbl -> TeamMember.ID y <> TeamMember.ID x).
  { intros y Hy E. apply Hx. rewrite <- E. apply list_elem_of_In, in_map, Hy. }
  destruct Hr as [->|Hr], Hm as [->|Hm]; auto.
  - exfalso. now apply (Hin m Hm).
  - exfalso. now apply (Hin r Hr).
Qed.

Lemma existsb_key_false (ms : list TeamMember.t) k :
  ~ In k (map TeamMember.ID ms) ->
  existsb (fun m => Nat.eqb (TeamMember.ID m) k) ms = false.
Proof.
  intros Hk. apply not_true_is_false. intros E.
  apply existsb_exists in E as (m & Hin & E). apply Nat.eqb_eq in E.
  apply Hk. rewrite <- E. now apply in_map.
Qed.

(** Saving members that are rows of the table, each changed by [upd] without
    touching its key, rewrites exactly those rows in place. *)
Lemma save_members_existing (upd : TeamMember.t -> TeamMember.t)
    (Hkey : forall m, TeamMember.ID (upd m) = TeamMember.ID m) ms :
  forall w w',
    NoDup (map TeamMember.ID (team_members (db w))) ->
    (forall m, In m ms -> In m (team_members (db w)) /\ TeamMember.ID m <> 0%nat) ->
    NoDup (map TeamMember.ID ms) ->
    save_members (map upd ms) w = (inr tt, w') ->
    team_members (db w')
    = map (fun r => if existsb (fun m => Nat.eqb (TeamMember.ID m) (TeamMember.ID r)) ms
                    then upd r else r)
          (team_members (db w)).
Proof.
  induction ms as [|m ms IH]; intros w w' Hnd Hin Hms E; simpl in E.
  - inversion E; subst. simpl. now rewrite map_id.
  - run_bind E as u w1 Hsave Hrest; [discriminate|].
    apply stmt_inv in Hsave as [[? _]|Hsave]; [discriminate|].
    destruct (Hin m (or_introl eq_refl)) as [Hm Hm0].
    rewrite Hkey in Hsave. apply Nat.eqb_neq in Hm0. rewrite Hm0 in Hsave.
    apply pair_equal_spec in Hsave as [_ Hd].
    set (tbl := team_members (db w)) in *.
    set (g := fun r => if Nat.eqb (TeamMember.ID r) (TeamMember.ID m)
                       then upd m else r).
    assert (Htbl1 : team_members (db w1) = map g tbl).
    { rewrite <- Hd. simpl. unfold save_row.
      replace (existsb _ tbl) with true; [reflexivity|].
      symmetry. apply existsb_exists. exists m. split; [exact Hm|].
      apply Nat.eqb_refl. }
    assert (Hgkey : forall r, TeamMember.ID (g r) = TeamMember.ID r).
    { intros r. unfold g.
      destruct (Nat.eqb (TeamMember.ID r) (TeamMember.ID m)) eqn:Q; [|reflexivity].
      apply Nat.eqb_eq in Q. now rewrite Hkey. }
    apply NoDup_cons in Hms as [Hm_new Hms].
    rewrite list_elem_of_In in Hm_new.
    rewrite (IH w1 w'); [| | |exact Hms|exact Hrest].
    + rewrite Htbl1, map_map. apply map_ext_in. intros r Hr. simpl.
      unfold g. destruct (Nat.eqb (TeamMember.ID r) (TeamMember.ID m)) eqn:Q.
      * apply Nat.eqb_eq in Q. rewrite Hkey, Nat.eqb_sym, (proj2 (Nat.eqb_eq _ _) Q).
        simpl. rewrite existsb_key_false by exact Hm_new.
        now rewrite (keys_unique tbl r m Hnd Hr Hm Q).
      * rewrite Nat.eqb_sym, Q. reflexivity.
    + rewrite Htbl1, map_map.
      erewrite map_ext; [exact Hnd|]. intros r. apply Hgkey.
    + intros m' Hm'. destruct (Hin m' (or_intror Hm')) as [Hin' Hz].
      split; [|exact Hz]. rewrite Htbl1.
      assert (g m' = m') as <-.
      { unfold g.
        destruct (Nat.eqb (TeamMember.ID m') (TeamMember.ID m)) eqn:Q; [|reflexivity].
        apply Nat.eqb_eq in Q. exfalso. apply Hm_new. rewrite <- Q.
        now apply in_map. }
      now apply in_map.
Qed.

Lemma preload_in d pid m :
  In m (preload_team d pid) <-> TeamMember.ProjectID m = pid /\ In m (team_members d).
Proof.
  unfold preload_team. rewrite <- !list_elem_of_In.
  now rewrite list_elem_of_filter.
Qed.

Lemma NoDup_keys_filter (P : TeamMember.t -> Prop) `{forall x, Decision (P x)} tbl :
  NoDup (map TeamMember.ID tbl) -> NoDup (map TeamMember.ID (filter P tbl)).
Proof.
  induction tbl as [|x tbl IH]; simpl; [auto|].
  intros Hnd. apply NoDup_cons in Hnd as [Hx Hnd].
  rewrite filter_cons. destruct (decide (P x)); [|now apply IH].
  simpl. apply NoDup_cons. split; [|now apply IH].
  intros Hin. apply Hx. apply list_elem_of_In in Hin.
  apply list_elem_of_In. apply in_map_iff in Hin as (y & Hy & Hin).
  apply in_map_iff. exists y. split; [exact Hy|].
  apply list_elem_of_In in Hin. apply list_elem_of_filter in Hin as [_ Hin].
  now apply list_elem_of_In.
Qed.

(** Saving a project with its loaded members, each changed by [upd], rewrites
    the rows of that project and no other. *)
Lemma save_project_members (upd : TeamMember.t -> TeamMember.t)
    (Hkey : forall m, TeamMember.ID (upd m) = TeamMember.ID m) pid w w' :
  team_keys_ok (db w) ->
  save_members (map upd (preload_team (db w) pid)) w = (inr tt, w') ->
  team_members (db w')
  = map (fun r => if decide (TeamMember.ProjectID r = pid) then upd r else r)
        (team_members (db w)).
Proof.
  intros [Hnd Hnz] E.
  rewrite (save_members_existing upd Hkey (preload_team (db w) pid) w w' Hnd);
    [| |now apply NoDup_keys_filter|exact E].
  - apply map_ext_in. intros r Hr.
    destruct (decide (TeamMember.ProjectID r = pid)) as [Hp|Hp].
    + replace (existsb _ _) with true; [reflexivity|]. symmetry.
      apply existsb_exists. exists r. split; [|apply Nat.eqb_refl].
      apply preload_in. auto.
    + replace (existsb _ _) with false; [reflexivity|]. symmetry.
      apply not_true_is_false. intros Q.
      apply existsb_exists in Q as (m & Hm & Q). apply Nat.eqb_eq in Q.
      apply preload_in in Hm as [Hmp Hm].
      apply Hp. now rewrite (keys_unique _ r m Hnd Hr Hm (eq_sym Q)).
  - intros m Hm. apply preload_in in Hm as [_ Hm]. split; [exact Hm|].
    rewrite Forall_forall in Hnz. apply Hnz. now apply list_elem_of_In.
Qed.

End Extras.

(** ** UpdateProjectExtras *)
Section ExtrasClaims.
Import Store Repository Schema Services.

Lemma or_else_inv {A} (m : M A) e w r w' :
  or_else m e w = (r, w') ->
  (exists a, m w = (inr a, w') /\ r = inr a)
  \/ (exists e0, m w = (inl e0, w') /\ r = inl e).
Proof.
  unfold or_else. destruct (m w) as [[e0|a] w1]; intros E; inversion E; subst.
  - right. now exists e0.
  - left. now exists a.
Qed.

Lemma GetProjectByID_inv pid w r w' :
  GetProjectByID pid w = (r, w') ->
  db w' = db w
  /\ forall p, r = inr p -> Project.TeamMembers p = preload_team (db w) pid.
Proof.
  intros E. apply stmt_inv in E as [[-> E]|E]; [split; [exact E|discriminate]|].
  destruct (find _ (projects (db w))) as [p0|];
    apply pair_equal_spec in E as [<- <-]; split; try reflexivity;
    intros p Hp; inversion Hp. reflexivity.
Qed.

Lemma with_photo_key pm m : TeamMember.ID (with_photo pm m) = TeamMember.ID m.
Proof. unfold with_photo. now destruct (pm !! TeamMember.Name m). Qed.

Lemma with_photo_project pm m :
  TeamMember.ProjectID (with_photo pm m) = TeamMember.ProjectID m.
Proof. unfold with_photo. now destruct (pm !! TeamMember.Name m). Qed.

Lemma extras_team photos (members : list TeamMember.t) :
  (if (0 <? length photos)%nat
   then apply_photoMap (build_photoMap photos ∅) members
   else members)
  = map (with_photo (build_photoMap photos ∅)) members.
Proof.
  destruct photos as [|e photos]; [|reflexivity].
  simpl. symmetry. erewrite map_ext; [apply map_id|].
  intros m. unfold with_photo. now rewrite lookup_empty.
Qed.

(** How a call of [UpdateProjectExtras] ends, given the stored submission it
    finds. *)
Lemma extras_inv id award photos w r w' sub :
  submission_of (db w) id = Some sub ->
  UpdateProjectExtras id award photos w = (r, w') ->
  match Submission.ApprovedProjectID sub with
  | None =>
      db w' = db w
      /\ (r = inl ErrBadConn \/ r = inl project_not_found)
      /\ (head (faults w) <> Some true -> r = inl project_not_found)
  | Some pid =>
      (forall e, r = inl e -> db w' = db w)
      /\ (r = inr tt ->
          submissions (db w') = submissions (db w)
          /\ (team_keys_ok (db w) ->
              team_members (db w')
              = map (fun m =>
                       if decide (TeamMember.ProjectID m = pid)
                       then with_photo (build_photoMap photos ∅) m
                       else m)
                    (team_members (db w))))
  end.
Proof.
  intros Hsub E. unfold UpdateProjectExtras in E.
  run_bind E as s0 w1 Hget E1.
  { pose proof Hget as Hget'.
    apply GetSubmissionByID_inv in Hget as [Hd [Hr|Hr]];
      [|rewrite Hsub in Hr; discriminate].
    injection Hr as ->. subst r.
    destruct (Submission.ApprovedProjectID sub).
    - split; [intros; exact Hd|discriminate].
    - split; [exact Hd|]. split; [now left|].
      intros Hh. unfold GetSubmissionByID in Hget'.
      rewrite (stmt_runs _ _ Hh) in Hget'.
      unfold submission_of in Hsub. rewrite Hsub in Hget'. discriminate. }
  apply GetSubmissionByID_inv in Hget as [Hd [?|Hr]]; [discriminate|].
  rewrite Hsub in Hr. injection Hr as ->.
  destruct (Submission.ApprovedProjectID sub) as [pid|].
  2:{ inversion E1; subst. split; [exact Hd|]. split; [now right|reflexivity]. }
  run_bind E1 as p w2 Hproj E2.
  { apply or_else_inv in Hproj as [(a & _ & ?)|(e0 & Hproj & _)]; [discriminate|].
    apply GetProjectByID_inv in Hproj as [Hd2 _]. subst r.
    split; [intros; congruence|discriminate]. }
  apply or_else_inv in Hproj as [(a & Hproj & Ha)|(e0 & _ & ?)]; [|discriminate].
  injection Ha as <-.
  apply GetProjectByID_inv in Hproj as [Hd2 Hteam].
  specialize (Hteam p eq_refl).
  split.
  { intros e ->. apply Transaction_inl in E2. congruence. }
  intros ->. split; [apply UpdateProject_frame in E2; congruence|].
  intros Hkeys.
  apply Transaction_inr in E2 as (w3 & Hbody & Hd3).
  run_bind Hbody as u w4 Hsave Hmembers; [discriminate|].
  apply stmt_inv in Hsave as [[? _]|Hsave]; [discriminate|].
  apply pair_equal_spec in Hsave as [_ Hd4].
  assert (Ht4 : team_members (db w4) = team_members (db w)).
  { rewrite <- Hd4. simpl. now rewrite Hd2, Hd. }
  assert (Hmem : Project.TeamMembers
                   (if (0 <? length photos)%nat
                    then Project.with_TeamMembers
                           match award with
                           | Some a => Project.with_Award p a
                           | None => p
                           end
                           (apply_photoMap (build_photoMap photos ∅)
                              (Project.TeamMembers
                                 match award with
                                 | Some a => Project.with_Award p a
                                 | None => p
                                 end))
                    else match award with
                         | Some a => Project.with_Award p a
                         | None => p
                         end)
                 = map (with_photo (build_photoMap photos ∅))
                       (preload_team (db w4) pid)).
  { rewrite <- extras_team.
    replace (preload_team (db w4) pid) with (Project.TeamMembers p)
      by (rewrite Hteam; unfold preload_team; now rewrite Ht4, Hd).
    destruct award; destruct (0 <? length photos)%nat; reflexivity. }
  rewrite Hmem in Hmembers.
  apply save_project_members in Hmembers.
  - now rewrite Hd3, Hmembers, Ht4.
  - apply with_photo_key.
  - unfold team_keys_ok in *. now rewrite Ht4.
Qed.

Lemma save_members_calm ms : forall d,
  exists d', save_members ms (mkWorld [] d) = (inr tt, mkWorld [] d').
Proof.
  induction ms as [|m ms IH]; intros d; simpl.
  - now exists d.
  - unfold bind, save_member. rewrite stmt_calm.
    destruct (Nat.eqb (TeamMember.ID m) 0); simpl; apply IH.
Qed.

(** With no fault in the store, the extras of a submission linked to a stored
    project are saved. *)
Lemma extras_calm id award photos d sub pid p :
  submission_of d id = Some sub ->
  Submission.ApprovedProjectID sub = Some pid ->
  project_of d pid = Some p ->
  exists d', UpdateProjectExtras id award photos (mkWorld [] d)
             = (inr tt, mkWorld [] d').
Proof.
  intros Hsub Hlink Hp. unfold UpdateProjectExtras, bind, GetSubmissionByID.
  rewrite stmt_calm. unfold submission_of in Hsub. rewrite Hsub. simpl.
  rewrite Hlink. unfold or_else, GetProjectByID. rewrite stmt_calm.
  unfold project_of in Hp. rewrite Hp. simpl.
  unfold UpdateProject, Transaction, bind, save_project. rewrite stmt_calm. simpl.
  match goal with
  | |- context [save_members ?ms (mkWorld [] ?d0)] =>
      destruct (save_members_calm ms d0) as [d' ->]
  end.
  now exists d'.
Qed.

(** The lookup as the specification words it differs from the one the code
    builds: an entry with an empty URL is the last-seen entry of its name, yet
    the code keeps the earlier URL. *)
Lemma C5_counterexample :
  let teamPhotos :=
    [Sample.entry "Alex" "https://x/1.png"; Sample.entry "Alex" ""] in
  Spec.last_seen_lookup teamPhotos "Alex" = Some ""
  /\ build_photoMap teamPhotos ∅ !! "Alex" = Some "https://x/1.png"
  /\ map TeamMember.Image
       (team_members
          (db (UpdateProjectExtras Sample.sid None teamPhotos
                 (mkWorld [] Sample.approved_db)).2))
     = ["https://x/1.png"]
  /\ ~ (forall photos name,
          build_photoMap photos ∅ !! name = Spec.last_seen_lookup photos name).
Proof.
  cbv zeta.
  assert (A : Spec.last_seen_lookup
                [Sample.entry "Alex" "https://x/1.png"; Sample.entry "Alex" ""]
                "Alex" = Some "") by (vm_compute; reflexivity).
  assert (B : build_photoMap
                [Sample.entry "Alex" "https://x/1.png"; Sample.entry "Alex" ""]
                ∅ !! "Alex" = Some "https://x/1.png") by (vm_compute; reflexivity).
  split; [exact A|]. split; [exact B|]. split; [vm_compute; reflexivity|].
  intros Hall. rewrite Hall, A in B. discriminate.
Qed.

(** C5 (amended). For every call of [UpdateProjectExtras] on a stored
    submission: without a linked project the call changes nothing and fails
    with the project-not-found error (unless the lookup of the submission
    itself was hit by a store fault); the name-to-URL lookup resolves a name
    to the URL of the last entry for it that has both keys and a non-empty
    URL, and has no binding for a name without such an entry; when the call
    succeeds on a submission linked to project [pid], every team member of
    that project whose name has a binding gets that URL as photo, every other
    row of the table is unchanged; an entry whose name matches no member of a
    team changes nothing for that team; and with no fault in the store the
    call on a submission linked to a stored project does succeed. *)
Theorem C5_update_extras
    (id : string) (award : option string) (photos : list (gmap string string))
    (w w' : World) (r : error + unit) (sub : Submission.t)
    (Hsub : submission_of (db w) id = Some sub)
    (Hrun : UpdateProjectExtras id award photos w = (r, w')) :
  let photoMap := build_photoMap photos ∅ in
  (Submission.ApprovedProjectID sub = None ->
     db w' = db w
     /\ (r = inl ErrBadConn \/ r = inl project_not_found)
     /\ (head (faults w) <> Some true -> r = inl project_not_found))
  /\ (forall l1 e l2 k u,
        photos = l1 ++ e :: l2 -> usable_entry e k u ->
        (forall e' u', In e' l2 -> ~ usable_entry e' k u') ->
        photoMap !! k = Some u)
  /\ (forall k, (forall e u, In e photos -> ~ usable_entry e k u) ->
                photoMap !! k = None)
  /\ (forall pid,
        Submission.ApprovedProjectID sub = Some pid ->
        r = inr tt -> team_keys_ok (db w) ->
        team_members (db w')
        = map (fun m =>
                 if decide (TeamMember.ProjectID m = pid)
                 then match photoMap !! TeamMember.Name m with
                      | Some photoUrl => TeamMember.with_Image m photoUrl
                      | None => m
                      end
                 else m)
              (team_members (db w))
        /\ preload_team (db w') pid
           = apply_photoMap photoMap (preload_team (db w) pid))
  /\ (forall l1 e l2 members,
        (forall m, In m members -> e !! "memberName" <> Some (TeamMember.Name m)) ->
        apply_photoMap (build_photoMap (l1 ++ e :: l2) ∅) members
        = apply_photoMap (build_photoMap (l1 ++ l2) ∅) members)
  /\ (forall pid p,
        Submission.ApprovedProjectID sub = Some pid ->
        project_of (db w) pid = Some p -> faults w = [] -> r = inr tt).
Proof.
  intros photoMap. pose proof (extras_inv _ _ _ _ _ _ _ Hsub Hrun) as Hinv.
  split.
  { intros Hnone. now rewrite Hnone in Hinv. }
  split.
  { intros l1 e l2 k u -> Hu Hl2. now apply build_photoMap_last. }
  split.
  { intros k Hk. unfold photoMap. rewrite build_photoMap_skip by exact Hk.
    apply lookup_empty. }
  split.
  { intros pid Hlink -> Hkeys. rewrite Hlink in Hinv.
    destruct Hinv as [_ Hinv]. destruct (Hinv eq_refl) as [_ Ht].
    specialize (Ht Hkeys). split; [exact Ht|].
    unfold preload_team. rewrite Ht. unfold apply_photoMap.
    generalize (team_members (db w)). intros tbl.
    induction tbl as [|m tbl IH]; [reflexivity|].
    simpl map at 1. rewrite !filter_cons.
    destruct (decide (TeamMember.ProjectID m = pid)) as [Hp|Hp].
    - rewrite decide_True.
      + simpl. now rewrite IH.
      + fold (with_photo photoMap m). now rewrite with_photo_project.
    - rewrite decide_False by exact Hp. exact IH. }
  split.
  { intros l1 e l2 members Hno. apply apply_photoMap_ext.
    intros m Hm. apply build_photoMap_other. now apply Hno. }
  intros pid p Hlink Hp Hcalm. destruct w as [fs d]. simpl in *. subst fs.
  destruct (extras_calm id award photos d sub pid p Hsub Hlink Hp) as [d' E].
  rewrite E in Hrun. now inversion Hrun.
Qed.

(** C10. A team-photo entry whose photo URL is the empty string, or that
    lacks the photo URL key or the member name key, is not in the lookup: the
    lookup is the one built without it. So when every entry naming [k] has an
    empty or missing photo URL, the lookup has no binding for [k], and a
    successful call leaves every team member named [k] of the project exactly
    as stored, photo included. *)
Theorem C10_empty_photo_entries_excluded
    (l1 l2 : list (gmap string string)) (e : gmap string string)
    (Hbad : e !! "photoUrl" = Some "" \/ e !! "photoUrl" = None
            \/ e !! "memberName" = None) :
  build_photoMap (l1 ++ e :: l2) ∅ = build_photoMap (l1 ++ l2) ∅
  /\ forall (photos : list (gmap string string)) (k : string),
       (forall e', In e' photos -> e' !! "memberName" = Some k ->
                   e' !! "photoUrl" = Some "" \/ e' !! "photoUrl" = None) ->
       build_photoMap photos ∅ !! k = None
       /\ forall id award w w' sub pid,
            submission_of (db w) id = Some sub ->
            Submission.ApprovedProjectID sub = Some pid ->
            team_keys_ok (db w) ->
            UpdateProjectExtras id award photos w = (inr tt, w') ->
            exists F,
              team_members (db w') = map F (team_members (db w))
              /\ forall m, TeamMember.Name m = k -> F m = m.
Proof.
  assert (Unusable : forall (x : gmap string string) n u,
            x !! "photoUrl" = Some "" \/ x !! "photoUrl" = None
            \/ x !! "memberName" = None -> ~ usable_entry x n u).
  { intros x n u Hx (Hn & Hp & Hne).
    destruct Hx as [Hx|[Hx|Hx]]; congruence. }
  split.
  { apply build_photoMap_drop. intros n u. now apply Unusable. }
  intros photos k Hk.
  assert (Hnone : build_photoMap photos ∅ !! k = None).
  { rewrite build_photoMap_skip; [apply lookup_empty|].
    intros e' u Hin Hu. pose proof Hu as (Hn & _ & _).
    apply (Unusable e' k u); [|exact Hu].
    destruct (Hk e' Hin Hn); auto. }
  split; [exact Hnone|].
  intros id award w w' sub pid Hsub Hlink Hkeys E.
  pose proof (extras_inv _ _ _ _ _ _ _ Hsub E) as Hinv. rewrite Hlink in Hinv.
  destruct Hinv as [_ Hinv]. destruct (Hinv eq_refl) as [_ Ht].
  eexists. split; [exact (Ht Hkeys)|].
  intros m Hm. simpl. destruct (decide _); [|reflexivity].
  unfold with_photo. now rewrite Hm, Hnone.
Qed.

End ExtrasClaims.

(** ** Submit *)
Section SubmitClaims.
Context `{JSON}.
Import Store Repository Schema Services.

Lemma Contains_In slice item : Utils.Contains slice item = true <-> In item slice.
Proof.
  induction slice as [|s rest IH]; simpl; [split; [discriminate|tauto]|].
  destruct (String.eqb s item) eqn:E.
  - apply String.eqb_eq in E. tauto.
  - apply String.eqb_neq in E. rewrite IH. split; [tauto|].
    intros [?|?]; [contradiction|assumption].
Qed.

Lemma all_allowed_subset allowed categories :
  Utils.all_allowed allowed categories = true
  <-> forall c, In c categories -> In c allowed.
Proof.
  induction categories as [|c rest IH]; simpl; [split; [tauto|reflexivity]|].
  destruct (Utils.Contains allowed c) eqn:E; simpl.
  - apply Contains_In in E. rewrite IH. split.
    + intros Hr x [<-|Hx]; auto.
    + intros Hall x Hx. apply Hall. now right.
  - split; [discriminate|]. intros Hall.
    assert (Hc : In c allowed) by (apply Hall; now left).
    apply Contains_In in Hc. congruence.
Qed.

Lemma validate_members_spec members :
  (validate_members members = None
   <-> forall m, In m members ->
         TeamMemberInput.Name m <> "" /\ TeamMemberInput.Twitter m <> "")
  /\ (validate_members members = None
      \/ validate_members members = Some INVALID_TEAM_MEMBERS).
Proof.
  induction members as [|m rest [IH1 IH2]]; simpl.
  - split; [split; [tauto|reflexivity]|now left].
  - destruct (String.eqb (TeamMemberInput.Name m) "") eqn:En; simpl.
    + split; [|now right]. split; [discriminate|].
      intros Hall. destruct (Hall m (or_introl eq_refl)) as [Hn _].
      apply String.eqb_eq in En. contradiction.
    + destruct (String.eqb (TeamMemberInput.Twitter m) "") eqn:Et; simpl.
      * split; [|now right]. split; [discriminate|].
        intros Hall. destruct (Hall m (or_introl eq_refl)) as [_ Ht].
        apply String.eqb_eq in Et. contradiction.
      * split; [|exact IH2]. rewrite IH1.
        apply String.eqb_neq in En, Et. split.
        -- intros Hr x [<-|Hx]; auto.
        -- intros Hall x Hx. apply Hall. now right.
Qed.

(** C7. The validation of a submit request checks the categories, then the
    event, then the team members, and stops at the first rule that fails:
    categories that are not all in the vocabulary DeFi, Gaming, AI,
    Infrastructure, Consumer, NFT, Stablecoins give the categories error;
    otherwise an event outside the event list gives the event error;
    otherwise a team member with an empty name or an empty handle gives the
    team-members error; a request that passes the three rules gives no
    error. The three errors are distinct, and a request that fails
    validation is answered with that error before the store is touched: no
    statement runs (the fault script is not consumed) and the database is
    the same. *)
Theorem C7_validation_short_circuits
    (req : SubmitProjectRequest) (timestamp : Z) (draw : nat -> nat) (now : Z)
    (w : World) :
  Utils.allowedCategories
  = ["DeFi"; "Gaming"; "AI"; "Infrastructure"; "Consumer"; "NFT"; "Stablecoins"]
  /\ (Utils.ValidateCategories (Categories req) = true
      <-> forall c, In c (Categories req) -> In c Utils.allowedCategories)
  /\ (Utils.ValidateEvent (Event req) = true <-> In (Event req) Utils.allowedEvents)
  /\ (Utils.ValidateCategories (Categories req) = false ->
      validateSubmissionRequest req = Some INVALID_CATEGORIES)
  /\ (Utils.ValidateCategories (Categories req) = true ->
      Utils.ValidateEvent (Event req) = false ->
      validateSubmissionRequest req = Some INVALID_EVENT)
  /\ (Utils.ValidateCategories (Categories req) = true ->
      Utils.ValidateEvent (Event req) = true ->
      (exists m, In m (TeamMembers req)
                 /\ (TeamMemberInput.Name m = "" \/ TeamMemberInput.Twitter m = "")) ->
      validateSubmissionRequest req = Some INVALID_TEAM_MEMBERS)
  /\ (Utils.ValidateCategories (Categories req) = true ->
      Utils.ValidateEvent (Event req) = true ->
      (forall m, In m (TeamMembers req) ->
                 TeamMemberInput.Name m <> "" /\ TeamMemberInput.Twitter m <> "") ->
      validateSubmissionRequest req = None)
  /\ (INVALID_CATEGORIES <> INVALID_EVENT
      /\ INVALID_CATEGORIES <> INVALID_TEAM_MEMBERS
      /\ INVALID_EVENT <> INVALID_TEAM_MEMBERS)
  /\ (forall err, validateSubmissionRequest req = Some err ->
                  SubmitProject req timestamp draw now w = (inl err, w)).
Proof.
  split; [reflexivity|].
  split; [apply all_allowed_subset|].
  split; [apply Contains_In|].
  unfold validateSubmissionRequest.
  split; [now intros ->|].
  split; [now intros -> ->|].
  destruct (validate_members_spec (TeamMembers req)) as [Hnone Hcases].
  split.
  { intros -> -> (m & Hm & Hempty). simpl.
    destruct Hcases as [Hc|Hc]; [|exact Hc].
    exfalso. destruct (proj1 Hnone Hc m Hm). destruct Hempty; contradiction. }
  split.
  { intros -> -> Hall. simpl. now apply Hnone. }
  split; [repeat split; discriminate|].
  intros err Herr. unfold SubmitProject, validateSubmissionRequest.
  now rewrite Herr.
Qed.

Lemma existsb_find {A} (f : A -> bool) l :
  (existsb f l = true -> exists x, find f l = Some x)
  /\ (existsb f l = false -> find f l = None).
Proof.
  induction l as [|x l [IH1 IH2]]; simpl; [split; [discriminate|reflexivity]|].
  destruct (f x); simpl; [|tauto]. split; [|discriminate]. now exists x.
Qed.

Lemma GetProjectByName_inv name w r w' :
  GetProjectByName name w = (r, w') ->
  db w' = db w
  /\ (r = inl ErrBadConn
      \/ r = match find (fun p => String.eqb (Project.Name p) name)
                        (projects (db w)) with
             | Some p => inr p
             | None => inl ErrRecordNotFound
             end).
Proof.
  intros E. apply stmt_inv in E as [[-> E]|E]; [tauto|].
  destruct (find _ (projects (db w))); inversion E; subst; auto.
Qed.

Lemma GetSubmissionByProjectName_inv name w r w' :
  GetSubmissionByProjectName name w = (r, w') ->
  db w' = db w
  /\ (r = inl ErrBadConn
      \/ r = match find (fun s => String.eqb (Submission.ProjectName s) name)
                        (submissions (db w)) with
             | Some s => inr s
             | None => inl ErrRecordNotFound
             end).
Proof.
  intros E. apply stmt_inv in E as [[-> E]|E]; [tauto|].
  destruct (find _ (submissions (db w))); inversion E; subst; auto.
Qed.

(** C6. For a request that passes validation, in a run without store
    faults: a stored project with the requested name makes Submit fail with
    the duplicate-project-name error, whether or not a submission has the
    name too, so the project store is consulted first; with no such project,
    a stored submission with the name makes it fail with the
    duplicate-submission error; in both cases nothing is written. With
    neither, the payload encoded and the generated identifier not yet in
    use, one submission is appended, with status pending and submitted-at
    now, and the generated identifier is returned. Under any fault script a
    duplicate of either kind means an error and an unchanged database, so a
    submission is persisted only when both checks find nothing. *)
Theorem C6_duplicate_checks_in_order
    (req : SubmitProjectRequest) (timestamp : Z) (draw : nat -> nat) (now : Z)
    (d : DB)
    (Hvalid : validateSubmissionRequest req = None) :
  let name := ProjectName req in
  let run := SubmitProject req timestamp draw now in
  (has_project_named d name = true ->
   run (mkWorld [] d) = (inl DUPLICATE_PROJECT_NAME, mkWorld [] d))
  /\ (has_project_named d name = false -> has_submission_named d name = true ->
      run (mkWorld [] d) = (inl DUPLICATE_SUBMISSION, mkWorld [] d))
  /\ (has_project_named d name = false -> has_submission_named d name = false ->
      forall payload,
        Marshal (TeamMembers req) = inr payload ->
        let sid := Utils.GenerateSubmissionID timestamp draw in
        submission_of d sid = None ->
        exists resp new,
          run (mkWorld [] d)
          = (inr resp, mkWorld [] (with_submissions d (submissions d ++ [new])))
          /\ Success resp = true
          /\ SubmissionID resp = sid
          /\ Submission.ID new = sid
          /\ Submission.ProjectName new = name
          /\ Submission.TeamMembers new = payload
          /\ Submission.Status new = "pending"
          /\ Submission.SubmittedAt new = now
          /\ Submission.ApprovedProjectID new = None)
  /\ (forall fs r w',
        run (mkWorld fs d) = (r, w') ->
        has_project_named d name = true \/ has_submission_named d name = true ->
        db w' = d /\ exists e, r = inl e).
Proof.
  intros name run. subst run. unfold SubmitProject. rewrite Hvalid.
  unfold has_project_named, has_submission_named.
  split.
  { intros Hp. apply existsb_find in Hp as [p Hp].
    unfold GetProjectByName. rewrite stmt_calm. fold name. now rewrite Hp. }
  split.
  { intros Hp Hs. apply existsb_find in Hp. apply existsb_find in Hs as [s Hs].
    unfold GetProjectByName, GetSubmissionByProjectName.
    rewrite stmt_calm. fold name. rewrite Hp. simpl.
    rewrite stmt_calm. simpl. now rewrite Hs. }
  split.
  { intros Hp Hs payload Hpay Hfresh.
    apply existsb_find in Hp. apply existsb_find in Hs.
    unfold GetProjectByName, GetSubmissionByProjectName.
    rewrite stmt_calm. fold name. rewrite Hp. simpl.
    rewrite stmt_calm. simpl. rewrite Hs. simpl.
    unfold bind. rewrite Hpay. simpl.
    unfold CreateSubmission. rewrite stmt_calm. simpl.
    replace (existsb _ (submissions d)) with false.
    2:{ symmetry. apply not_true_is_false. intros Q.
        apply existsb_find in Q as [x Q]. unfold submission_of in Hfresh.
        congruence. }
    simpl. eexists. eexists. split; [reflexivity|]. repeat split. }
  intros fs r w' E Hdup. subst name.
  destruct (GetProjectByName (ProjectName req) (mkWorld fs d)) as [r1 w1] eqn:S1.
  apply GetProjectByName_inv in S1 as [Hd1 [->|Hr1]].
  { simpl in E. injection E as <- <-. split; [exact Hd1|now eexists]. }
  simpl in Hr1, Hd1.
  destruct (find _ (projects d)) eqn:Fp; subst r1.
  { injection E as <- <-. split; [exact Hd1|now eexists]. }
  simpl in E.
  destruct (GetSubmissionByProjectName (ProjectName req) w1) as [r2 w2] eqn:S2.
  apply GetSubmissionByProjectName_inv in S2 as [Hd2 [->|Hr2]].
  { simpl in E. injection E as <- <-. split; [congruence|now eexists]. }
  rewrite Hd1 in Hr2.
  destruct (find _ (submissions d)) eqn:Fs; subst r2.
  { injection E as <- <-. split; [congruence|now eexists]. }
  exfalso. destruct Hdup as [Q|Q]; apply existsb_find in Q as [x Q]; congruence.
Qed.

End SubmitClaims.

(** ** The primary key of the team members is kept by every request *)
Section KeysInvariant.
Context `{JSON}.
Import Store Repository Schema Services.

Lemma keys_ok_append tbl m :
  NoDup (map TeamMember.ID tbl)
  /\ Forall (fun x => TeamMember.ID x <> 0%nat) tbl ->
  ~ In (TeamMember.ID m) (map TeamMember.ID tbl) ->
  TeamMember.ID m <> 0%nat ->
  NoDup (map TeamMember.ID (tbl ++ [m]))
  /\ Forall (fun x => TeamMember.ID x <> 0%nat) (tbl ++ [m]).
Proof.
  intros [Hnd Hnz] Hnew Hm. split.
  - rewrite map_app. apply NoDup_app. split; [exact Hnd|]. split.
    + intros k Hk Hk'. apply list_elem_of_In in Hk.
      apply list_elem_of_In in Hk'. simpl in Hk'. destruct Hk' as [<-|[]].
      contradiction.
    + simpl. apply NoDup_singleton.
  - apply Forall_app. split; [exact Hnz|]. repeat constructor. exact Hm.
Qed.

Lemma save_member_keys m w r w' :
  save_member m w = (r, w') -> team_keys_ok (db w) -> team_keys_ok (db w').
Proof.
  intros E Hok. apply stmt_inv in E as [[_ ->]|E]; [exact Hok|].
  unfold team_keys_ok in *.
  destruct (Nat.eqb (TeamMember.ID m) 0) eqn:Hz;
    apply pair_equal_spec in E as [_ <-]; simpl.
  - apply keys_ok_append; [exact Hok| |].
    + intros Hin. apply in_map_iff in Hin as (x & Hx & Hin).
      pose proof (next_id_above TeamMember.ID _ x Hin) as Hlt.
      destruct m; simpl in *. lia.
    + destruct m; simpl. unfold next_id. lia.
  - apply Nat.eqb_neq in Hz. unfold save_row.
    destruct (existsb _ (team_members (db w))) eqn:Hex.
    + destruct Hok as [Hnd Hnz]. split.
      * rewrite map_map. erewrite map_ext; [exact Hnd|].
        intros x. simpl.
        destruct (Nat.eqb (TeamMember.ID x) (TeamMember.ID m)) eqn:Q;
          [|reflexivity]. now apply Nat.eqb_eq in Q.
      * apply Forall_forall. intros x Hx. apply list_elem_of_In in Hx.
        apply in_map_iff in Hx as (y & Hy & Hin).
        destruct (Nat.eqb (TeamMember.ID y) (TeamMember.ID m)); subst x;
          [exact Hz|].
        rewrite Forall_forall in Hnz. apply Hnz. now apply list_elem_of_In.
    + apply keys_ok_append; [exact Hok| |exact Hz].
      intros Hin. apply in_map_iff in Hin as (x & Hx & Hin).
      assert (existsb (fun m0 => Nat.eqb (TeamMember.ID m0) (TeamMember.ID m))
                (team_members (db w)) = true); [|congruence].
      apply existsb_exists. exists x. split; [exact Hin|]. now apply Nat.eqb_eq.
Qed.

Lemma save_members_keys ms : forall w r w',
  save_members ms w = (r, w') -> team_keys_ok (db w) -> team_keys_ok (db w').
Proof.
  induction ms as [|m ms IH]; intros w r w' E Hok; simpl in E.
  - now inversion E; subst.
  - run_bind E as u w1 Hsave Hrest.
    + exact (save_member_keys _ _ _ _ Hsave Hok).
    + apply (IH _ _ _ Hrest). exact (save_member_keys _ _ _ _ Hsave Hok).
Qed.

Lemma UpdateProject_keys p w r w' :
  UpdateProject p w = (r, w') -> team_keys_ok (db w) -> team_keys_ok (db w').
Proof.
  intros E Hok. destruct r as [e|[]].
  - apply Transaction_inl in E. now rewrite E.
  - apply Transaction_inr in E as (w1 & E & Hd). unfold team_keys_ok. rewrite Hd.
    run_bind E as u w2 Hsave Hrest; [discriminate|].
    apply (save_members_keys _ _ _ _ Hrest).
    apply stmt_inv in Hsave as [[_ Hs]|Hs].
    + unfold team_keys_ok. now rewrite Hs.
    + apply pair_equal_spec in Hs as [_ <-]. exact Hok.
Qed.

Lemma createProject_keys sub w r w' :
  createProjectFromSubmission sub w = (r, w') ->
  team_keys_ok (db w) -> team_keys_ok (db w').
Proof.
  unfold createProjectFromSubmission. intros E Hok.
  run_bind E as inputs w1 Hparse E1.
  { apply lift_inv in Hparse as [_ ->]. exact Hok. }
  apply lift_inv in Hparse as [_ ->].
  run_bind E1 as created w2 Hcreate E2.
  { apply CreateProject_inv in Hcreate as (_ & Ht & _).
    unfold team_keys_ok. now rewrite Ht. }
  apply CreateProject_inv in Hcreate as (_ & Ht & _).
  assert (Hok2 : team_keys_ok (db w2)) by (unfold team_keys_ok; now rewrite Ht).
  run_bind E2 as u w3 Hupd E3.
  - destruct (0 <? length _)%nat.
    + exact (UpdateProject_keys _ _ _ _ Hupd Hok2).
    + inversion Hupd.
  - inversion E3; subst. destruct (0 <? length _)%nat.
    + exact (UpdateProject_keys _ _ _ _ Hupd Hok2).
    + now inversion Hupd; subst.
Qed.

Lemma review_keys id status fb cr rv now w r w' :
  UpdateSubmissionStatus id status fb cr rv now w = (r, w') ->
  team_keys_ok (db w) -> team_keys_ok (db w').
Proof.
  unfold UpdateSubmissionStatus. intros E Hok.
  run_bind E as s0 w1 Hget E1.
  { apply GetSubmissionByID_inv in Hget as [Hd _]. unfold team_keys_ok.
    now rewrite Hd. }
  apply GetSubmissionByID_inv in Hget as [Hd _].
  assert (Hok1 : team_keys_ok (db w1)) by (unfold team_keys_ok; now rewrite Hd).
  assert (Hsw : forall r2 w2,
            status_switch (Submission.with_review s0 status fb cr rv)
              (Submission.Status s0) status now w1 = (r2, w2) ->
            team_keys_ok (db w2)).
  { intros r2 w2 Hs. apply status_switch_inv in Hs as (_ & Hno & Hyes).
    destruct (first_approval (Submission.with_review s0 status fb cr rv)
                (Submission.Status s0) status).
    - destruct (Hyes eq_refl) as (r0 & Hc & _).
      exact (createProject_keys _ _ _ _ Hc Hok1).
    - destruct (Hno eq_refl) as [Hd2 _]. unfold team_keys_ok. now rewrite Hd2. }
  run_bind E1 as final w2 Hswitch E2.
  - exact (Hsw _ _ Hswitch).
  - apply UpdateSubmission_inv in E2 as (_ & Ht & _).
    unfold team_keys_ok. rewrite Ht. exact (Hsw _ _ Hswitch).
Qed.

Lemma extras_keys id award photos w r w' :
  UpdateProjectExtras id award photos w = (r, w') ->
  team_keys_ok (db w) -> team_keys_ok (db w').
Proof.
  unfold UpdateProjectExtras. intros E Hok.
  run_bind E as s0 w1 Hget E1.
  { apply GetSubmissionByID_inv in Hget as [Hd _]. unfold team_keys_ok.
    now rewrite Hd. }
  apply GetSubmissionByID_inv in Hget as [Hd _].
  assert (Hok1 : team_keys_ok (db w1)) by (unfold team_keys_ok; now rewrite Hd).
  destruct (Submission.ApprovedProjectID s0) as [pid|].
  2:{ now inversion E1; subst. }
  run_bind E1 as p w2 Hproj E2.
  { apply or_else_inv in Hproj as [(a & _ & ?)|(e0 & Hproj & _)]; [discriminate|].
    apply GetProjectByID_inv in Hproj as [Hd2 _]. unfold team_keys_ok.
    now rewrite Hd2. }
  apply or_else_inv in Hproj as [(a & Hproj & _)|(e0 & _ & ?)]; [|discriminate].
  apply GetProjectByID_inv in Hproj as [Hd2 _].
  apply (UpdateProject_keys _ _ _ _ E2). unfold team_keys_ok. now rewrite Hd2.
Qed.

Lemma submit_keys req timestamp draw now w r w' :
  SubmitProject req timestamp draw now w = (r, w') ->
  team_keys_ok (db w) -> team_keys_ok (db w').
Proof.
  unfold SubmitProject. intros E Hok.
  destruct (validateSubmissionRequest req); [now inversion E; subst|].
  destruct (GetProjectByName (ProjectName req) w) as [r1 w1] eqn:S1.
  apply GetProjectByName_inv in S1 as [Hd1 _].
  assert (Hok1 : team_keys_ok (db w1)) by (unfold team_keys_ok; now rewrite Hd1).
  destruct r1 as [e1|p]; [|now injection E as _ <-].
  destruct (negb (error_eqb e1 ErrRecordNotFound)); [now injection E as _ <-|].
  destruct (GetSubmissionByProjectName (ProjectName req) w1) as [r2 w2] eqn:S2.
  apply GetSubmissionByProjectName_inv in S2 as [Hd2 _].
  assert (Hok2 : team_keys_ok (db w2)) by (unfold team_keys_ok; now rewrite Hd2).
  destruct r2 as [e2|s]; [|now injection E as _ <-].
  destruct (negb (error_eqb e2 ErrRecordNotFound)); [now injection E as _ <-|].
  run_bind E as payload w3 Hm E1.
  { apply lift_inv in Hm as [_ ->]. exact Hok2. }
  apply lift_inv in Hm as [_ ->].
  assert (Hcreate : forall s r3 w4, CreateSubmission s w2 = (r3, w4) ->
                                    team_keys_ok (db w4)).
  { intros s r3 w4 Hc. apply stmt_inv in Hc as [[_ Hc]|Hc].
    - unfold team_keys_ok. now rewrite Hc.
    - destruct (existsb _ (submissions (db w2)));
        apply pair_equal_spec in Hc as [_ <-]; exact Hok2. }
  run_bind E1 as u w4 Hc E2.
  - exact (Hcreate _ _ _ Hc).
  - inversion E2; subst. exact (Hcreate _ _ _ Hc).
Qed.

Lemma like_keys id w r w' :
  ProjectService.LikeProject id w = (r, w') ->
  team_keys_ok (db w) -> team_keys_ok (db w').
Proof.
  unfold ProjectService.LikeProject. intros E Hok.
  run_bind E as p w1 Hget E1.
  { apply GetProjectByID_inv in Hget as [Hd _]. unfold team_keys_ok.
    now rewrite Hd. }
  apply GetProjectByID_inv in Hget as [Hd _].
  apply stmt_inv in E1 as [[_ Hd1]|E1].
  - unfold team_keys_ok. now rewrite Hd1, Hd.
  - destruct (existsb _ (projects (db w1)));
      apply pair_equal_spec in E1 as [_ <-]; unfold team_keys_ok; simpl;
      now rewrite Hd.
Qed.

(** X12. Every store the service can reach keeps the primary key of the team
    members: keys are unique and none is zero. *)
Theorem team_keys_invariant d : Lifecycle.reachable d -> team_keys_ok d.
Proof.
  induction 1 as [|d d' _ IH Hstep].
  - split; [apply NoDup_nil_2|constructor].
  - destruct Hstep as [req ts draw now fs|id status fb cr rv now fs
                      |id award photos fs|id fs].
    + destruct (SubmitProject req ts draw now (mkWorld fs d)) as [r w'] eqn:E.
      exact (submit_keys _ _ _ _ _ _ _ E IH).
    + destruct (UpdateSubmissionStatus id status fb cr rv now (mkWorld fs d))
        as [r w'] eqn:E.
      exact (review_keys _ _ _ _ _ _ _ _ _ E IH).
    + destruct (UpdateProjectExtras id award photos (mkWorld fs d))
        as [r w'] eqn:E.
      exact (extras_keys _ _ _ _ _ _ E IH).
    + destruct (ProjectService.LikeProject id (mkWorld fs d)) as [r w'] eqn:E.
      exact (like_keys _ _ _ _ E IH).
Qed.

End KeysInvariant.

(** ** Scenarios on the sample store *)
Section Scenarios.
Import Store Repository Schema Services.

(** C2. The promotion is not one atomic unit in the code: [CreateProject]
    commits the project on its own, and only the later [UpdateProject] runs
    in a transaction. When the store fails while the team members are being
    saved, the review returns the error with the project persisted and none
    of its team members, the submission untouched; and the approval can then
    not be repeated, because the orphaned project holds the unique name. *)
Example C2_promotion_is_not_atomic :
  Sample.interrupted.1 = inl ErrBadConn
  /\ map Project.Name (projects (db Sample.interrupted.2)) = ["MonadSwap"]
  /\ team_members (db Sample.interrupted.2) = []
  /\ preload_team (db Sample.interrupted.2) 1 = []
  /\ submissions (db Sample.interrupted.2) = submissions Sample.db0
  /\ (UpdateSubmissionStatus (H := Sample.codec) Sample.sid "approved" None []
        (Some 7%nat) 3000 (mkWorld [] (db Sample.interrupted.2))).1
     = inl ErrDuplicatedKey.
Proof. vm_compute. repeat split. Qed.

Lemma C1_first_approval_promotes_once_witness :
  submission_of Sample.db0 Sample.sid = Some (Sample.submission Sample.payload)
  /\ Submission.Status (Sample.submission Sample.payload) <> "approved"
  /\ Submission.ApprovedProjectID (Sample.submission Sample.payload) = None
  /\ UpdateSubmissionStatus (H := Sample.codec) Sample.sid "approved" None []
       (Some 7%nat) 2000 (mkWorld [] Sample.db0)
     = (inr tt, mkWorld [] Sample.approved_db)
  /\ exists final,
       submission_of Sample.approved_db Sample.sid = Some final
       /\ Submission.PublishedAt final = Some 2000
       /\ Submission.ApprovedProjectID final = Some 1%nat
       /\ map Project.Name (projects Sample.approved_db) = ["MonadSwap"].
Proof.
  assert (H1 : submission_of (db (mkWorld [] Sample.db0)) Sample.sid
               = Some (Sample.submission Sample.payload)) by reflexivity.
  assert (H2 : Submission.Status (Sample.submission Sample.payload) <> "approved")
    by discriminate.
  assert (H3 : Submission.ApprovedProjectID (Sample.submission Sample.payload) = None)
    by reflexivity.
  assert (H4 : UpdateSubmissionStatus (H := Sample.codec) Sample.sid "approved"
                 None [] (Some 7%nat) 2000 (mkWorld [] Sample.db0)
               = (inr tt, mkWorld [] Sample.approved_db))
    by (vm_compute; reflexivity).
  split; [exact H1|]. split; [exact H2|]. split; [exact H3|]. split; [exact H4|].
  destruct (C1_first_approval_promotes_once (H := Sample.codec) Sample.sid None []
              (Some 7%nat) 2000 (mkWorld [] Sample.db0)
              (mkWorld [] Sample.approved_db) (Sample.submission Sample.payload)
              H1 H2 H3 H4)
    as (inputs & news & final & _ & _ & _ & _ & _ & _ & Hf & _ & Hpub & Hlink & _).
  exists final. split; [exact Hf|]. split; [exact Hpub|]. split; [exact Hlink|].
  vm_compute. reflexivity.
Defined.

Lemma C3_failed_promotion_keeps_submission_witness :
  submission_of Sample.db_garbled Sample.sid
  = Some (Sample.submission "{not json")
  /\ Submission.Status (Sample.submission "{not json") <> "approved"
  /\ Submission.ApprovedProjectID (Sample.submission "{not json") = None
  /\ UpdateSubmissionStatus (H := Sample.codec) Sample.sid "approved" None []
       (Some 7%nat) 2000 (mkWorld [] Sample.db_garbled)
     = (inl SyntaxError, mkWorld [] Sample.db_garbled)
  /\ submission_of Sample.db_garbled Sample.sid
     = Some (Sample.submission "{not json").
Proof.
  split; [reflexivity|]. split; [discriminate|]. split; [reflexivity|].
  destruct (C3_failed_promotion_keeps_submission (H := Sample.codec) Sample.sid
              None [] (Some 7%nat) 2000 (mkWorld [] Sample.db_garbled)
              (mkWorld [] Sample.db_garbled) (Sample.submission "{not json")
              SyntaxError)
    as (Hrun & _ & Hkept & _).
  - reflexivity.
  - discriminate.
  - reflexivity.
  - simpl. discriminate.
  - vm_compute. reflexivity.
  - split; [exact Hrun|exact Hkept].
Defined.

Lemma C5_update_extras_witness :
  submission_of Sample.approved_db Sample.sid = Some Sample.approved_submission
  /\ UpdateProjectExtras Sample.sid None Sample.photos
       (mkWorld [] Sample.approved_db)
     = (inr tt, mkWorld [] Sample.extras_db)
  /\ map TeamMember.Image (preload_team Sample.extras_db 1)
     = ["https://x/y.png"].
Proof.
  assert (H1 : submission_of (db (mkWorld [] Sample.approved_db)) Sample.sid
               = Some Sample.approved_submission) by (vm_compute; reflexivity).
  assert (H2 : UpdateProjectExtras Sample.sid None Sample.photos
                 (mkWorld [] Sample.approved_db)
               = (inr tt, mkWorld [] Sample.extras_db))
    by (vm_compute; reflexivity).
  split; [exact H1|]. split; [exact H2|].
  destruct (C5_update_extras Sample.sid None Sample.photos
              (mkWorld [] Sample.approved_db) (mkWorld [] Sample.extras_db)
              (inr tt) Sample.approved_submission H1 H2)
    as (_ & _ & _ & Hmembers & _).
  destruct (Hmembers 1%nat eq_refl eq_refl) as [_ Hteam].
  - split.
    + vm_compute. apply NoDup_singleton.
    + vm_compute. repeat constructor. discriminate.
  - change (preload_team (db (mkWorld [] Sample.extras_db)) 1)
      with (preload_team Sample.extras_db 1) in Hteam.
    rewrite Hteam. vm_compute. reflexivity.
Defined.

Lemma C6_duplicate_checks_in_order_witness :
  validateSubmissionRequest Sample.request = None
  /\ exists resp new,
       SubmitProject (H := Sample.codec) Sample.request 1749035470531
         (fun i => i) 900 (mkWorld [] (mkDB [] [] []))
       = (inr resp, mkWorld [] (mkDB [new] [] []))
       /\ SubmissionID resp = "SUB-1749035470531-ABCDEF"
       /\ Submission.Status new = "pending"
       /\ Submission.SubmittedAt new = 900.
Proof.
  assert (H1 : validateSubmissionRequest Sample.request = None) by reflexivity.
  split; [exact H1|].
  destruct (C6_duplicate_checks_in_order (H := Sample.codec) Sample.request
              1749035470531 (fun i => i) 900 (mkDB [] [] []) H1)
    as (_ & _ & Hnew & _).
  destruct (Hnew eq_refl eq_refl Sample.payload eq_refl eq_refl)
    as (resp & new & Hrun & _ & Hid & _ & _ & _ & Hst & Hat & _).
  exists resp, new. split; [exact Hrun|]. split; [|split; [exact Hst|exact Hat]].
  rewrite Hid. vm_compute. reflexivity.
Defined.

Lemma C7_validation_short_circuits_witness :
  Utils.ValidateCategories (Categories Sample.bad_request) = false
  /\ validateSubmissionRequest Sample.bad_request = Some INVALID_CATEGORIES
  /\ SubmitProject (H := Sample.codec) Sample.bad_request 1749035470531
       (fun i => i) 900 (mkWorld [true] Sample.db0)
     = (inl INVALID_CATEGORIES, mkWorld [true] Sample.db0).
Proof.
  assert (H1 : Utils.ValidateCategories (Categories Sample.bad_request) = false)
    by reflexivity.
  split; [exact H1|].
  destruct (C7_validation_short_circuits (H := Sample.codec) Sample.bad_request
              1749035470531 (fun i => i) 900 (mkWorld [true] Sample.db0))
    as (_ & _ & _ & Hcat & _ & _ & _ & _ & Hfirst).
  split; [exact (Hcat H1)|exact (Hfirst _ (Hcat H1))].
Defined.

Lemma C8_review_started_once_reviewed_always_witness :
  submission_of Sample.db0 Sample.sid = Some (Sample.submission Sample.payload)
  /\ UpdateSubmissionStatus (H := Sample.codec) Sample.sid "under_review" None []
       (Some 7%nat) 1500 (mkWorld [] Sample.db0)
     = (inr tt, mkWorld [] Sample.under_review_db)
  /\ exists s1,
       submission_of Sample.under_review_db Sample.sid = Some s1
       /\ Submission.ReviewStartedAt s1 = Some 1500.
Proof.
  assert (H1 : submission_of (db (mkWorld [] Sample.db0)) Sample.sid
               = Some (Sample.submission Sample.payload)) by reflexivity.
  assert (H2 : UpdateSubmissionStatus (H := Sample.codec) Sample.sid
                 "under_review" None [] (Some 7%nat) 1500 (mkWorld [] Sample.db0)
               = (inr tt, mkWorld [] Sample.under_review_db))
    by (vm_compute; reflexivity).
  split; [exact H1|]. split; [exact H2|].
  destruct (C8_review_started_once_reviewed_always (H := Sample.codec) Sample.sid
              None [] (Some 7%nat) 1500 (mkWorld [] Sample.db0)
              (mkWorld [] Sample.under_review_db)
              (Sample.submission Sample.payload) H1 H2)
    as ((s1 & Hs1 & Ht1 & _) & _).
  exists s1. split; [exact Hs1|exact Ht1].
Defined.

Lemma C9_pending_stamps_nothing_witness :
  submission_of Sample.approved_db Sample.sid = Some Sample.approved_submission
  /\ UpdateSubmissionStatus (H := Sample.codec) Sample.sid "pending"
       (Some "later") [] (Some 7%nat) 1500 (mkWorld [] Sample.approved_db)
     = (inr tt, mkWorld [] Sample.pending_db)
  /\ projects Sample.pending_db = projects Sample.approved_db
  /\ exists final,
       submission_of Sample.pending_db Sample.sid = Some final
       /\ Submission.Status final = "pending"
       /\ Submission.ReviewedAt final = Some 2000
       /\ Submission.PublishedAt final = Some 2000
       /\ Submission.ApprovedProjectID final = Some 1%nat.
Proof.
  assert (H1 : submission_of (db (mkWorld [] Sample.approved_db)) Sample.sid
               = Some Sample.approved_submission) by (vm_compute; reflexivity).
  assert (H2 : UpdateSubmissionStatus (H := Sample.codec) Sample.sid "pending"
                 (Some "later") [] (Some 7%nat) 1500
                 (mkWorld [] Sample.approved_db)
               = (inr tt, mkWorld [] Sample.pending_db))
    by (vm_compute; reflexivity).
  split; [exact H1|]. split; [exact H2|].
  destruct (C9_pending_stamps_nothing (H := Sample.codec) Sample.sid (Some "later")
              [] (Some 7%nat) 1500 (mkWorld [] Sample.approved_db)
              (mkWorld [] Sample.pending_db) (inr tt)
              Sample.approved_submission H1 H2)
    as (_ & _ & Hp & _ & [(e & He & _)|(_ & final & Hf & _ & Hst & _ & _ & _ & _ & Hrev & Hpub & Hlink)] & _).
  - discriminate.
  - split; [exact Hp|]. exists final.
    split; [exact Hf|]. split; [exact Hst|].
    split; [exact Hrev|]. split; [exact Hpub|exact Hlink].
Defined.

Lemma C10_empty_photo_entries_excluded_witness :
  Sample.entry "Alex" "" !! "photoUrl" = Some ""
  /\ build_photoMap ([] ++ Sample.entry "Alex" "" :: []) ∅
     = build_photoMap ([] ++ []) ∅.
Proof.
  assert (H1 : Sample.entry "Alex" "" !! "photoUrl" = Some "")
    by (vm_compute; reflexivity).
  split; [exact H1|].
  exact (proj1 (C10_empty_photo_entries_excluded [] [] (Sample.entry "Alex" "")
                  (or_introl H1))).
Defined.

End Scenarios.

(** ** More on identifiers: the printer read back, and collisions *)
Section Collisions.
Import Utils.

Lemma append_assoc (a b c : string) : (a +:+ b) +:+ c = a +:+ (b +:+ c).
Proof.
  induction a as [|x a IH]; [reflexivity|].
  rewrite !append_cons. now rewrite IH.
Qed.

(** Two concatenations with tails of one length agree part by part. *)
Lemma append_inj_tail (s1 s2 t1 t2 : string) :
  s1 +:+ t1 = s2 +:+ t2 -> String.length t1 = String.length t2 ->
  s1 = s2 /\ t1 = t2.
Proof.
  revert s2. induction s1 as [|c s1 IH]; intros [|c2 s2] E L.
  - now rewrite !append_nil in E.
  - rewrite append_nil, append_cons in E. subst t1.
    cbn [String.length] in L. rewrite length_append in L. lia.
  - rewrite append_nil, append_cons in E. subst t2.
    cbn [String.length] in L. rewrite length_append in L. lia.
  - rewrite !append_cons in E. injection E as -> E.
    destruct (IH _ E L) as [-> ->]. now split.
Qed.

Lemma digits_value_app s r : forall acc,
  digits_value (s +:+ r) acc
  = match digits_value s acc with
    | Some v => digits_value r v
    | None => None
    end.
Proof.
  induction s as [|c s IH]; intros acc; [reflexivity|].
  rewrite append_cons. cbn [digits_value].
  destruct (is_digit c); [apply IH|reflexivity].
Qed.

Lemma fmt_digits_acc fuel : forall n acc,
  fmt_digits fuel n acc = fmt_digits fuel n "" +:+ acc.
Proof.
  induction fuel as [|f IH]; intros n acc; [reflexivity|].
  cbn [fmt_digits]. destruct (n / 10 =? 0)%N; [reflexivity|].
  rewrite (IH _ (String _ acc)), (IH _ (String _ "")).
  now rewrite append_assoc.
Qed.

Lemma digit_value n : (n < 10)%N -> (N_of_ascii (digit n) - 48 = n)%N.
Proof. intros Hn. unfold digit. rewrite N_ascii_embedding by lia. lia. Qed.

(** Reading the printed digits gives the number back. *)
Lemma fmt_digits_value fuel : forall n,
  (n < 10 ^ N.of_nat fuel)%N -> (0 < fuel)%nat ->
  digits_value (fmt_digits fuel n "") 0 = Some n.
Proof.
  induction fuel as [|f IH]; intros n Hn Hf; [lia|].
  assert (Hm : (n mod 10 < 10)%N) by (apply N.mod_lt; discriminate).
  assert (Hdm : n = (10 * (n / 10) + n mod 10)%N) by (apply N.div_mod'; discriminate).
  cbn [fmt_digits]. destruct (n / 10 =? 0)%N eqn:Hq.
  - apply N.eqb_eq in Hq. cbn [digits_value].
    rewrite digit_is_digit by exact Hm. rewrite digit_value by exact Hm.
    f_equal. lia.
  - apply N.eqb_neq in Hq.
    rewrite Nat2N.inj_succ, N.pow_succ_r' in Hn.
    assert (Hq10 : (n / 10 < 10 ^ N.of_nat f)%N).
    { apply N.Div0.div_lt_upper_bound. exact Hn. }
    assert (0 < f)%nat.
    { destruct f as [|f']; [|lia]. simpl in Hq10. lia. }
    rewrite fmt_digits_acc, digits_value_app, IH by assumption.
    cbn [digits_value].
    rewrite digit_is_digit by exact Hm. rewrite digit_value by exact Hm.
    f_equal. lia.
Qed.

Lemma fuel_enough n : (n < 10 ^ N.of_nat (S (N.to_nat (N.log2 n))))%N.
Proof.
  rewrite Nat2N.inj_succ, N2Nat.id.
  destruct (N.eq_dec n 0%N) as [->|Hn]; [reflexivity|].
  apply N.lt_le_trans with (2 ^ N.succ (N.log2 n))%N.
  - apply N.log2_spec. lia.
  - apply N.pow_le_mono_l. lia.
Qed.

Lemma FormatInt_body_value n :
  digits_value (fmt_digits (S (N.to_nat (N.log2 n))) n "") 0 = Some n.
Proof. apply fmt_digits_value; [apply fuel_enough|lia]. Qed.

Lemma fmt_digits_nonempty fuel n : fmt_digits (S fuel) n "" <> "".
Proof.
  cbn [fmt_digits]. destruct (n / 10 =? 0)%N; [discriminate|].
  rewrite fmt_digits_acc. destruct (fmt_digits fuel _ ""); discriminate.
Qed.

(** What [FormatInt] prints: a sign if need be, then the digits of the
    absolute value. *)
Lemma FormatInt_read z :
  exists body,
    FormatInt z = (if z <? 0 then String "-" body else body)
    /\ digits_value body 0 = Some (Z.abs_N z)
    /\ body <> "".
Proof.
  eexists. split; [reflexivity|].
  split; [apply FormatInt_body_value|apply fmt_digits_nonempty].
Qed.

Lemma digits_start c r acc v :
  digits_value (String c r) acc = Some v -> is_digit c = true.
Proof. cbn [digits_value]. now destruct (is_digit c). Qed.

(** The printer is one to one. *)
Lemma FormatInt_inj z1 z2 : FormatInt z1 = FormatInt z2 -> z1 = z2.
Proof.
  destruct (FormatInt_read z1) as (b1 & -> & V1 & _).
  destruct (FormatInt_read z2) as (b2 & -> & V2 & _).
  destruct (z1 <? 0) eqn:S1, (z2 <? 0) eqn:S2; intros E.
  - injection E as E. rewrite E in V1. rewrite V1 in V2.
    injection V2 as V. apply Z.ltb_lt in S1, S2. lia.
  - rewrite <- E in V2. apply digits_start in V2. discriminate.
  - rewrite E in V1. apply digits_start in V1. discriminate.
  - rewrite E in V1. rewrite V1 in V2.
    injection V2 as V. apply Z.ltb_ge in S1, S2. lia.
Qed.

(** X1. Two generated identifiers collide exactly when they were made in the
    same millisecond with the same six random characters. *)
Theorem GenerateSubmissionID_collision (t1 t2 : Z) (draw1 draw2 : nat -> nat) :
  GenerateSubmissionID t1 draw1 = GenerateSubmissionID t2 draw2
  <-> t1 = t2 /\ generateRandomHash 6 draw1 = generateRandomHash 6 draw2.
Proof.
  split.
  - assert (G : forall t d,
              GenerateSubmissionID t d
              = String "S" (String "U" (String "B" (String "-"
                  (FormatInt t +:+ String "-" (generateRandomHash 6 d))))))
      by reflexivity.
    rewrite !G. clear G.
    assert (L1 : String.length (generateRandomHash 6 draw1) = 6%nat)
      by apply hash_loop_shape.
    assert (L2 : String.length (generateRandomHash 6 draw2) = 6%nat)
      by apply hash_loop_shape.
    revert L1 L2.
    generalize (generateRandomHash 6 draw1) (generateRandomHash 6 draw2).
    intros h1 h2 L1 L2 E. injection E as E.
    apply append_inj_tail in E as [E1 E2].
    + injection E2 as E2. split; [now apply FormatInt_inj|exact E2].
    + cbn [String.length]. now rewrite L1, L2.
  - intros [-> E]. unfold GenerateSubmissionID. cbv zeta. now rewrite E.
Qed.

Lemma charset_member i :
  (i < 36)%nat -> has_byte (charset_at i) charset = true.
Proof.
  intros Hi.
  do 36 (destruct i as [|i]; [reflexivity|]). lia.
Qed.

Lemma hash_loop_alphabet n : forall i draw c,
  has_byte c (hash_loop n i draw) = true -> has_byte c charset = true.
Proof.
  induction n as [|n IH]; intros i draw c; [discriminate|].
  change (hash_loop (S n) i draw)
    with (String (charset_at (Intn (draw i) 36)) (hash_loop n (S i) draw)).
  cbn [has_byte].
  destruct (Ascii.eqb _ c) eqn:E; [|apply IH].
  intros _. apply Ascii.eqb_eq in E. subst c.
  apply charset_member. unfold Intn. apply Nat.mod_upper_bound. discriminate.
Qed.

(** X2. The random part has the length asked for and is written in capital
    letters and digits only, whatever the generator draws. *)
Theorem generateRandomHash_alphabet (length : nat) (draw : nat -> nat) :
  String.length (generateRandomHash length draw) = length
  /\ forall c, has_byte c (generateRandomHash length draw) = true ->
               has_byte c "ABCDEFGHIJKLMNOPQRSTUVWXYZ0123456789" = true.
Proof.
  split; [apply hash_loop_shape|].
  intros c. apply hash_loop_alphabet.
Qed.

(** [strconv.ParseUint] reads back what the printer writes for a number
    that fits 32 bits. *)
Lemma ParseUint32_FormatInt (n : nat) :
  (Z.of_nat n < 2 ^ 32) -> ParseUint32 (FormatInt (Z.of_nat n)) = Some n.
Proof.
  intros Hn.
  destruct (FormatInt_read (Z.of_nat n)) as (b & -> & V & Hb).
  assert (Hs : (Z.of_nat n <? 0) = false) by (apply Z.ltb_ge; lia).
  rewrite Hs.
  assert (Ha : Z.abs_N (Z.of_nat n) = N.of_nat n) by lia.
  rewrite Ha in V.
  unfold ParseUint32. destruct b as [|c r]; [congruence|].
  rewrite V.
  assert (Hlt : (N.of_nat n <? 2 ^ 32)%N = true).
  { apply N.ltb_lt. apply N2Z.inj_lt. rewrite nat_N_Z. exact Hn. }
  rewrite Hlt. now rewrite Nat2N.id.
Qed.

Lemma digits_value_bad s : forall acc,
  all_digits s = false -> digits_value s acc = None.
Proof.
  induction s as [|c r IH]; intros acc; [discriminate|].
  cbn [all_digits digits_value]. destruct (is_digit c); [|reflexivity].
  cbn [andb]. apply IH.
Qed.

(** X3. [RemoveEmpty], for a trimming function that leaves a trimmed string
    as it is (as [strings.TrimSpace] does): the strings that come out are the
    trimmed inputs that are not empty, in their order; no empty string comes
    out; and cleaning a cleaned slice changes nothing. *)
Theorem RemoveEmpty_cleans (TrimSpace : string -> string) (slice : list string)
    (Hidem : forall s, TrimSpace (TrimSpace s) = TrimSpace s) :
  RemoveEmpty TrimSpace slice
  = List.filter (fun s => negb (String.eqb s "")) (map TrimSpace slice)
  /\ Forall (fun s => s <> "") (RemoveEmpty TrimSpace slice)
  /\ RemoveEmpty TrimSpace (RemoveEmpty TrimSpace slice)
     = RemoveEmpty TrimSpace slice.
Proof.
  induction slice as [|s rest (IH1 & IH2 & IH3)].
  - repeat split. constructor.
  - cbn [RemoveEmpty map List.filter].
    destruct (negb (String.eqb (TrimSpace s) "")) eqn:E.
    + split; [now rewrite IH1|]. split.
      * constructor; [|exact IH2].
        apply negb_true_iff, String.eqb_neq in E. exact E.
      * cbn [RemoveEmpty]. rewrite Hidem, E. now rewrite IH3.
    + now repeat split.
Qed.

End Collisions.

(** ** The credentials of the login *)
Section Credentials.
Import Utils AuthHandler.

Lemma Index_cut s sep i :
  Index s sep = Some i ->
  exists u r,
    s = u +:+ String sep r /\ has_byte sep u = false
    /\ String.length u = i
    /\ String.substring 0 i s = u
    /\ String.substring (i + 1) (String.length s - (i + 1)) s = r.
Proof.
  revert i. induction s as [|c s IH]; intros i; [discriminate|].
  cbn [Index]. destruct (Ascii.eqb c sep) eqn:Hc.
  - intros E. injection E as <-. apply Ascii.eqb_eq in Hc. subst c.
    exists "", s. repeat split.
    cbn [String.length Nat.add Nat.sub String.substring].
    rewrite Nat.sub_0_r. clear. induction s as [|c s IH]; [reflexivity|].
    cbn [String.length String.substring]. now rewrite IH.
  - destruct (Index s sep) as [j|] eqn:Hj; [|discriminate].
    intros E. injection E as <-.
    destruct (IH j eq_refl) as (u & r & Hs & Hu & Hl & H1 & H2).
    exists (String c u), r. rewrite append_cons.
    split; [now rewrite <- Hs|].
    split; [cbn [has_byte]; now rewrite Hc|].
    split; [cbn [String.length]; now rewrite Hl|].
    split; [cbn [String.substring]; now rewrite H1|].
    cbn [Nat.add String.length Nat.sub String.substring]. exact H2.
Qed.

Lemma Index_first u r sep :
  has_byte sep u = false -> Index (u +:+ String sep r) sep = Some (String.length u).
Proof.
  induction u as [|c u IH]; intros Hu.
  - rewrite append_nil. cbn [Index]. now rewrite Ascii.eqb_refl.
  - rewrite append_cons. cbn [has_byte] in Hu. cbn [Index String.length].
    destruct (Ascii.eqb c sep); [discriminate|]. now rewrite (IH Hu).
Qed.

(** X4. [parseCredentials] accepts exactly the inputs made of a user name of at
    least two bytes without a dash, a dash, and a password of at least three
    bytes (which may hold dashes), and returns these two parts; whenever it
    refuses, both strings it returns are empty. *)
Theorem parseCredentials_accepts (input username password : string) :
  (parseCredentials input = (username, password, true)
   <-> input = username +:+ String "-" password
       /\ has_byte "-" username = false
       /\ (2 <= String.length username)%nat
       /\ (3 <= String.length password)%nat)
  /\ (parseCredentials input = (username, password, false) ->
      username = "" /\ password = "").
Proof.
  split; [split|].
  - unfold parseCredentials.
    destruct (Index input "-") as [i|] eqn:Hi; [|discriminate].
    destruct (Index_cut _ _ _ Hi) as (u & r & Hs & Hu & Hl & H1 & H2).
    destruct (Nat.eqb i 0 || Nat.eqb i (String.length input - 1)); [discriminate|].
    cbv zeta. rewrite H1, H2.
    destruct ((String.length u <? 2)%nat || (String.length r <? 3)%nat) eqn:Hlen;
      [discriminate|].
    intros E. injection E as <- <-.
    apply orb_false_iff in Hlen as [Lu Lr].
    apply Nat.ltb_ge in Lu, Lr. auto.
  - intros (-> & Hu & Lu & Lp). unfold parseCredentials.
    pose proof (Index_first username password "-" Hu) as Hi. rewrite Hi.
    destruct (Index_cut _ _ _ Hi) as (u & r & Hs & Hu' & Hl & H1 & H2).
    apply append_inj_tail in Hs as [<- Hr].
    2:{ apply (f_equal String.length) in Hs. rewrite !length_append in Hs.
        cbn [String.length] in *. lia. }
    injection Hr as <-.
    assert (Hz : Nat.eqb (String.length username) 0 = false)
      by (apply Nat.eqb_neq; lia).
    assert (Hend : Nat.eqb (String.length username)
                     (String.length (username +:+ String "-" password) - 1) = false).
    { apply Nat.eqb_neq. rewrite length_append. cbn [String.length]. lia. }
    rewrite Hz, Hend. cbv zeta. cbn [orb]. rewrite H1, H2.
    assert (L1 : (String.length username <? 2)%nat = false) by (apply Nat.ltb_ge; lia).
    assert (L2 : (String.length password <? 3)%nat = false) by (apply Nat.ltb_ge; lia).
    now rewrite L1, L2.
  - unfold parseCredentials.
    destruct (Index input "-") as [i|]; [|intros E; now injection E as <- <-].
    destruct (Nat.eqb i 0 || Nat.eqb i (String.length input - 1));
      [intros E; now injection E as <- <-|].
    cbv zeta.
    destruct ((String.length _ <? 2)%nat || (String.length _ <? 3)%nat);
      [intros E; now injection E as <- <-|discriminate].
Qed.

End Credentials.

(** ** The rate limiter *)
Section RateLimiter.
Import Middleware.

(** The entries [allow] keeps at the instant [now]. *)
Lemma Sub_recent now t :
  (Sub now t <? Minute) = (now - t <? Minute).
Proof.
  unfold Sub, Minute.
  destruct (now - t <? - 2 ^ 63) eqn:E1.
  - apply Z.ltb_lt in E1. symmetry. apply Z.ltb_lt. lia.
  - destruct (2 ^ 63 - 1 <? now - t) eqn:E2; [|reflexivity].
    apply Z.ltb_lt in E2. symmetry. apply Z.ltb_ge. lia.
Qed.

Lemma filter_length_le {A} (P Q : A -> bool) l :
  (forall x, In x l -> P x = true -> Q x = true) ->
  (length (List.filter P l) <= length (List.filter Q l))%nat.
Proof.
  induction l as [|x l IH]; intros Himp; [reflexivity|].
  cbn [List.filter].
  assert (IH' := IH (fun y Hy => Himp y (or_intror Hy))).
  destruct (P x) eqn:Px.
  - rewrite (Himp x (or_introl eq_refl) Px). cbn [length]. lia.
  - destruct (Q x); cbn [length]; lia.
Qed.

Lemma filter_filter_later (now now' : Z) l :
  now <= now' ->
  List.filter (fun t : Z => (now' - t <? Minute)%Z)
    (List.filter (fun t : Z => (now - t <? Minute)%Z) l)
  = List.filter (fun t : Z => (now' - t <? Minute)%Z) l.
Proof.
  intros Hle. induction l as [|t l IH]; [reflexivity|].
  cbn [List.filter].
  destruct (now - t <? Minute) eqn:E1; cbn [List.filter].
  - now rewrite IH.
  - rewrite IH. apply Z.ltb_ge in E1.
    assert (E2 : (now' - t <? Minute) = false) by (apply Z.ltb_ge; lia).
    now rewrite E2.
Qed.

(** What one [allow] does, read off for the client it serves. *)
Lemma allow_inv rl now c ok rl' :
  window rl = Minute ->
  allow rl now c = (ok, rl') ->
  let kept := List.filter (fun t : Z => (now - t <? Minute)%Z)
                (default [] (clients rl !! c)) in
  limit rl' = limit rl /\ window rl' = window rl
  /\ (forall c', c' <> c -> clients rl' !! c' = clients rl !! c')
  /\ ok = negb (limit rl <=? Z.of_nat (length kept))
  /\ default [] (clients rl' !! c) = (if ok then kept ++ [now] else kept).
Proof.
  intros Hw. unfold allow. rewrite Hw. cbv zeta.
  set (cleaned := match clients rl !! c with
                  | Some requests => _
                  | None => clients rl
                  end).
  assert (Hc : default [] (cleaned !! c)
               = List.filter (fun t : Z => (now - t <? Minute)%Z)
                   (default [] (clients rl !! c))).
  { unfold cleaned. destruct (clients rl !! c) as [requests|] eqn:E.
    - rewrite lookup_insert_eq. cbn [default].
      apply List.filter_ext. intros t. apply Sub_recent.
    - now rewrite E. }
  assert (Hother : forall c', c' <> c -> cleaned !! c' = clients rl !! c').
  { intros c' Hne. unfold cleaned. destruct (clients rl !! c); [|reflexivity].
    now rewrite lookup_insert_ne. }
  rewrite Hc.
  destruct (limit rl <=? Z.of_nat (length _)) eqn:E; intros R;
    injection R as <- <-; cbn [limit window clients negb].
  - repeat split; auto.
  - repeat split; auto.
    + intros c' Hne. rewrite lookup_insert_ne by congruence. now apply Hother.
    + now rewrite lookup_insert_eq.
Qed.

Lemma verdicts_cons rl now ip rest :
  verdicts rl ((now, ip) :: rest)
  = (allow rl now ip).1 :: verdicts (allow rl now ip).2 rest.
Proof.
  cbn [verdicts]. unfold RateLimit.
  now destruct (allow rl now ip) as [[|] rl'].
Qed.

(** The bound, for a limiter in any state that remembers the recent passes
    of the client. *)
Lemma window_bound client : forall requests rl hist last a,
  window rl = Minute ->
  (forall now, last <= now ->
     List.filter (fun t : Z => (now - t <? Minute)%Z) (default [] (clients rl !! client))
     = List.filter (fun t : Z => (now - t <? Minute)%Z) hist) ->
  (forall b, (length (List.filter (fun t : Z => ((b <=? t) && (t <? b + Minute))%Z) hist)
              <= Z.to_nat (limit rl))%nat) ->
  monotonic last requests = true ->
  (length (List.filter (fun t : Z => ((a <=? t) && (t <? a + Minute))%Z)
             (hist ++ passes client requests (verdicts rl requests)))
   <= Z.to_nat (limit rl))%nat.
Proof.
  induction requests as [|[now ip] rest IH]; intros rl hist last a Hw Hst Hb Hm.
  - cbn [verdicts passes]. rewrite app_nil_r. apply Hb.
  - cbn [monotonic] in Hm. apply andb_true_iff in Hm as [Hle Hm].
    apply Z.leb_le in Hle.
    rewrite verdicts_cons. cbn [passes].
    destruct (allow rl now ip) as [ok rl'] eqn:Ha. cbn [fst snd].
    destruct (allow_inv _ _ _ _ _ Hw Ha) as (Hl & Hw' & Hother & Hok & Hnew).
    destruct (String.eqb ip client) eqn:Hip.
    + apply String.eqb_eq in Hip. subst ip.
      destruct ok; cbn [andb].
      * change (now :: ?l) with ([now] ++ l). rewrite app_assoc.
        rewrite <- Hl. apply (IH rl' (hist ++ [now]) now a).
        -- congruence.
        -- intros now' Hn'. rewrite Hnew, !List.filter_app.
           rewrite filter_filter_later by exact Hn'.
           f_equal. apply Hst. lia.
        -- intros b. rewrite Hl, List.filter_app, length_app.
           symmetry in Hok. apply negb_true_iff, Z.leb_gt in Hok.
           rewrite (Hst now Hle) in Hok.
           cbn [List.filter].
           destruct ((b <=? now) && (now <? b + Minute)) eqn:Hin;
             cbn [length]; [|pose proof (Hb b); lia].
           apply andb_true_iff in Hin as [H1 H2].
           apply Z.leb_le in H1. apply Z.ltb_lt in H2.
           assert ((length (List.filter (fun t : Z => ((b <=? t) && (t <? b + Minute))%Z) hist)
                    <= length (List.filter (fun t : Z => (now - t <? Minute)%Z) hist))%nat).
           { apply filter_length_le. intros t _ Ht.
             apply andb_true_iff in Ht as [Ht _]. apply Z.leb_le in Ht.
             apply Z.ltb_lt. lia. }
           lia.
        -- exact Hm.
      * rewrite <- Hl. apply (IH rl' hist now a).
        -- congruence.
        -- intros now' Hn'. rewrite Hnew.
           rewrite filter_filter_later by exact Hn'. apply Hst. lia.
        -- intros b. rewrite Hl. apply Hb.
        -- exact Hm.
    + apply String.eqb_neq in Hip. rewrite andb_false_r.
      rewrite <- Hl. apply (IH rl' hist now a).
      * congruence.
      * intros now' Hn'. rewrite Hother by congruence. apply Hst. lia.
      * intros b. rewrite Hl. apply Hb.
      * exact Hm.
Qed.

(** X5. Over any sequence of requests whose clock readings never go back, a
    limiter made for [requestsPerMinute] lets a client through at most that
    many times in any span of one minute (and never, when the number is not
    positive). *)
Theorem RateLimit_window_bound (requestsPerMinute : Z)
    (requests : list (Z * string)) (start : Z) (client : string) (a : Z)
    (Hclock : monotonic start requests = true) :
  (length (List.filter (fun t : Z => ((a <=? t) && (t <? a + Minute))%Z)
             (passes client requests
                (verdicts (newRateLimiter requestsPerMinute) requests)))
   <= Z.to_nat requestsPerMinute)%nat.
Proof.
  apply (window_bound client requests (newRateLimiter requestsPerMinute)
           [] start a); auto.
  cbn. lia.
Qed.

(** X6. A limit of zero or less refuses every request. *)
Theorem RateLimit_blocks_all (requestsPerMinute : Z)
    (requests : list (Z * string))
    (Hlimit : requestsPerMinute <= 0) :
  Forall (fun ok => ok = false)
    (verdicts (newRateLimiter requestsPerMinute) requests).
Proof.
  assert (G : forall rl, limit rl <= 0 ->
            Forall (fun ok => ok = false) (verdicts rl requests)).
  { induction requests as [|[now ip] rest IH]; intros rl Hl; [constructor|].
    rewrite verdicts_cons. unfold allow. cbv zeta.
    destruct (limit rl <=? Z.of_nat (length _)) eqn:E.
    - constructor; [reflexivity|]. now apply IH.
    - apply Z.leb_gt in E. lia. }
  now apply G.
Qed.

Lemma filter_all_old now l :
  Forall (fun t => t + Minute <= now) l ->
  List.filter (fun t : Z => (now - t <? Minute)%Z) l = [].
Proof.
  induction 1 as [|t l Ht _ IHl]; [reflexivity|].
  cbn [List.filter].
  assert (E : (now - t <? Minute) = false) by (apply Z.ltb_ge; lia).
  now rewrite E.
Qed.

(** The stored instants of a client come from its own requests. *)
Lemma quiet_client client now : forall pre rl,
  window rl = Minute ->
  Forall (fun t => t + Minute <= now) (default [] (clients rl !! client)) ->
  (forall t, In (t, client) pre -> t + Minute <= now) ->
  (1 <= limit rl) ->
  last (verdicts rl (pre ++ [(now, client)])) = Some true.
Proof.
  induction pre as [|[t ip] rest IH]; intros rl Hw Hold Hpre Hl.
  - cbn [app]. rewrite verdicts_cons. cbn [verdicts last].
    destruct (allow rl now client) as [ok rl'] eqn:Ha. cbn [fst].
    destruct (allow_inv _ _ _ _ _ Hw Ha) as (_ & _ & _ & Hok & _).
    pose proof (filter_all_old _ _ Hold) as Hk.
    rewrite Hk in Hok. cbn [length] in Hok. subst ok. f_equal.
    apply negb_true_iff, Z.leb_gt. change (Z.of_nat 0) with 0. lia.
  - rewrite <- app_comm_cons, verdicts_cons.
    destruct (allow rl t ip) as [ok rl'] eqn:Ha. cbn [fst snd].
    destruct (allow_inv _ _ _ _ _ Hw Ha) as (Hl' & Hw' & Hother & _ & Hnew).
    assert (Hlast : last (verdicts rl' (rest ++ [(now, client)])) = Some true).
    { apply IH.
      - congruence.
      - destruct (String.eqb ip client) eqn:Hip.
        + apply String.eqb_eq in Hip. subst ip. rewrite Hnew.
          assert (Hkept : Forall (fun t => t + Minute <= now)
                    (List.filter (fun t0 : Z => (t - t0 <? Minute)%Z)
                       (default [] (clients rl !! client)))).
          { apply Forall_forall. intros x Hx.
            apply list_elem_of_In, List.filter_In in Hx as [Hx _].
            rewrite Forall_forall in Hold. apply Hold.
            now apply list_elem_of_In. }
          destruct ok; [|exact Hkept].
          apply Forall_app. split; [exact Hkept|].
          constructor; [|constructor]. apply Hpre. now left.
        + apply String.eqb_neq in Hip. rewrite Hother by congruence. exact Hold.
      - intros t' Hin. apply Hpre. now right.
      - lia. }
    destruct (verdicts rl' (rest ++ [(now, client)])) as [|v vs] eqn:Ev;
      [discriminate|].
    exact Hlast.
Qed.

(** X7. A client all of whose earlier requests are at least a minute old is let
    through, whatever the other clients did, when the limit is positive. *)
Theorem RateLimit_recovers (requestsPerMinute : Z)
    (earlier : list (Z * string)) (now : Z) (client : string)
    (Hlimit : 1 <= requestsPerMinute)
    (Hquiet : forall t, In (t, client) earlier -> t + Minute <= now) :
  last (verdicts (newRateLimiter requestsPerMinute) (earlier ++ [(now, client)]))
  = Some true.
Proof.
  apply quiet_client; auto.
Qed.

End RateLimiter.

(** ** What each operation does to the three tables *)
Section Effects.
Context `{JSON}.
Import Store Repository Schema Services.

Lemma db_ext (a b : DB) :
  submissions a = submissions b -> projects a = projects b ->
  team_members a = team_members b -> a = b.
Proof. destruct a, b. simpl. congruence. Qed.

Lemma find_none_existsb {A} (f : A -> bool) l :
  find f l = None -> existsb f l = false.
Proof.
  intros Hf. destruct (existsb f l) eqn:E; [|reflexivity].
  apply existsb_find in E as [x E]. congruence.
Qed.

Lemma not_found_only e :
  negb (error_eqb e ErrRecordNotFound) = false -> e = ErrRecordNotFound.
Proof. destruct e; simpl; intros E; try discriminate. reflexivity. Qed.

(** A save over a row that is there rewrites the rows with its key. *)
Lemma save_row_found {A} (same : A -> bool) (row : A) rows old :
  find same rows = Some old ->
  save_row same row rows = map (fun r => if same r then row else r) rows.
Proof.
  intros Hf. unfold save_row.
  assert (E : existsb same rows = true).
  { apply existsb_exists. exists old. apply find_some in Hf. tauto. }
  now rewrite E.
Qed.

(** A submit either fails and leaves the store as it is, or appends the new
    submission, which it does only for a valid request whose project name no
    project and no submission carries. *)
Lemma submit_effect req timestamp draw now w r w' :
  SubmitProject req timestamp draw now w = (r, w') ->
  (db w' = db w /\ exists e, r = inl e)
  \/ exists resp payload,
       r = inr resp
       /\ SubmissionID resp = Utils.GenerateSubmissionID timestamp draw
       /\ validateSubmissionRequest req = None
       /\ has_project_named (db w) (ProjectName req) = false
       /\ has_submission_named (db w) (ProjectName req) = false
       /\ submission_of (db w) (Utils.GenerateSubmissionID timestamp draw) = None
       /\ Marshal (TeamMembers req) = inr payload
       /\ projects (db w') = projects (db w)
       /\ team_members (db w') = team_members (db w)
       /\ submissions (db w')
          = submissions (db w)
            ++ [Submission.mk (Utils.GenerateSubmissionID timestamp draw)
                  (ProjectName req) (Description req) (PhotoLink req)
                  (Event req) (Categories req) payload (GithubLink req)
                  (WebsiteLink req) (PlayLink req) (HowToPlay req)
                  (AdditionalNotes req) "pending" None None [] now
                  None None None None].
Proof.
  unfold SubmitProject. intros E.
  destruct (validateSubmissionRequest req) eqn:V;
    [injection E as <- <-; left; eauto|].
  destruct (GetProjectByName (ProjectName req) w) as [r1 w1] eqn:S1.
  apply GetProjectByName_inv in S1 as [Hd1 Hr1].
  destruct r1 as [e1|p]; [|injection E as <- <-; left; eauto].
  destruct (negb (error_eqb e1 ErrRecordNotFound)) eqn:N1;
    [injection E as <- <-; left; eauto|].
  apply not_found_only in N1. subst e1.
  destruct Hr1 as [Hr1|Hr1]; [discriminate|].
  destruct (find _ (projects (db w))) eqn:Fp; [discriminate|]. clear Hr1.
  apply find_none_existsb in Fp.
  destruct (GetSubmissionByProjectName (ProjectName req) w1) as [r2 w2] eqn:S2.
  apply GetSubmissionByProjectName_inv in S2 as [Hd2 Hr2].
  rewrite Hd1 in Hr2. rewrite Hd1 in Hd2.
  destruct r2 as [e2|s]; [|injection E as <- <-; left; eauto].
  destruct (negb (error_eqb e2 ErrRecordNotFound)) eqn:N2;
    [injection E as <- <-; left; eauto|].
  apply not_found_only in N2. subst e2.
  destruct Hr2 as [Hr2|Hr2]; [discriminate|].
  destruct (find _ (submissions (db w))) eqn:Fs; [discriminate|]. clear Hr2.
  apply find_none_existsb in Fs.
  run_bind E as payload w3 Hm E1.
  { apply lift_inv in Hm as [_ ->]. left. eauto. }
  apply lift_inv in Hm as [Hm ->].
  run_bind E1 as u w4 Hc E2.
  { left. split; [|eauto].
    apply stmt_inv in Hc as [[_ Hc]|Hc]; [congruence|].
    destruct (existsb _ (submissions (db w2))) eqn:Ex;
      apply pair_equal_spec in Hc as [Hr Hc]; [|discriminate].
    congruence. }
  injection E2 as <- <-.
  apply stmt_inv in Hc as [[? _]|Hc]; [discriminate|].
  destruct (existsb _ (submissions (db w2))) eqn:Ex;
    apply pair_equal_spec in Hc as [Hr Hc]; [discriminate|].
  right. eexists. exists payload. split; [reflexivity|].
  split; [reflexivity|]. split; [reflexivity|].
  split; [exact Fp|]. split; [exact Fs|].
  split.
  { unfold submission_of. rewrite Hd2 in Ex. simpl in Ex.
    destruct (find _ (submissions (db w))) eqn:Q; [|reflexivity].
    apply find_some in Q as [Q1 Q2].
    assert (existsb (fun s => String.eqb (Submission.ID s)
                       (Utils.GenerateSubmissionID timestamp draw))
              (submissions (db w)) = true); [|congruence].
    apply existsb_exists. eauto. }
  split; [now symmetry|].
  rewrite <- Hc, Hd2. split; [reflexivity|]. split; reflexivity.
Qed.

Lemma CreateProject_error p w e w' :
  CreateProject p w = (inl e, w') -> db w' = db w.
Proof.
  intros E. apply stmt_inv in E as [[_ E]|E]; [exact E|].
  repeat match type of E with
         | (if ?c then _ else _) = _ => destruct c
         end; apply pair_equal_spec in E as [Hr Hd]; congruence.
Qed.

Lemma CreateProject_fresh p w c w' :
  CreateProject p w = (inr c, w') ->
  has_project_named (db w) (Project.Name p) = false
  /\ existsb (fun q => same_submission q p) (projects (db w)) = false.
Proof.
  intros E. apply stmt_inv in E as [[? _]|E]; [discriminate|].
  unfold has_project_named.
  destruct (existsb (fun q => String.eqb (Project.Name q) (Project.Name p))
              (projects (db w))); [discriminate|].
  destruct (existsb (fun q => same_submission q p) (projects (db w)));
    [discriminate|]. auto.
Qed.

Lemma news_project pid : forall news inputs,
  map (fun m => TeamMember.with_ID m 0) news = map (member_of_input pid) inputs ->
  Forall (fun m => TeamMember.ProjectID m = pid) news.
Proof.
  induction news as [|m news IH]; intros [|i inputs] E; try discriminate;
    constructor.
  - cbn [map] in E.
    assert (Hm : TeamMember.with_ID m 0 = member_of_input pid i) by congruence.
    apply (f_equal TeamMember.ProjectID) in Hm. exact Hm.
  - cbn [map] in E. apply (IH inputs). congruence.
Qed.

Lemma save_members_error ms : forall w e w',
  save_members ms w = (inl e, w') -> e = ErrBadConn.
Proof.
  induction ms as [|m ms IH]; intros w e w' E; cbn [save_members] in E;
    [discriminate|].
  run_bind E as u w1 Hsave Hrest.
  - injection Hrest as <-.
    apply stmt_inv in Hsave as [[Hr _]|Hsave]; [congruence|].
    destruct (Nat.eqb (TeamMember.ID m) 0);
      apply pair_equal_spec in Hsave as [? _]; discriminate.
  - exact (IH _ _ _ Hrest).
Qed.

(** [UpdateProject] fails only when the store fails. *)
Lemma UpdateProject_error p w e w' :
  UpdateProject p w = (inl e, w') -> e = ErrBadConn.
Proof.
  unfold UpdateProject, Transaction. intros E.
  destruct (bind _ _ w) as [[e0|a] w1] eqn:B.
  - injection E as <- _.
    run_bind B as u w2 Hsave Hrest.
    + injection Hrest as <-.
      apply stmt_inv in Hsave as [[Hr _]|Hsave]; [congruence|].
      apply pair_equal_spec in Hsave as [? _]. discriminate.
    + exact (save_members_error _ _ _ _ Hrest).
  - destruct (faults w1) as [|[|] fs]; [discriminate| |discriminate].
    now injection E as <- _.
Qed.

(** A promotion either writes nothing, or appends the project of the
    submission under a fresh key, and then at most the members of its team;
    once the project is appended, it can only fail on a failure of the
    store. *)
Lemma promotion_effect sub w r w' :
  createProjectFromSubmission sub w = (r, w') ->
  (db w' = db w /\ exists e, r = inl e)
  \/ (let pid := next_id Project.ID (projects (db w)) in
      submissions (db w') = submissions (db w)
      /\ projects (db w')
         = projects (db w) ++ [Project.with_ID (project_of_submission sub) pid]
      /\ has_project_named (db w) (Submission.ProjectName sub) = false
      /\ existsb (fun q => same_submission q (project_of_submission sub))
           (projects (db w)) = false
      /\ (exists news,
            team_members (db w') = team_members (db w) ++ news
            /\ Forall (fun m => TeamMember.ProjectID m = pid) news)
      /\ (r = inl ErrBadConn
          \/ r = inr (Submission.with_ApprovedProjectID sub (Some pid)))).
Proof.
  intros E0. pose proof E0 as E. unfold createProjectFromSubmission in E.
  run_bind E as inputs w1 Hparse E1.
  { apply lift_inv in Hparse as [_ ->]. left. eauto. }
  apply lift_inv in Hparse as [Hparse ->].
  run_bind E1 as created w2 Hcreate E2.
  { apply CreateProject_error in Hcreate. left. eauto. }
  pose proof (CreateProject_fresh _ _ _ _ Hcreate) as [Hname Hsame].
  apply CreateProject_inv in Hcreate as (Hs1 & Ht1 & Hp1).
  destruct (Hp1 eq_refl) as [-> Hp1']. clear Hp1.
  change (Project.with_TeamMembers
            (Project.with_ID (project_of_submission sub)
               (next_id Project.ID (projects (db w)))) [])
    with (Project.with_ID (project_of_submission sub)
            (next_id Project.ID (projects (db w)))) in Hp1'.
  right. cbv zeta.
  destruct r as [e|s'].
  - run_bind E2 as u w3 Hupd E3; [|discriminate].
    destruct (0 <? length _)%nat; [|discriminate].
    injection E3 as ->.
    pose proof (UpdateProject_error _ _ _ _ Hupd) as ->.
    apply Transaction_inl in Hupd.
    rewrite Hupd. repeat split; auto.
    exists []. rewrite app_nil_r. split; [exact Ht1|constructor].
  - apply createProject_inv in E0 as (Hs & -> & inputs' & news & _ & Hp & Ht & Hn).
    repeat split; auto.
    exists news. split; [exact Ht|]. exact (news_project _ _ _ Hn).
Qed.

(** What a review call does to the store. *)
Lemma review_effect id status fb cr rv now w r w' :
  UpdateSubmissionStatus id status fb cr rv now w = (r, w') ->
  (db w' = db w /\ exists e, r = inl e)
  \/ exists sub,
       submission_of (db w) id = Some sub
       /\ let base := Submission.with_review sub status fb cr rv in
          let stored final :=
            map (fun x => if String.eqb (Submission.ID x) id then final else x)
                (submissions (db w)) in
          (first_approval base (Submission.Status sub) status = false
           /\ r = inr tt
           /\ projects (db w') = projects (db w)
           /\ team_members (db w') = team_members (db w)
           /\ submissions (db w')
              = stored (if String.eqb status "under_review"
                        then match Submission.ReviewStartedAt base with
                             | None => Submission.with_ReviewStartedAt base (Some now)
                             | Some _ => base
                             end
                        else if is_decision status
                        then Submission.with_ReviewedAt base (Some now)
                        else base))
          \/ (first_approval base (Submission.Status sub) status = true
              /\ let pid := next_id Project.ID (projects (db w)) in
                 let reviewed := Submission.with_ReviewedAt base (Some now) in
                 projects (db w')
                 = projects (db w)
                   ++ [Project.with_ID (project_of_submission reviewed) pid]
                 /\ has_project_named (db w) (Submission.ProjectName sub) = false
                 /\ existsb (fun q => same_submission q (project_of_submission reviewed))
                      (projects (db w)) = false
                 /\ (exists news,
                       team_members (db w') = team_members (db w) ++ news
                       /\ Forall (fun m => TeamMember.ProjectID m = pid) news)
                 /\ ((submissions (db w') = submissions (db w)
                      /\ r = inl ErrBadConn)
                     \/ (r = inr tt
                         /\ submissions (db w')
                            = stored (Submission.with_PublishedAt
                                        (Submission.with_ApprovedProjectID
                                           reviewed (Some pid))
                                        (Some now))))).
Proof.
  intros E. unfold UpdateSubmissionStatus in E.
  run_bind E as sub w1 Hget E1.
  { apply GetSubmissionByID_inv in Hget as [Hd _]. left. eauto. }
  apply GetSubmissionByID_inv in Hget as [Hd1 [?|Hr]]; [discriminate|].
  destruct (submission_of (db w) id) as [sub'|] eqn:Hsub; [|discriminate].
  injection Hr as <-.
  assert (Hsid : Submission.ID sub = id).
  { unfold submission_of in Hsub. apply find_some in Hsub as [_ Q].
    now apply String.eqb_eq in Q. }
  pose proof (save_row_found (fun x => String.eqb (Submission.ID x) id)) as Hrow.
  unfold submission_of in Hsub.
  assert (Hsave : forall final w2,
            Submission.ID final = id ->
            submissions (db w2) = submissions (db w) ->
            UpdateSubmission final w2 = (r, w') ->
            projects (db w') = projects (db w2)
            /\ team_members (db w') = team_members (db w2)
            /\ ((r = inl ErrBadConn /\ submissions (db w') = submissions (db w))
                \/ (r = inr tt
                    /\ submissions (db w')
                       = map (fun x => if String.eqb (Submission.ID x) id
                                       then final else x)
                             (submissions (db w))))).
  { intros final w2 Hid Hs2 Hu.
    apply stmt_inv in Hu as [[-> Hd]|Hu].
    - rewrite Hd. split; [reflexivity|]. split; [reflexivity|]. left.
      split; [reflexivity|exact Hs2].
    - apply pair_equal_spec in Hu as [<- <-].
      cbn [projects team_members submissions with_submissions].
      split; [reflexivity|]. split; [reflexivity|]. right.
      split; [reflexivity|]. rewrite Hid, Hs2. now apply (Hrow _ _ sub). }
  run_bind E1 as final w2 Hsw E2.
  - (* the switch failed: a promotion that did not go through *)
    subst r. apply status_switch_inv in Hsw as (Hs2 & Hno & Hyes).
    destruct (first_approval (Submission.with_review sub status fb cr rv)
                (Submission.Status sub) status) eqn:G.
    2:{ destruct (Hno eq_refl) as [_ ?]. discriminate. }
    destruct (Hyes eq_refl) as (r0 & Hc & Hr2). clear Hno Hyes.
    apply promotion_effect in Hc as [[Hd2 [e0 ->]]|Hc].
    { left. split; [congruence|eauto]. }
    cbv zeta in Hc. rewrite Hd1 in Hc.
    destruct Hc as (_ & Hp & Hname & Hsame & Hteam & Hr0).
    destruct Hr0 as [->| ->]; [|discriminate].
    injection Hr2 as ->.
    right. exists sub. split; [reflexivity|]. cbv zeta. right.
    split; [exact G|].
    split; [exact Hp|]. split; [exact Hname|]. split; [exact Hsame|].
    split; [exact Hteam|].
    left. split; [congruence|reflexivity].
  - apply status_switch_inv in Hsw as (Hs2 & Hno & Hyes).
    destruct (first_approval (Submission.with_review sub status fb cr rv)
                (Submission.Status sub) status) eqn:G.
    + destruct (Hyes eq_refl) as (r0 & Hc & Hr2). clear Hno Hyes.
      apply promotion_effect in Hc as [[_ [e0 ->]]|Hc]; [discriminate|].
      cbv zeta in Hc. rewrite Hd1 in Hc.
      destruct Hc as (_ & Hp & Hname & Hsame & Hteam & Hr0).
      destruct Hr0 as [->| ->]; [discriminate|].
      injection Hr2 as ->.
      match type of E2 with
      | UpdateSubmission ?f _ = _ =>
          destruct (Hsave f w2 Hsid (eq_trans Hs2 (f_equal submissions Hd1)) E2)
            as (Hp' & Ht' & Hs')
      end.
      right. exists sub. split; [reflexivity|]. cbv zeta. right.
      split; [exact G|]. rewrite Hp', Ht'.
      split; [exact Hp|]. split; [exact Hname|]. split; [exact Hsame|].
      split; [exact Hteam|].
      destruct Hs' as [[-> Hs']|[-> Hs']]; [left|right]; auto.
    + destruct (Hno eq_refl) as [Hd2 Hr2]. clear Hno Hyes.
      injection Hr2 as ->.
      assert (Hfid : Submission.ID
                (if String.eqb status "under_review"
                 then match Submission.ReviewStartedAt
                              (Submission.with_review sub status fb cr rv) with
                      | None => Submission.with_ReviewStartedAt
                                  (Submission.with_review sub status fb cr rv)
                                  (Some now)
                      | Some _ => Submission.with_review sub status fb cr rv
                      end
                 else if is_decision status
                 then Submission.with_ReviewedAt
                        (Submission.with_review sub status fb cr rv) (Some now)
                 else Submission.with_review sub status fb cr rv) = id).
      { destruct (String.eqb status "under_review");
          [destruct (Submission.ReviewStartedAt _)|destruct (is_decision status)];
          exact Hsid. }
      destruct (Hsave _ w2 Hfid (eq_trans Hs2 (f_equal submissions Hd1)) E2)
        as (Hp' & Ht' & Hs').
      destruct Hs' as [[-> Hs']|[-> Hs']].
      * left. split; [apply db_ext; congruence|eauto].
      * right. exists sub. split; [reflexivity|]. cbv zeta. left.
        split; [exact G|]. split; [reflexivity|].
        split; [congruence|]. split; [congruence|]. exact Hs'.
Qed.

(** What a call of [UpdateProjectExtras] does to the store. *)
Lemma extras_effect id award photos w r w' :
  UpdateProjectExtras id award photos w = (r, w') ->
  (db w' = db w /\ exists e, r = inl e)
  \/ exists sub pid p,
       submission_of (db w) id = Some sub
       /\ Submission.ApprovedProjectID sub = Some pid
       /\ project_of (db w) pid = Some p
       /\ r = inr tt
       /\ submissions (db w') = submissions (db w)
       /\ projects (db w')
          = map (fun q => if Nat.eqb (Project.ID q) pid
                          then Project.with_TeamMembers
                                 match award with
                                 | Some a => Project.with_Award p a
                                 | None => p
                                 end []
                          else q)
                (projects (db w))
       /\ (team_keys_ok (db w) ->
           team_members (db w')
           = map (fun m => if decide (TeamMember.ProjectID m = pid)
                           then with_photo (build_photoMap photos ∅) m
                           else m)
                 (team_members (db w))).
Proof.
  intros E0. pose proof E0 as E. unfold UpdateProjectExtras in E.
  run_bind E as s0 w1 Hget E1.
  { apply GetSubmissionByID_inv in Hget as [Hd _]. left. eauto. }
  apply GetSubmissionByID_inv in Hget as [Hd [?|Hr]]; [discriminate|].
  destruct (submission_of (db w) id) as [sub|] eqn:Hsub; [|discriminate].
  injection Hr as ->.
  pose proof (extras_inv _ _ _ _ _ _ _ Hsub E0) as Hinv.
  destruct (Submission.ApprovedProjectID sub) as [pid|] eqn:Hlink.
  2:{ injection E1 as <- <-. left. eauto. }
  destruct Hinv as [Herr Hok].
  destruct r as [e|[]]; [left; eauto|].
  destruct (Hok eq_refl) as [Hs Ht]. clear Herr Hok.
  run_bind E1 as p w2 Hproj E2; [discriminate|].
  apply or_else_inv in Hproj as [(a & Hproj & Ha)|(e0 & _ & ?)]; [|discriminate].
  injection Ha as <-.
  apply stmt_inv in Hproj as [[? _]|Hproj]; [discriminate|].
  rewrite Hd in Hproj.
  destruct (find (fun q => Nat.eqb (Project.ID q) pid) (projects (db w)))
    as [p0|] eqn:Hp0; [|discriminate].
  apply pair_equal_spec in Hproj as [Hp Hd2]. injection Hp as <-.
  right. exists sub, pid, p0. repeat split; auto.
  apply Transaction_inr in E2 as (w3 & Hbody & Hd3).
  run_bind Hbody as u w4 Hsave Hmembers; [discriminate|].
  apply save_members_frame in Hmembers as [_ Hp4].
  apply stmt_inv in Hsave as [[? _]|Hsave]; [discriminate|].
  apply pair_equal_spec in Hsave as [_ Hd4].
  rewrite Hd3, Hp4, <- Hd4. cbn [projects with_projects].
  rewrite <- Hd2.
  assert (Hid : Project.ID p0 = pid).
  { apply find_some in Hp0 as [_ Q]. now apply Nat.eqb_eq in Q. }
  destruct award as [a|]; destruct (0 <? length photos)%nat;
    cbn [Project.ID Project.with_TeamMembers Project.with_Award];
    rewrite Hid; erewrite save_row_found by exact Hp0; reflexivity.
Qed.

End Effects.

(** ** Likes *)
Section Likes.
Import Store Repository Schema.

Lemma find_map_keyed {A} (key : A -> nat) (g : A -> A) k rows :
  (forall r, key (g r) = key r) ->
  find (fun r => Nat.eqb (key r) k) (map g rows)
  = option_map g (find (fun r => Nat.eqb (key r) k) rows).
Proof.
  intros Hk. induction rows as [|r rows IH]; [reflexivity|].
  cbn [map find]. rewrite Hk. now destruct (Nat.eqb (key r) k).
Qed.

(** What a like does to the store. *)
Lemma like_effect id w r w' :
  ProjectService.LikeProject id w = (r, w') ->
  (db w' = db w /\ exists e, r = inl e)
  \/ exists p,
       project_of (db w) id = Some p
       /\ Project.Likes p < max_int64
       /\ r = inr tt
       /\ submissions (db w') = submissions (db w)
       /\ team_members (db w') = team_members (db w)
       /\ projects (db w')
          = map (fun q => if Nat.eqb (Project.ID q) id
                          then Project.with_Likes q (Project.Likes q + 1)
                          else q)
                (projects (db w)).
Proof.
  unfold ProjectService.LikeProject. intros E.
  run_bind E as p w1 Hget E1.
  { apply GetProjectByID_inv in Hget as [Hd _]. left. eauto. }
  apply stmt_inv in Hget as [[? _]|Hget]; [discriminate|].
  destruct (find (fun q => Nat.eqb (Project.ID q) id) (projects (db w)))
    as [p0|] eqn:Hp0; [|discriminate].
  apply pair_equal_spec in Hget as [_ Hd].
  apply stmt_inv in E1 as [[-> Hd1]|E1]; [left; split; [congruence|eauto]|].
  rewrite <- Hd in E1.
  destruct (existsb _ (projects (db w))) eqn:Ex;
    apply pair_equal_spec in E1 as [<- <-]; [left; eauto|].
  right. exists p0. split; [exact Hp0|]. split; [|repeat split].
  apply find_some in Hp0 as [Hin Hid].
  destruct (max_int64 <=? Project.Likes p0) eqn:Hm; [|now apply Z.leb_gt in Hm].
  assert (existsb (fun q => Nat.eqb (Project.ID q) id
                            && (max_int64 <=? Project.Likes q))
            (projects (db w)) = true); [|congruence].
  apply existsb_exists. exists p0. now rewrite Hid, Hm.
Qed.

Lemma like_error_store id w e w' :
  ProjectService.LikeProject id w = (inl e, w') -> db w' = db w.
Proof.
  intros E. apply like_effect in E as [[Hd _]|(p & _ & _ & ? & _)];
    [exact Hd|discriminate].
Qed.

Lemma bump_key id (q : Project.t) :
  Project.ID (if Nat.eqb (Project.ID q) id
              then Project.with_Likes q (Project.Likes q + 1)
              else q) = Project.ID q.
Proof. now destruct (Nat.eqb (Project.ID q) id). Qed.

Lemma like_counted id w w' :
  ProjectService.LikeProject id w = (inr tt, w') ->
  exists p,
    project_of (db w) id = Some p
    /\ project_of (db w') id = Some (Project.with_Likes p (Project.Likes p + 1)).
Proof.
  intros E.
  apply like_effect in E as [[_ [e ?]]|(p & Hp & _ & _ & _ & _ & Hps)];
    [discriminate|].
  exists p. split; [exact Hp|].
  unfold project_of in *. rewrite Hps.
  rewrite (find_map_keyed Project.ID _ id _ (bump_key id)), Hp. cbn [option_map].
  apply find_some in Hp as [_ Hid]. now rewrite Hid.
Qed.

(** X8. A like that succeeds raises the counter of that project by one, keeps
    the counter of every other project and every other table as it was, and
    adds or removes no project; it only succeeds on a stored project whose
    counter is below the top of the column. *)
Theorem LikeProject_counts (id : nat) (w w' : World)
    (Hok : ProjectService.LikeProject id w = (inr tt, w')) :
  exists p,
    project_of (db w) id = Some p
    /\ Project.Likes p < max_int64
    /\ project_of (db w') id = Some (Project.with_Likes p (Project.Likes p + 1))
    /\ (forall other, other <> id ->
          project_of (db w') other = project_of (db w) other)
    /\ map Project.ID (projects (db w')) = map Project.ID (projects (db w))
    /\ submissions (db w') = submissions (db w)
    /\ team_members (db w') = team_members (db w).
Proof.
  apply like_effect in Hok as [[_ [e ?]]|(p & Hp & Hlt & _ & Hs & Ht & Hps)];
    [discriminate|].
  exists p. split; [exact Hp|]. split; [exact Hlt|].
  assert (Hkey : forall q : Project.t,
            Project.ID (if Nat.eqb (Project.ID q) id
                        then Project.with_Likes q (Project.Likes q + 1)
                        else q) = Project.ID q).
  { intros q. now destruct (Nat.eqb (Project.ID q) id). }
  unfold project_of in *. rewrite Hps.
  split; [|split; [|split; [|split; [exact Hs|exact Ht]]]].
  - rewrite (find_map_keyed Project.ID _ id _ Hkey), Hp. cbn [option_map].
    apply find_some in Hp as [_ Hid]. now rewrite Hid.
  - intros other Hne. rewrite (find_map_keyed Project.ID _ other _ Hkey).
    destruct (find (fun r => Nat.eqb (Project.ID r) other) (projects (db w)))
      as [q|] eqn:Hq; [|reflexivity].
    cbn [option_map]. apply find_some in Hq as [_ Hid].
    apply Nat.eqb_eq in Hid. rewrite Hid.
    now rewrite (proj2 (Nat.eqb_neq other id) Hne).
  - rewrite map_map. apply map_ext. exact Hkey.
Qed.

(** X9. A like that fails leaves the store as it was; a like of a key no
    project has always fails, with the not-found error unless the store
    itself failed on the lookup. *)
Theorem LikeProject_refused (id : nat) (w w' : World) (r : error + unit)
    (Hrun : ProjectService.LikeProject id w = (r, w')) :
  (forall e, r = inl e -> db w' = db w)
  /\ (project_of (db w) id = None ->
      db w' = db w
      /\ (r = inl ErrRecordNotFound \/ r = inl ErrBadConn)
      /\ (head (faults w) <> Some true -> r = inl ErrRecordNotFound)).
Proof.
  split.
  - intros e ->.
    apply like_effect in Hrun as [[Hd _]|(p & _ & _ & ? & _)];
      [exact Hd|discriminate].
  - intros Hnone. unfold ProjectService.LikeProject in Hrun.
    unfold project_of in Hnone.
    run_bind Hrun as p w1 Hget E1.
    + pose proof Hget as Hget'.
      apply stmt_inv in Hget as [[Hr Hd]|Hget].
      * injection Hr as ->. subst r. split; [exact Hd|]. split; [now right|].
        intros Hh. unfold GetProjectByID in Hget'.
        rewrite (stmt_runs _ _ Hh), Hnone in Hget'. discriminate.
      * rewrite Hnone in Hget. apply pair_equal_spec in Hget as [Hr Hd].
        injection Hr as <-. subst r. auto.
    + apply stmt_inv in Hget as [[? _]|Hget]; [discriminate|].
      rewrite Hnone in Hget. discriminate.
Qed.

(** X10. The like endpoint: an identifier that is not a 32-bit decimal number is
    answered 400 and every failure of the service 404, the store untouched
    in both cases; a 200 means the like was counted, and a count in its body
    is the new count. *)
Theorem LikeProject_answers (idStr : string) (w : World) :
  match Handlers.LikeProject idStr w with
  | (Handlers.Refused status code, w') =>
      db w' = db w
      /\ ((status = 400%nat /\ code = "INVALID_PROJECT_ID"
           /\ Utils.ParseUint32 idStr = None)
          \/ (status = 404%nat /\ code = "PROJECT_NOT_FOUND"
              /\ Utils.ParseUint32 idStr <> None))
  | (Handlers.Sent status body, w') =>
      status = 200%nat
      /\ exists id p,
           Utils.ParseUint32 idStr = Some id
           /\ project_of (db w) id = Some p
           /\ project_of (db w') id
              = Some (Project.with_Likes p (Project.Likes p + 1))
           /\ forall likes, body = Some likes -> likes = Project.Likes p + 1
  end.
Proof.
  unfold Handlers.LikeProject.
  destruct (Utils.ParseUint32 idStr) as [id|]; [|split; auto].
  destruct (ProjectService.LikeProject id w) as [[e|[]] w1] eqn:E.
  - apply like_error_store in E. split; [exact E|]. right.
    repeat split. discriminate.
  - destruct (like_counted _ _ _ E) as (p & Hp & Hp').
    unfold ProjectService.GetProject.
    destruct (GetProjectByID id w1) as [[e|q] w2] eqn:G;
      (split; [reflexivity|]); exists id, p;
      (split; [reflexivity|]); (split; [exact Hp|]);
      apply stmt_inv in G as [[Hr Hd]|G]; try discriminate.
    + rewrite Hd. split; [exact Hp'|]. discriminate.
    + unfold project_of in Hp'. rewrite Hp' in G.
      apply pair_equal_spec in G as [Hr Hd]. discriminate.
    + unfold project_of in Hp'. pose proof Hp' as Hp''. rewrite Hp' in G.
      apply pair_equal_spec in G as [Hr Hd]. injection Hr as <-.
      rewrite <- Hd. split; [exact Hp''|].
      intros likes Hl. injection Hl as <-. reflexivity.
Qed.

End Likes.

(** ** The statistics of the submissions *)
Section Stats.
Import Store Repository Schema.

Lemma stats_loop_inv statuses : forall stats w r w',
  stats_loop statuses stats w = (r, w') ->
  db w' = db w
  /\ (r = inl ErrBadConn
      \/ r = inr (foldl (fun m status =>
                           <[status := Z.of_nat
                               (length (List.filter
                                  (fun s => String.eqb (Submission.Status s) status)
                                  (submissions (db w))))]> m)
                        stats statuses)).
Proof.
  induction statuses as [|status rest IH]; intros stats w r w' E.
  - injection E as <- <-. auto.
  - cbn [stats_loop] in E. run_bind E as count w1 Hc E1.
    + apply stmt_inv in Hc as [[Hr Hd]|Hc].
      * injection Hr as ->. subst r. auto.
      * apply pair_equal_spec in Hc as [? _]. discriminate.
    + apply stmt_inv in Hc as [[? _]|Hc]; [discriminate|].
      apply pair_equal_spec in Hc as [Hr Hd]. injection Hr as <-.
      apply IH in E1 as [Hd1 Hr1]. rewrite <- Hd in Hd1, Hr1.
      split; [exact Hd1|]. exact Hr1.
Qed.

Lemma stats_loop_calm statuses : forall stats d,
  exists stats', stats_loop statuses stats (mkWorld [] d) = (inr stats', mkWorld [] d).
Proof.
  induction statuses as [|status rest IH]; intros stats d.
  - now exists stats.
  - cbn [stats_loop]. unfold bind, count_status. rewrite stmt_calm. apply IH.
Qed.

(** Rows whose status is one of the five fall into exactly one count. *)
Lemma status_partition (rows : list Submission.t) :
  Forall (fun s => In (Submission.Status s) Utils.allowedStatuses) rows ->
  Z.of_nat (length rows)
  = Z.of_nat (length (List.filter (fun s => String.eqb (Submission.Status s) "pending") rows))
    + Z.of_nat (length (List.filter (fun s => String.eqb (Submission.Status s) "under_review") rows))
    + Z.of_nat (length (List.filter (fun s => String.eqb (Submission.Status s) "approved") rows))
    + Z.of_nat (length (List.filter (fun s => String.eqb (Submission.Status s) "rejected") rows))
    + Z.of_nat (length (List.filter (fun s => String.eqb (Submission.Status s) "requires_changes") rows)).
Proof.
  induction 1 as [|s rows Hs _ IH]; [reflexivity|].
  cbn [List.filter].
  destruct Hs as [Hs|[Hs|[Hs|[Hs|[Hs|[]]]]]]; rewrite <- Hs;
    cbn [String.eqb Ascii.eqb Bool.eqb andb]; cbn [length]; lia.
Qed.

(** X11. [GetSubmissionStats] never writes; it fails only when the store fails,
    and then returns no count at all; otherwise its map has exactly the five
    statuses as keys, each with the number of submissions in that status.
    When every stored status is one of the five, the five counts add up to
    the number [GetSubmissionsCount] gives without a filter. *)
Theorem GetSubmissionStats_histogram (w w' : World) (r : error + gmap string Z)
    (Hrun : GetSubmissionStats w = (r, w')) :
  let count status :=
    Z.of_nat (length (List.filter
                        (fun s => String.eqb (Submission.Status s) status)
                        (submissions (db w)))) in
  db w' = db w
  /\ (faults w = [] -> exists stats, r = inr stats)
  /\ (r = inl ErrBadConn
      \/ exists stats,
           r = inr stats
           /\ (forall status,
                 stats !! status
                 = if Utils.ValidateStatus status then Some (count status) else None)
           /\ (statuses_ok (db w) ->
               (GetSubmissionsCount "" (mkWorld [] (db w))).1
               = inr (count "pending" + count "under_review" + count "approved"
                      + count "rejected" + count "requires_changes"))).
Proof.
  intros count. unfold GetSubmissionStats in Hrun.
  pose proof (stats_loop_inv _ _ _ _ _ Hrun) as [Hd Hr].
  split; [exact Hd|]. split.
  { intros Hf.
    destruct (stats_loop_calm
                ["pending"; "under_review"; "approved"; "rejected"; "requires_changes"]
                ∅ (db w)) as [stats' Hc].
    destruct w as [fs d]. cbn in Hf. subst fs. cbn [db] in Hc.
    rewrite Hc in Hrun. injection Hrun as <- _. eauto. }
  destruct Hr as [Hr|Hr]; [now left|]. right.
  eexists. split; [exact Hr|]. split.
  - intros status. cbn [foldl]. fold count.
    unfold Utils.ValidateStatus, Utils.allowedStatuses. cbn [Utils.Contains].
    destruct (String.eqb_spec "requires_changes" status) as [<-|N5].
    { now rewrite lookup_insert_eq. }
    rewrite lookup_insert_ne by exact N5.
    destruct (String.eqb_spec "rejected" status) as [<-|N4].
    { now rewrite lookup_insert_eq. }
    rewrite lookup_insert_ne by exact N4.
    destruct (String.eqb_spec "approved" status) as [<-|N3].
    { now rewrite lookup_insert_eq. }
    rewrite lookup_insert_ne by exact N3.
    destruct (String.eqb_spec "under_review" status) as [<-|N2].
    { now rewrite lookup_insert_eq. }
    rewrite lookup_insert_ne by exact N2.
    destruct (String.eqb_spec "pending" status) as [<-|N1].
    { now rewrite lookup_insert_eq. }
    rewrite lookup_insert_ne by exact N1.
    apply lookup_empty.
  - intros Hok. unfold GetSubmissionsCount. rewrite stmt_calm.
    cbn [fst with_status String.eqb]. f_equal.
    apply status_partition. exact Hok.
Qed.

End Stats.

(** ** The links between submissions, projects and team members *)
Section Consistency.
Context `{JSON}.
Import Store Repository Schema Services.

Lemma key_unique {A B} (key : A -> B) (tbl : list A) x y :
  NoDup (map key tbl) -> In x tbl -> In y tbl -> key x = key y -> x = y.
Proof.
  induction tbl as [|z tbl IH]; simpl; [tauto|].
  intros Hnd Hx Hy Hk. apply NoDup_cons in Hnd as [Hz Hnd].
  assert (Hin : forall u, In u tbl -> key u <> key z).
  { intros u Hu E. apply Hz. rewrite <- E. apply list_elem_of_In, in_map, Hu. }
  destruct Hx as [->|Hx], Hy as [->|Hy]; auto.
  - exfalso. now apply (Hin y Hy).
  - exfalso. now apply (Hin x Hx).
Qed.

Lemma NoDup_snoc {B} (l : list B) x : NoDup l -> ~ In x l -> NoDup (l ++ [x]).
Proof.
  intros Hnd Hx. apply NoDup_app. split; [exact Hnd|]. split.
  - intros k Hk Hk'. apply list_elem_of_In in Hk.
    apply list_elem_of_In in Hk'. simpl in Hk'. destruct Hk' as [<-|[]].
    contradiction.
  - apply NoDup_singleton.
Qed.

Lemma existsb_none {A} (f : A -> bool) l x :
  existsb f l = false -> In x l -> f x = false.
Proof.
  intros E Hin. destruct (f x) eqn:Fx; [|reflexivity].
  assert (existsb f l = true) by (apply existsb_exists; eauto). congruence.
Qed.

Lemma find_unique {A B} (key : A -> B) (same : A -> bool) (tbl : list A) x :
  NoDup (map key tbl) -> In x tbl -> same x = true ->
  (forall y, In y tbl -> same y = true -> key y = key x) ->
  find same tbl = Some x.
Proof.
  intros Hnd Hin Hx Hall.
  destruct (find same tbl) as [y|] eqn:Hf.
  - apply find_some in Hf as [Hy Hs]. f_equal.
    apply (key_unique key tbl); auto.
  - exfalso. pose proof (find_none _ _ Hf x Hin). congruence.
Qed.

Lemma consistent_empty : consistent (mkDB [] [] []).
Proof.
  constructor; cbn.
  1-5: apply NoDup_nil; exact I.
  - intros p [].
  - intros s pid [].
  - intros s [].
  - intros s [].
  - constructor.
Qed.

(** Rows rewritten in place, their keys kept, and links added only to
    projects that are there. *)
Lemma consistent_map (h : Submission.t -> Submission.t)
    (g : Project.t -> Project.t) d d' :
  consistent d ->
  submissions d' = map h (submissions d) ->
  projects d' = map g (projects d) ->
  map TeamMember.ProjectID (team_members d')
  = map TeamMember.ProjectID (team_members d) ->
  (forall p, In p (projects d) ->
     Project.ID (g p) = Project.ID p /\ Project.Name (g p) = Project.Name p
     /\ Project.SubmissionID (g p) = Project.SubmissionID p) ->
  (forall s, In s (submissions d) ->
     h s = s
     \/ (Submission.ID (h s) = Submission.ID s
         /\ Submission.ProjectName (h s) = Submission.ProjectName s
         /\ (forall pid, Submission.ApprovedProjectID (h s) = Some pid ->
               Submission.ApprovedProjectID s = Some pid
               \/ exists p, In p (projects d) /\ Project.ID p = pid
                            /\ Project.SubmissionID p = Some (Submission.ID s))
         /\ (Submission.Status (h s) = "approved" ->
             Submission.ApprovedProjectID (h s) <> None)
         /\ (Submission.PublishedAt (h s) <> None
             <-> Submission.ApprovedProjectID (h s) <> None))) ->
  consistent d'.
Proof.
  intros C Hs Hp Ht Hg Hh.
  assert (Hkey : forall s, In s (submissions d) ->
            Submission.ID (h s) = Submission.ID s
            /\ Submission.ProjectName (h s) = Submission.ProjectName s).
  { intros s Hin. destruct (Hh s Hin) as [->|(? & ? & _)]; auto. }
  constructor.
  - rewrite Hs, map_map.
    erewrite map_ext_in; [exact (submission_ids d C)|].
    intros s Hin. now apply Hkey.
  - rewrite Hs, map_map.
    erewrite map_ext_in; [exact (submission_names d C)|].
    intros s Hin. now apply Hkey.
  - rewrite Hp, map_map.
    erewrite map_ext_in; [exact (project_ids d C)|].
    intros p Hin. now apply Hg.
  - rewrite Hp, map_map.
    erewrite map_ext_in; [exact (project_names d C)|].
    intros p Hin. now apply Hg.
  - rewrite Hp, map_map.
    erewrite map_ext_in; [exact (project_submissions d C)|].
    intros p Hin. now apply Hg.
  - intros p' Hin. rewrite Hp in Hin. apply in_map_iff in Hin as (p & <- & Hin).
    destruct (project_origin d C p Hin) as (s & Hsin & Hsid & Hname).
    destruct (Hg p Hin) as (_ & Hn & Hsub). destruct (Hkey s Hsin) as [Hi Hpn].
    exists (h s). split; [rewrite Hs; now apply in_map|].
    split; congruence.
  - intros s' pid Hin Hlink. rewrite Hs in Hin.
    apply in_map_iff in Hin as (s & <- & Hin).
    destruct (Hkey s Hin) as [Hi _].
    assert (Hold : exists p, In p (projects d) /\ Project.ID p = pid
                             /\ Project.SubmissionID p = Some (Submission.ID s)).
    { destruct (Hh s Hin) as [Heq|(_ & _ & Hl & _)].
      - rewrite Heq in Hlink. exact (link_target d C s pid Hin Hlink).
      - destruct (Hl pid Hlink) as [Hl'|Hl']; [|exact Hl'].
        exact (link_target d C s pid Hin Hl'). }
    destruct Hold as (p & Hpin & Hpid & Hpsub).
    destruct (Hg p Hpin) as (Hgi & _ & Hgs).
    exists (g p). split; [rewrite Hp; now apply in_map|].
    split; congruence.
  - intros s' Hin Hst. rewrite Hs in Hin.
    apply in_map_iff in Hin as (s & <- & Hin).
    destruct (Hh s Hin) as [Heq|(_ & _ & _ & Ha & _)]; [|now apply Ha].
    rewrite Heq in *. exact (approved_linked d C s Hin Hst).
  - intros s' Hin. rewrite Hs in Hin.
    apply in_map_iff in Hin as (s & <- & Hin).
    destruct (Hh s Hin) as [Heq|(_ & _ & _ & _ & Hpub)]; [|exact Hpub].
    rewrite Heq. exact (published_linked d C s Hin).
  - pose proof (team_refs d C) as Hrefs. unfold team_refs_ok in *.
    assert (Hids : map Project.ID (projects d') = map Project.ID (projects d)).
    { rewrite Hp, map_map. apply map_ext_in. intros p Hin. now apply Hg. }
    rewrite Hids.
    apply (proj1 (List.Forall_map TeamMember.ProjectID
                    (fun k => In k (map Project.ID (projects d))) _)).
    rewrite Ht.
    apply (proj2 (List.Forall_map TeamMember.ProjectID
                    (fun k => In k (map Project.ID (projects d))) _)).
    exact Hrefs.
Qed.

(** A project appended for a stored submission, with members of its own. *)
Lemma consistent_grow d d' sub pnew news :
  consistent d -> In sub (submissions d) ->
  submissions d' = submissions d ->
  projects d' = projects d ++ [pnew] ->
  team_members d' = team_members d ++ news ->
  Project.ID pnew = next_id Project.ID (projects d) ->
  Project.Name pnew = Submission.ProjectName sub ->
  Project.SubmissionID pnew = Some (Submission.ID sub) ->
  has_project_named d (Submission.ProjectName sub) = false ->
  existsb (fun q => same_submission q pnew) (projects d) = false ->
  Forall (fun m => TeamMember.ProjectID m = Project.ID pnew) news ->
  consistent d'.
Proof.
  intros C Hsub Hs Hp Ht Hid Hname Hsid Hfree Hsame Hnews.
  constructor.
  - rewrite Hs. exact (submission_ids d C).
  - rewrite Hs. exact (submission_names d C).
  - rewrite Hp, map_app. apply NoDup_snoc; [exact (project_ids d C)|].
    intros Hin. apply in_map_iff in Hin as (q & Hq & Hin).
    pose proof (next_id_above Project.ID _ q Hin). lia.
  - rewrite Hp, map_app. apply NoDup_snoc; [exact (project_names d C)|].
    intros Hin. apply in_map_iff in Hin as (q & Hq & Hin).
    pose proof (existsb_none _ _ q Hfree Hin) as Hf. cbn in Hf.
    apply String.eqb_neq in Hf. congruence.
  - rewrite Hp, map_app. apply NoDup_snoc; [exact (project_submissions d C)|].
    intros Hin. apply in_map_iff in Hin as (q & Hq & Hin).
    pose proof (existsb_none _ _ q Hsame Hin) as Hf.
    unfold same_submission in Hf. rewrite Hq, Hsid in Hf.
    now rewrite String.eqb_refl in Hf.
  - intros p Hin. rewrite Hp in Hin. rewrite Hs.
    apply in_app_iff in Hin as [Hin|[<-|[]]].
    + exact (project_origin d C p Hin).
    + exists sub. auto.
  - intros s pid Hin Hlink. rewrite Hs in Hin.
    destruct (link_target d C s pid Hin Hlink) as (p & Hpin & Hrest).
    exists p. split; [|exact Hrest]. rewrite Hp. apply in_app_iff. now left.
  - intros s Hin. rewrite Hs in Hin. exact (approved_linked d C s Hin).
  - intros s Hin. rewrite Hs in Hin. exact (published_linked d C s Hin).
  - pose proof (team_refs d C) as Hrefs. unfold team_refs_ok in *.
    rewrite Ht, Hp, map_app. apply Forall_app. split.
    + eapply Forall_impl; [exact Hrefs|]. cbn. intros m Hm.
      apply in_app_iff. now left.
    + eapply Forall_impl; [exact Hnews|]. cbn. intros m Hm.
      apply in_app_iff. right. left. now symmetry.
Qed.

(** A submission appended under a fresh key and a fresh name, neither
    approved nor linked. *)
Lemma consistent_submit d d' new :
  consistent d ->
  submissions d' = submissions d ++ [new] ->
  projects d' = projects d ->
  team_members d' = team_members d ->
  submission_of d (Submission.ID new) = None ->
  has_submission_named d (Submission.ProjectName new) = false ->
  Submission.Status new <> "approved" ->
  Submission.ApprovedProjectID new = None ->
  Submission.PublishedAt new = None ->
  consistent d'.
Proof.
  intros C Hs Hp Ht Hfresh Hname Hst Hlink Hpub.
  constructor.
  - rewrite Hs, map_app. apply NoDup_snoc; [exact (submission_ids d C)|].
    intros Hin. apply in_map_iff in Hin as (s & Hq & Hin).
    unfold submission_of in Hfresh.
    pose proof (find_none _ _ Hfresh s Hin) as Hf. cbn in Hf.
    apply String.eqb_neq in Hf. congruence.
  - rewrite Hs, map_app. apply NoDup_snoc; [exact (submission_names d C)|].
    intros Hin. apply in_map_iff in Hin as (s & Hq & Hin).
    pose proof (existsb_none _ _ s Hname Hin) as Hf. cbn in Hf.
    apply String.eqb_neq in Hf. congruence.
  - rewrite Hp. exact (project_ids d C).
  - rewrite Hp. exact (project_names d C).
  - rewrite Hp. exact (project_submissions d C).
  - intros p Hin. rewrite Hp in Hin.
    destruct (project_origin d C p Hin) as (s & Hsin & Hrest).
    exists s. split; [|exact Hrest]. rewrite Hs. apply in_app_iff. now left.
  - intros s pid Hin Hl. rewrite Hs in Hin. rewrite Hp.
    apply in_app_iff in Hin as [Hin|[<-|[]]]; [|congruence].
    exact (link_target d C s pid Hin Hl).
  - intros s Hin Hs'. rewrite Hs in Hin.
    apply in_app_iff in Hin as [Hin|[<-|[]]]; [|contradiction].
    exact (approved_linked d C s Hin Hs').
  - intros s Hin. rewrite Hs in Hin.
    apply in_app_iff in Hin as [Hin|[<-|[]]].
    + exact (published_linked d C s Hin).
    + rewrite Hlink, Hpub. tauto.
  - pose proof (team_refs d C) as Hrefs. unfold team_refs_ok in *.
    now rewrite Ht, Hp.
Qed.

End Consistency.

(** ** Every request keeps the links *)
Section Reachable.
Context `{JSON}.
Import Store Repository Schema Services.

Lemma step_keys d d' :
  Lifecycle.step d d' -> team_keys_ok d -> team_keys_ok d'.
Proof.
  intros [req ts draw now fs|id status fb cr rv now fs|id award photos fs|id fs] Hk.
  - destruct (SubmitProject req ts draw now (mkWorld fs d)) as [r w'] eqn:E.
    exact (submit_keys _ _ _ _ _ _ _ E Hk).
  - destruct (UpdateSubmissionStatus id status fb cr rv now (mkWorld fs d))
      as [r w'] eqn:E.
    exact (review_keys _ _ _ _ _ _ _ _ _ E Hk).
  - destruct (UpdateProjectExtras id award photos (mkWorld fs d))
      as [r w'] eqn:E.
    exact (extras_keys _ _ _ _ _ _ E Hk).
  - destruct (ProjectService.LikeProject id (mkWorld fs d)) as [r w'] eqn:E.
    exact (like_keys _ _ _ _ E Hk).
Qed.

Lemma found_submission d id sub :
  submission_of d id = Some sub ->
  In sub (submissions d) /\ Submission.ID sub = id.
Proof.
  unfold submission_of. intros Hf. apply find_some in Hf as [Hin Hid].
  now apply String.eqb_eq in Hid.
Qed.

Lemma found_project d pid p :
  project_of d pid = Some p -> In p (projects d) /\ Project.ID p = pid.
Proof.
  unfold project_of. intros Hf. apply find_some in Hf as [Hin Hid].
  now apply Nat.eqb_eq in Hid.
Qed.

(** The submission a review writes over is the one it read. *)
Lemma replaced_is_read d id sub s :
  consistent d -> submission_of d id = Some sub ->
  In s (submissions d) -> String.eqb (Submission.ID s) id = true -> s = sub.
Proof.
  intros C Hsub Hin Q. apply found_submission in Hsub as [Hsin Hsid].
  apply String.eqb_eq in Q.
  apply (key_unique Submission.ID (submissions d)); auto.
  - exact (submission_ids d C).
  - congruence.
Qed.

Lemma review_consistent id status fb cr rv now w r w' :
  UpdateSubmissionStatus id status fb cr rv now w = (r, w') ->
  consistent (db w) -> consistent (db w').
Proof.
  intros E C.
  apply review_effect in E as [[-> _]|(sub & Hsub & E)]; [exact C|].
  cbv zeta in E.
  pose proof (found_submission _ _ _ Hsub) as [Hsin Hsid].
  destruct E as [(G & _ & Hp & Ht & Hs)|(G & Hp & Hname & Hsame & Hteam & Hs)].
  - apply (consistent_map _ Datatypes.id (db w) (db w') C Hs).
    + now rewrite map_id.
    + now rewrite Ht.
    + auto.
    + intros s Hin.
      destruct (String.eqb (Submission.ID s) id) eqn:Q; [right|now left].
      rewrite (replaced_is_read _ _ _ _ C Hsub Hin Q).
      assert (Happ : status = "approved" ->
                     Submission.ApprovedProjectID sub <> None).
      { intros ->. unfold first_approval in G. cbn in G.
        destruct (String.eqb (Submission.Status sub) "approved") eqn:P.
        - apply String.eqb_eq in P. exact (approved_linked _ C sub Hsin P).
        - cbn in G. now destruct (Submission.ApprovedProjectID sub). }
      pose proof (published_linked _ C sub Hsin) as Hpub.
      destruct (String.eqb status "under_review") eqn:U;
        [destruct (Submission.ReviewStartedAt
                     (Submission.with_review sub status fb cr rv))
        |destruct (is_decision status)];
        cbn; repeat split; auto; tauto.
  - destruct Hteam as (news & Ht & Hnews).
    set (pid := next_id Project.ID (projects (db w))) in *.
    set (reviewed := Submission.with_ReviewedAt
                       (Submission.with_review sub status fb cr rv) (Some now)) in *.
    set (pnew := Project.with_ID (project_of_submission reviewed) pid) in *.
    set (d1 := mkDB (submissions (db w)) (projects (db w) ++ [pnew])
                 (team_members (db w) ++ news)).
    assert (C1 : consistent d1).
    { apply (consistent_grow (db w) d1 sub pnew news); auto. }
    destruct Hs as [[Hs _]|[_ Hs]].
    + replace (db w') with d1; [exact C1|].
      apply db_ext; cbn; congruence.
    + apply (consistent_map _ Datatypes.id d1 (db w') C1 Hs).
      * cbn. now rewrite map_id.
      * cbn. now rewrite Ht.
      * auto.
      * intros s Hin. cbn in Hin.
        destruct (String.eqb (Submission.ID s) id) eqn:Q; [right|now left].
        rewrite (replaced_is_read _ _ _ _ C Hsub Hin Q).
        cbn. repeat split; try discriminate.
        intros pid' Hl. injection Hl as <-. right.
        exists pnew. split; [apply in_app_iff; right; now left|].
        split; reflexivity.
Qed.

Lemma extras_consistent id award photos w r w' :
  UpdateProjectExtras id award photos w = (r, w') ->
  team_keys_ok (db w) -> consistent (db w) -> consistent (db w').
Proof.
  intros E Hk C.
  apply extras_effect in E
    as [[-> _]|(sub & pid & p & Hsub & Hlink & Hp & _ & Hs & Hps & Ht)];
    [exact C|].
  apply found_project in Hp as [Hpin Hpid].
  assert (Hs' : submissions (db w') = map Datatypes.id (submissions (db w)))
    by now rewrite map_id.
  apply (consistent_map _ _ (db w) (db w') C Hs' Hps).
  - rewrite (Ht Hk), map_map. apply map_ext. intros m.
    destruct (decide (TeamMember.ProjectID m = pid)); [|reflexivity].
    apply with_photo_project.
  - intros q Hin. destruct (Nat.eqb (Project.ID q) pid) eqn:Q; [|auto].
    apply Nat.eqb_eq in Q.
    assert (q = p) as ->.
    { apply (key_unique Project.ID (projects (db w))); auto.
      - exact (project_ids _ C).
      - congruence. }
    destruct award; cbn; auto.
  - intros s _. now left.
Qed.

Lemma like_consistent id w r w' :
  ProjectService.LikeProject id w = (r, w') ->
  consistent (db w) -> consistent (db w').
Proof.
  intros E C.
  apply like_effect in E as [[-> _]|(p & _ & _ & _ & Hs & Ht & Hps)];
    [exact C|].
  assert (Hs' : submissions (db w') = map Datatypes.id (submissions (db w)))
    by now rewrite map_id.
  apply (consistent_map _ _ (db w) (db w') C Hs' Hps).
  - now rewrite Ht.
  - intros q _. destruct (Nat.eqb (Project.ID q) id); cbn; auto.
  - intros s _. now left.
Qed.

Lemma submit_consistent req timestamp draw now w r w' :
  SubmitProject req timestamp draw now w = (r, w') ->
  consistent (db w) -> consistent (db w').
Proof.
  intros E C.
  apply submit_effect in E
    as [[-> _]|(resp & payload & _ & _ & _ & Hpn & Hsn & Hfresh & _ & Hp & Ht & Hs)];
    [exact C|].
  apply (consistent_submit (db w) (db w') _ C Hs Hp Ht); auto; discriminate.
Qed.

Lemma step_consistent d d' :
  Lifecycle.step d d' -> team_keys_ok d -> consistent d -> consistent d'.
Proof.
  intros [req ts draw now fs|id status fb cr rv now fs|id award photos fs|id fs]
    Hk C.
  - destruct (SubmitProject req ts draw now (mkWorld fs d)) as [r w'] eqn:E.
    exact (submit_consistent _ _ _ _ _ _ _ E C).
  - destruct (UpdateSubmissionStatus id status fb cr rv now (mkWorld fs d))
      as [r w'] eqn:E.
    exact (review_consistent _ _ _ _ _ _ _ _ _ E C).
  - destruct (UpdateProjectExtras id award photos (mkWorld fs d))
      as [r w'] eqn:E.
    exact (extras_consistent _ _ _ _ _ _ E Hk C).
  - destruct (ProjectService.LikeProject id (mkWorld fs d)) as [r w'] eqn:E.
    exact (like_consistent _ _ _ _ E C).
Qed.

(** Every store the service can reach is consistent. *)
Lemma reachable_consistent d :
  Lifecycle.reachable d -> consistent d /\ team_keys_ok d.
Proof.
  induction 1 as [|d d' _ [C K] Hstep].
  - split; [apply consistent_empty|].
    split; [apply NoDup_nil; exact I|constructor].
  - split; [exact (step_consistent _ _ Hstep K C)|exact (step_keys _ _ Hstep K)].
Qed.

End Reachable.

(** ** What holds of every store the service can reach *)
Section ReachableStores.
Context `{JSON}.
Import Store Repository Schema Services.

(** X13. In every store the service can reach, no two submissions share an
    identifier and no two share a project name. *)
Theorem reachable_submissions_unique (d : DB) :
  Lifecycle.reachable d ->
  NoDup (map Submission.ID (submissions d))
  /\ NoDup (map Submission.ProjectName (submissions d)).
Proof.
  intros R. apply reachable_consistent in R as [C _].
  split; [exact (submission_ids d C)|exact (submission_names d C)].
Qed.

(** X14. In every store the service can reach, no two projects share a key, a
    name or the submission they were made from. *)
Theorem reachable_projects_unique (d : DB) :
  Lifecycle.reachable d ->
  NoDup (map Project.ID (projects d))
  /\ NoDup (map Project.Name (projects d))
  /\ NoDup (map Project.SubmissionID (projects d)).
Proof.
  intros R. apply reachable_consistent in R as [C _].
  split; [exact (project_ids d C)|].
  split; [exact (project_names d C)|exact (project_submissions d C)].
Qed.

(** X15. In every store the service can reach, each project was made from a
    stored submission: it names that submission and carries its project
    name. *)
Theorem reachable_project_origin (d : DB) (p : Project.t) :
  Lifecycle.reachable d -> In p (projects d) ->
  exists s,
    submission_of d (Submission.ID s) = Some s
    /\ Project.SubmissionID p = Some (Submission.ID s)
    /\ Project.Name p = Submission.ProjectName s.
Proof.
  intros R Hin. apply reachable_consistent in R as [C _].
  destruct (project_origin d C p Hin) as (s & Hs & Hrest).
  exists s. split; [|exact Hrest].
  unfold submission_of.
  apply (find_unique Submission.ID _ (submissions d) s (submission_ids d C) Hs).
  - apply String.eqb_refl.
  - intros y _ Hy. now apply String.eqb_eq in Hy.
Qed.

(** X16. In every store the service can reach, the project a submission is
    linked to is stored, was made from that very submission and carries its
    project name. *)
Theorem reachable_link_target (d : DB) (s : Submission.t) (pid : nat) :
  Lifecycle.reachable d -> In s (submissions d) ->
  Submission.ApprovedProjectID s = Some pid ->
  exists p,
    project_of d pid = Some p
    /\ Project.SubmissionID p = Some (Submission.ID s)
    /\ Project.Name p = Submission.ProjectName s.
Proof.
  intros R Hin Hlink. apply reachable_consistent in R as [C _].
  destruct (link_target d C s pid Hin Hlink) as (p & Hp & Hpid & Hsub).
  exists p. split; [|split; [exact Hsub|]].
  - unfold project_of.
    apply (find_unique Project.ID _ (projects d) p (project_ids d C) Hp).
    + now apply Nat.eqb_eq.
    + intros y _ Hy. apply Nat.eqb_eq in Hy. congruence.
  - destruct (project_origin d C p Hp) as (s0 & Hs0 & Hid0 & Hname0).
    assert (s0 = s) as ->.
    { apply (key_unique Submission.ID (submissions d)); auto.
      - exact (submission_ids d C).
      - congruence. }
    exact Hname0.
Qed.

(** X17. In every store the service can reach, an approved submission is linked
    to a project, and a submission has a publication instant exactly when it
    is linked. *)
Theorem reachable_approved_published (d : DB) (s : Submission.t) :
  Lifecycle.reachable d -> In s (submissions d) ->
  (Submission.Status s = "approved" -> Submission.ApprovedProjectID s <> None)
  /\ (Submission.PublishedAt s <> None
      <-> Submission.ApprovedProjectID s <> None).
Proof.
  intros R Hin. apply reachable_consistent in R as [C _].
  split; [exact (approved_linked d C s Hin)|exact (published_linked d C s Hin)].
Qed.

(** X18. In every store the service can reach, each team member belongs to a
    stored project. *)
Theorem reachable_team_refs (d : DB) :
  Lifecycle.reachable d -> team_refs_ok d.
Proof.
  intros R. apply reachable_consistent in R as [C _]. exact (team_refs d C).
Qed.

(** X19. No request removes a submission or rewrites what its submitter wrote;
    the instant the review started, the publication instant and the link
    to the project, once set, stay as they are. *)
Theorem step_keeps_submissions (d d' : DB) (s : Submission.t) :
  Lifecycle.reachable d -> Lifecycle.step d d' -> In s (submissions d) ->
  exists s',
    In s' (submissions d')
    /\ submitted s' = submitted s
    /\ (forall t, Submission.ReviewStartedAt s = Some t ->
                  Submission.ReviewStartedAt s' = Some t)
    /\ (forall t, Submission.PublishedAt s = Some t ->
                  Submission.PublishedAt s' = Some t)
    /\ (forall pid, Submission.ApprovedProjectID s = Some pid ->
                    Submission.ApprovedProjectID s' = Some pid).
Proof.
  intros R Hstep Hin. apply reachable_consistent in R as [C _].
  assert (Hsame : submissions d' = submissions d ->
                  exists s', In s' (submissions d') /\ submitted s' = submitted s
                    /\ (forall t, Submission.ReviewStartedAt s = Some t ->
                                  Submission.ReviewStartedAt s' = Some t)
                    /\ (forall t, Submission.PublishedAt s = Some t ->
                                  Submission.PublishedAt s' = Some t)
                    /\ (forall pid, Submission.ApprovedProjectID s = Some pid ->
                                    Submission.ApprovedProjectID s' = Some pid)).
  { intros E. exists s. rewrite E. auto. }
  destruct Hstep as [req ts draw now fs|id status fb cr rv now fs
                    |id award photos fs|id fs].
  - destruct (SubmitProject req ts draw now (mkWorld fs d)) as [r w'] eqn:E.
    apply submit_effect in E
      as [[Hd _]|(? & ? & _ & _ & _ & _ & _ & _ & _ & _ & _ & Hs)].
    + apply Hsame. cbn [snd]. now rewrite Hd.
    + exists s. cbn [snd]. rewrite Hs. split; [apply in_app_iff; now left|auto].
  - destruct (UpdateSubmissionStatus id status fb cr rv now (mkWorld fs d))
      as [r w'] eqn:E.
    apply review_effect in E as [[Hd _]|(sub & Hsub & E)].
    { apply Hsame. cbn [snd]. now rewrite Hd. }
    cbv zeta in E. cbn [snd]. cbn [db] in Hsub, E.
    pose proof (found_submission _ _ _ Hsub) as [Hsin Hsid].
    assert (Hmap : forall final,
              submissions (db w')
              = map (fun x => if String.eqb (Submission.ID x) id then final else x)
                    (submissions d) ->
              submitted final = submitted sub ->
              (forall t, Submission.ReviewStartedAt sub = Some t ->
                         Submission.ReviewStartedAt final = Some t) ->
              (forall t, Submission.PublishedAt sub = Some t ->
                         Submission.PublishedAt final = Some t) ->
              (forall pid, Submission.ApprovedProjectID sub = Some pid ->
                           Submission.ApprovedProjectID final = Some pid) ->
              exists s', In s' (submissions (db w')) /\ submitted s' = submitted s
                /\ (forall t, Submission.ReviewStartedAt s = Some t ->
                              Submission.ReviewStartedAt s' = Some t)
                /\ (forall t, Submission.PublishedAt s = Some t ->
                              Submission.PublishedAt s' = Some t)
                /\ (forall pid, Submission.ApprovedProjectID s = Some pid ->
                                Submission.ApprovedProjectID s' = Some pid)).
    { intros final Hs F1 F2 F3 F4.
      destruct (String.eqb (Submission.ID s) id) eqn:Q.
      - assert (s = sub) as -> by exact (replaced_is_read _ _ _ _ C Hsub Hin Q).
        exists final. split; [|auto].
        rewrite Hs. apply in_map_iff. exists sub. now rewrite Q.
      - exists s. split; [|auto].
        rewrite Hs. apply in_map_iff. exists s. now rewrite Q. }
    destruct E as [(G & _ & _ & _ & Hs)|(G & _ & _ & _ & _ & [[Hs _]|[_ Hs]])].
    + revert Hs.
      destruct (String.eqb status "under_review");
        [destruct (Submission.ReviewStartedAt
                     (Submission.with_review sub status fb cr rv)) eqn:RS
        |destruct (is_decision status)];
        intros Hs; apply (Hmap _ Hs); cbn in *; auto; congruence.
    + now apply Hsame.
    + unfold first_approval in G. cbn in G.
      apply andb_true_iff in G as [_ G].
      assert (Hl : Submission.ApprovedProjectID sub = None)
        by (now destruct (Submission.ApprovedProjectID sub)).
      assert (Hp : Submission.PublishedAt sub = None).
      { destruct (Submission.PublishedAt sub) eqn:P; [|reflexivity].
        exfalso. apply (proj1 (published_linked d C sub Hsin)); congruence. }
      apply (Hmap _ Hs); cbn; auto; congruence.
  - destruct (UpdateProjectExtras id award photos (mkWorld fs d))
      as [r w'] eqn:E.
    apply Hsame. cbn [snd].
    apply extras_effect in E as [[-> _]|(? & ? & ? & _ & _ & _ & _ & Hs & _)];
      [reflexivity|exact Hs].
  - destruct (ProjectService.LikeProject id (mkWorld fs d)) as [r w'] eqn:E.
    apply Hsame. cbn [snd].
    apply like_effect in E as [[-> _]|(? & _ & _ & _ & Hs & _)];
      [reflexivity|exact Hs].
Qed.

(** X20. No request removes a project or rewrites what it took from its
    submission; its like counter never goes down, and goes up by at most one
    per request. *)
Theorem step_keeps_projects (d d' : DB) (p : Project.t) :
  Lifecycle.reachable d -> Lifecycle.step d d' -> In p (projects d) ->
  exists p',
    In p' (projects d')
    /\ listed p' = listed p
    /\ Project.Likes p <= Project.Likes p' <= Project.Likes p + 1.
Proof.
  intros R Hstep Hin. apply reachable_consistent in R as [C _].
  assert (Hsame : projects d' = projects d ->
                  exists p', In p' (projects d') /\ listed p' = listed p
                    /\ Project.Likes p <= Project.Likes p' <= Project.Likes p + 1).
  { intros E. exists p. rewrite E. split; [exact Hin|]. split; [reflexivity|lia]. }
  destruct Hstep as [req ts draw now fs|id status fb cr rv now fs
                    |id award photos fs|id fs].
  - destruct (SubmitProject req ts draw now (mkWorld fs d)) as [r w'] eqn:E.
    apply Hsame. cbn [snd].
    apply submit_effect in E
      as [[-> _]|(? & ? & _ & _ & _ & _ & _ & _ & _ & Hp & _)];
      [reflexivity|exact Hp].
  - destruct (UpdateSubmissionStatus id status fb cr rv now (mkWorld fs d))
      as [r w'] eqn:E.
    apply review_effect in E as [[Hd _]|(sub & Hsub & E)].
    { apply Hsame. cbn [snd]. now rewrite Hd. }
    cbv zeta in E. cbn [snd]. cbn [db] in E.
    destruct E as [(_ & _ & Hp & _)|(_ & Hp & _)]; [now apply Hsame|].
    exists p. rewrite Hp. split; [apply in_app_iff; now left|].
    split; [reflexivity|lia].
  - destruct (UpdateProjectExtras id award photos (mkWorld fs d))
      as [r w'] eqn:E.
    apply extras_effect in E
      as [[Hd _]|(sub & pid & p0 & _ & _ & Hp0 & _ & _ & Hps & _)].
    { apply Hsame. cbn [snd]. now rewrite Hd. }
    cbn [snd]. cbn [db] in Hp0, Hps.
    apply found_project in Hp0 as [Hp0in Hp0id].
    destruct (Nat.eqb (Project.ID p) pid) eqn:Q.
    + apply Nat.eqb_eq in Q.
      assert (p = p0) as ->.
      { apply (key_unique Project.ID (projects d)); auto.
        - exact (project_ids d C).
        - congruence. }
      eexists. split.
      * rewrite Hps. apply in_map_iff. exists p0. split; [|exact Hp0in].
        rewrite (proj2 (Nat.eqb_eq _ _) Hp0id). reflexivity.
      * destruct award; cbn; split; try reflexivity; lia.
    + exists p. split; [|split; [reflexivity|lia]].
      rewrite Hps. apply in_map_iff. exists p. now rewrite Q.
  - destruct (ProjectService.LikeProject id (mkWorld fs d)) as [r w'] eqn:E.
    apply like_effect in E as [[Hd _]|(p0 & _ & _ & _ & _ & _ & Hps)].
    { apply Hsame. cbn [snd]. now rewrite Hd. }
    cbn [snd]. cbn [db] in Hps.
    eexists. split.
    + rewrite Hps. apply in_map_iff. exists p. split; [reflexivity|exact Hin].
    + destruct (Nat.eqb (Project.ID p) id); cbn; split; try reflexivity; lia.
Qed.

(** X21. An approval cannot go through while another project carries the name
    of the submission: the call fails and writes nothing. This is the state
    an approval interrupted after the insert of the project leaves behind. *)
Theorem approval_blocked_by_name (id : string) (fb : option string)
    (cr : list string) (rv : option nat) (now : Z) (w w' : World)
    (r : error + unit) (sub : Submission.t)
    (Hsub : submission_of (db w) id = Some sub)
    (Hstatus : Submission.Status sub <> "approved")
    (Hlink : Submission.ApprovedProjectID sub = None)
    (Hname : has_project_named (db w) (Submission.ProjectName sub) = true)
    (Hrun : UpdateSubmissionStatus id "approved" fb cr rv now w = (r, w')) :
  db w' = db w /\ exists e, r = inl e.
Proof.
  apply review_effect in Hrun as [Hsame|(sub' & Hsub' & E)]; [exact Hsame|].
  exfalso. rewrite Hsub in Hsub'. injection Hsub' as <-. cbv zeta in E.
  assert (G : first_approval (Submission.with_review sub "approved" fb cr rv)
                (Submission.Status sub) "approved" = true).
  { unfold first_approval. cbn. rewrite Hlink.
    apply String.eqb_neq in Hstatus. now rewrite Hstatus. }
  destruct E as [(G' & _)|(_ & _ & Hfree & _)]; congruence.
Qed.

(** X22. The service stores whatever status it is given: a status other than
    approved, even one outside the five the validation knows, is written
    to a stored submission when the store does not fail. *)
Theorem UpdateSubmissionStatus_any_status (id status : string)
    (fb : option string) (cr : list string) (rv : option nat) (now : Z)
    (d : DB) (sub : Submission.t)
    (Hsub : submission_of d id = Some sub)
    (Hstatus : status <> "approved") :
  exists d' final,
    UpdateSubmissionStatus id status fb cr rv now (mkWorld [] d)
    = (inr tt, mkWorld [] d')
    /\ submission_of d' id = Some final
    /\ Submission.Status final = status.
Proof.
  assert (G : forall s prev, first_approval s prev status = false).
  { intros s prev. unfold first_approval.
    apply String.eqb_neq in Hstatus. now rewrite Hstatus. }
  destruct (UpdateSubmissionStatus id status fb cr rv now (mkWorld [] d))
    as [r w'] eqn:E.
  assert (Hcalm : r = inr tt /\ faults w' = []).
  { unfold UpdateSubmissionStatus, bind, GetSubmissionByID in E.
    rewrite stmt_calm in E. unfold submission_of in Hsub. rewrite Hsub in E.
    cbn [fst snd] in E. unfold status_switch in E. cbv zeta in E.
    rewrite G in E.
    unfold UpdateSubmission in E.
    destruct (String.eqb status "under_review");
      [|destruct (is_decision status)]; unfold ret in E;
      rewrite stmt_calm in E; injection E as <- <-; auto. }
  destruct Hcalm as [-> Hf].
  pose proof (review_inv id status fb cr rv now (mkWorld [] d) (inr tt) w' sub
                Hsub E) as Hinv.
  cbv zeta in Hinv.
  destruct Hinv as [[? _]|(w1 & w2 & r2 & Hd1 & Hsw & Hend)]; [discriminate|].
  apply status_switch_inv in Hsw as (_ & Hno & _).
  destruct (Hno (G _ _)) as [_ ->].
  destruct Hend as (_ & _ & [(e & ? & _)|(_ & Hfinal & _)]); [discriminate|].
  destruct w' as [fs d']. cbn in Hf. subst fs.
  exists d'. eexists. split; [reflexivity|]. split; [exact Hfinal|].
  destruct (String.eqb status "under_review");
    [destruct (Submission.ReviewStartedAt _)|destruct (is_decision status)];
    reflexivity.
Qed.

End ReachableStores.

(** ** The handlers *)
Section HandlerFacts.
Context `{JSON}.
Import Store Repository Schema Services.

(** A handler leaves the store as its service call left it. *)
Lemma handler_submit_store bound timestamp draw now w :
  db (Handlers.SubmitProject bound timestamp draw now w).2
  = match bound with
    | None => db w
    | Some req => db (SubmitProject req timestamp draw now w).2
    end.
Proof.
  unfold Handlers.SubmitProject. destruct bound as [req|]; [|reflexivity].
  destruct (SubmitProject req timestamp draw now w) as [[e|resp] w'];
    [|reflexivity].
  repeat match goal with
         | |- context [if ?c then _ else _] => destruct c
         end; reflexivity.
Qed.

Lemma handler_review_store id reviewRequest now w :
  db (Handlers.ReviewSubmission id reviewRequest now w).2 = db w
  \/ (Handlers.bind_review reviewRequest = true
      /\ db (Handlers.ReviewSubmission id reviewRequest now w).2
         = db (UpdateSubmissionStatus id (Handlers.Status reviewRequest)
                 (Handlers.Feedback reviewRequest)
                 (Handlers.ChangesRequested reviewRequest)
                 (Some (Handlers.ReviewerID reviewRequest)) now w).2).
Proof.
  unfold Handlers.ReviewSubmission.
  destruct (negb (Utils.ValidateSubmissionID id)); [now left|].
  destruct (Handlers.bind_review reviewRequest); [|now left].
  right. split; [reflexivity|].
  destruct (UpdateSubmissionStatus _ _ _ _ _ _ w) as [[e|u] w']; [|reflexivity].
  now destruct (String.eqb (Error e) "record not found").
Qed.

Lemma handler_extras_store id bound w :
  db (Handlers.UpdateProjectExtras id bound w).2 = db w
  \/ exists updateRequest,
       db (Handlers.UpdateProjectExtras id bound w).2
       = db (UpdateProjectExtras id (Handlers.Award updateRequest)
               (Handlers.TeamPhotos updateRequest) w).2.
Proof.
  unfold Handlers.UpdateProjectExtras.
  destruct (negb (Utils.ValidateSubmissionID id)); [now left|].
  destruct bound as [u|]; [|now left].
  right. exists u.
  destruct (UpdateProjectExtras _ _ _ w) as [[e|x] w']; [|reflexivity].
  destruct (String.eqb (Error e) "record not found"); [reflexivity|].
  now destruct (String.eqb (Error e) "project not found").
Qed.

Lemma handler_like_store idStr w :
  db (Handlers.LikeProject idStr w).2 = db w
  \/ exists id,
       db (Handlers.LikeProject idStr w).2
       = db (ProjectService.LikeProject id w).2.
Proof.
  unfold Handlers.LikeProject.
  destruct (Utils.ParseUint32 idStr) as [id|]; [|now left].
  right. exists id.
  destruct (ProjectService.LikeProject id w) as [[e|u] w']; [reflexivity|].
  unfold ProjectService.GetProject.
  destruct (GetProjectByID id w') as [[e|p] w''] eqn:G;
    apply GetProjectByID_inv in G as [Hd _]; exact Hd.
Qed.

(** What a handler does to the store, a request of the service can do. *)
Lemma answered_step d d' :
  Lifecycle.answered d d' -> d' = d \/ Lifecycle.step d d'.
Proof.
  intros [bound ts draw now fs|id rr now fs|id bound fs|idStr fs].
  - rewrite handler_submit_store. destruct bound as [req|]; [|now left].
    right. constructor.
  - destruct (handler_review_store id rr now (mkWorld fs d)) as [->|[_ ->]];
      [now left|]. right. constructor.
  - destruct (handler_extras_store id bound (mkWorld fs d)) as [->|[u ->]];
      [now left|]. right. constructor.
  - destruct (handler_like_store idStr (mkWorld fs d)) as [->|[id ->]];
      [now left|]. right. constructor.
Qed.

Lemma served_reachable d : Lifecycle.served d -> Lifecycle.reachable d.
Proof.
  induction 1 as [|d d' _ IH Hans]; [constructor|].
  apply answered_step in Hans as [->|Hstep]; [exact IH|].
  exact (Lifecycle.reach_step d d' IH Hstep).
Qed.

Lemma review_statuses id status fb cr rv now w r w' :
  UpdateSubmissionStatus id status fb cr rv now w = (r, w') ->
  In status Utils.allowedStatuses ->
  statuses_ok (db w) -> statuses_ok (db w').
Proof.
  intros E Hst Hok. unfold statuses_ok in *.
  apply review_effect in E as [[-> _]|(sub & Hsub & E)]; [exact Hok|].
  cbv zeta in E.
  assert (Hmap : forall final,
            Submission.Status final = status ->
            submissions (db w')
            = map (fun x => if String.eqb (Submission.ID x) id then final else x)
                  (submissions (db w)) ->
            Forall (fun s => In (Submission.Status s) Utils.allowedStatuses)
              (submissions (db w'))).
  { intros final Hf ->. apply Forall_forall. intros s Hs.
    apply list_elem_of_In, in_map_iff in Hs as (x & <- & Hx).
    destruct (String.eqb (Submission.ID x) id); [now rewrite Hf|].
    rewrite Forall_forall in Hok. apply Hok. now apply list_elem_of_In. }
  destruct E as [(_ & _ & _ & _ & Hs)|(_ & _ & _ & _ & _ & [[-> _]|[_ Hs]])].
  - revert Hs.
    destruct (String.eqb status "under_review");
      [destruct (Submission.ReviewStartedAt _)|destruct (is_decision status)];
      intros Hs; refine (Hmap _ _ Hs); reflexivity.
  - exact Hok.
  - refine (Hmap _ _ Hs). reflexivity.
Qed.

(** X23. Every store the API has served holds only statuses of the vocabulary:
    a submission starts as pending, and the review endpoint admits the five
    statuses only. *)
Theorem served_statuses (d : DB) : Lifecycle.served d -> statuses_ok d.
Proof.
  induction 1 as [|d d' _ IH Hans]; [constructor|].
  unfold statuses_ok in *.
  destruct Hans as [bound ts draw now fs|id rr now fs|id bound fs|idStr fs].
  - rewrite handler_submit_store. destruct bound as [req|]; [|exact IH].
    destruct (SubmitProject req ts draw now (mkWorld fs d)) as [r w'] eqn:E.
    apply submit_effect in E
      as [[Hd _]|(? & ? & _ & _ & _ & _ & _ & _ & _ & _ & _ & Hs)];
      cbn [snd]; [now rewrite Hd|rewrite Hs].
    apply Forall_app. split; [exact IH|].
    constructor; [|constructor]. cbn. now left.
  - destruct (handler_review_store id rr now (mkWorld fs d)) as [->|[Hb ->]];
      [exact IH|].
    destruct (UpdateSubmissionStatus id (Handlers.Status rr) (Handlers.Feedback rr)
                (Handlers.ChangesRequested rr) (Some (Handlers.ReviewerID rr))
                now (mkWorld fs d)) as [r w'] eqn:E.
    apply (review_statuses _ _ _ _ _ _ _ _ _ E); [|exact IH].
    unfold Handlers.bind_review in Hb.
    apply andb_true_iff in Hb as [Hb _]. apply andb_true_iff in Hb as [_ Hb].
    apply Contains_In in Hb. exact Hb.
  - destruct (handler_extras_store id bound (mkWorld fs d)) as [->|[u ->]];
      [exact IH|].
    destruct (UpdateProjectExtras id (Handlers.Award u) (Handlers.TeamPhotos u)
                (mkWorld fs d)) as [r w'] eqn:E.
    cbn [snd].
    apply extras_effect in E as [[-> _]|(? & ? & ? & _ & _ & _ & _ & -> & _)];
      exact IH.
  - destruct (handler_like_store idStr (mkWorld fs d)) as [->|[id ->]];
      [exact IH|].
    destruct (ProjectService.LikeProject id (mkWorld fs d)) as [r w'] eqn:E.
    cbn [snd].
    apply like_effect in E as [[-> _]|(? & _ & _ & _ & -> & _)]; exact IH.
Qed.

Lemma find_replaced {A} (same : A -> bool) (row : A) rows old :
  find same rows = Some old -> same row = true ->
  find same (map (fun r => if same r then row else r) rows) = Some row.
Proof.
  intros Hf Hs. rewrite <- (save_row_found same row rows old Hf).
  exact (find_save_row same row rows old Hf Hs).
Qed.

(** X30. The review endpoint answers 200, 400, 404 or 500. A 400 comes
    before any store access; a 404 leaves the store as it was; a 200 means
    the submission is stored with the status, the feedback, the requested
    changes and the reviewer of the request, the status being one of the
    five. So a review that wrote a project and then failed is always
    answered 500. *)
Theorem ReviewSubmission_answers (id : string)
    (reviewRequest : Handlers.ReviewRequest) (now : Z) (w : World) :
  let answer := Handlers.ReviewSubmission id reviewRequest now w in
  In (Handlers.StatusCode answer.1) [200; 400; 404; 500]%nat
  /\ (Handlers.StatusCode answer.1 = 400%nat -> answer.2 = w)
  /\ (Handlers.StatusCode answer.1 = 404%nat -> db answer.2 = db w)
  /\ (Handlers.StatusCode answer.1 = 200%nat ->
      In (Handlers.Status reviewRequest) Utils.allowedStatuses
      /\ exists final,
           submission_of (db answer.2) id = Some final
           /\ Submission.Status final = Handlers.Status reviewRequest
           /\ Submission.Feedback final = Handlers.Feedback reviewRequest
           /\ Submission.ChangesRequested final
              = Handlers.ChangesRequested reviewRequest
           /\ Submission.ReviewerID final
              = Some (Handlers.ReviewerID reviewRequest)).
Proof.
  cbv zeta. unfold Handlers.ReviewSubmission.
  destruct (negb (Utils.ValidateSubmissionID id)).
  { cbn. repeat split; try discriminate; auto. }
  destruct (negb (Handlers.bind_review reviewRequest)) eqn:Hb.
  { cbn. repeat split; try discriminate; auto. }
  apply negb_false_iff in Hb.
  assert (Hst : In (Handlers.Status reviewRequest) Utils.allowedStatuses).
  { unfold Handlers.bind_review in Hb.
    apply andb_true_iff in Hb as [Hb _]. apply andb_true_iff in Hb as [_ Hb].
    now apply Contains_In in Hb. }
  destruct (UpdateSubmissionStatus id (Handlers.Status reviewRequest)
              (Handlers.Feedback reviewRequest)
              (Handlers.ChangesRequested reviewRequest)
              (Some (Handlers.ReviewerID reviewRequest)) now w)
    as [[e|[]] w'] eqn:E.
  - destruct (String.eqb (Error e) "record not found") eqn:Q; cbn.
    + split; [auto|]. split; [discriminate|]. split; [|discriminate].
      intros _.
      apply review_effect in E as [[Hd _]|(sub & _ & E)]; [exact Hd|].
      cbv zeta in E.
      destruct E as [(_ & ? & _)|(_ & _ & _ & _ & _ & [[_ He]|[? _]])];
        try discriminate.
      injection He as ->. discriminate.
    + split; [auto 6|]. repeat split; discriminate.
  - cbn. split; [auto|]. split; [discriminate|]. split; [discriminate|].
    intros _. split; [exact Hst|].
    apply review_effect in E as [[_ [e ?]]|(sub & Hsub & E)]; [discriminate|].
    cbv zeta in E. unfold submission_of in *.
    assert (Hfound : forall final,
              submissions (db w')
              = map (fun x => if String.eqb (Submission.ID x) id then final else x)
                    (submissions (db w)) ->
              Submission.ID final = id ->
              find (fun s => String.eqb (Submission.ID s) id) (submissions (db w'))
              = Some final).
    { intros final -> Hid.
      apply (find_replaced (fun s => String.eqb (Submission.ID s) id) final _ sub Hsub).
      rewrite Hid. apply String.eqb_refl. }
    assert (Hsid : Submission.ID sub = id).
    { apply find_some in Hsub as [_ Q]. now apply String.eqb_eq in Q. }
    destruct E as [(_ & _ & _ & _ & Hs)|(_ & _ & _ & _ & _ & [[_ ?]|[_ Hs]])];
      [|discriminate|].
    + revert Hs.
      destruct (String.eqb (Handlers.Status reviewRequest) "under_review");
        [destruct (Submission.ReviewStartedAt _)
        |destruct (is_decision (Handlers.Status reviewRequest))];
        intros Hs; eexists; (split; [exact (Hfound _ Hs Hsid)|]);
        repeat split.
    + eexists. split; [exact (Hfound _ Hs Hsid)|]. repeat split.
Qed.

(** With no fault in the store, a valid request under a free name is
    stored. *)
Lemma submit_calm req timestamp draw now d payload :
  validateSubmissionRequest req = None ->
  has_project_named d (ProjectName req) = false ->
  has_submission_named d (ProjectName req) = false ->
  Marshal (TeamMembers req) = inr payload ->
  submission_of d (Utils.GenerateSubmissionID timestamp draw) = None ->
  exists resp,
    SubmitProject req timestamp draw now (mkWorld [] d)
    = (inr resp,
       mkWorld []
         (with_submissions d
            (submissions d
             ++ [Submission.mk (Utils.GenerateSubmissionID timestamp draw)
                   (ProjectName req) (Description req) (PhotoLink req)
                   (Event req) (Categories req) payload (GithubLink req)
                   (WebsiteLink req) (PlayLink req) (HowToPlay req)
                   (AdditionalNotes req) "pending" None None [] now
                   None None None None])))
    /\ SubmissionID resp = Utils.GenerateSubmissionID timestamp draw.
Proof.
  intros Hvalid Hp Hs Hpay Hfresh.
  unfold SubmitProject. rewrite Hvalid.
  unfold has_project_named, has_submission_named in *.
  apply existsb_find in Hp. apply existsb_find in Hs.
  unfold GetProjectByName, GetSubmissionByProjectName.
  rewrite stmt_calm. rewrite Hp. cbn [fst snd error_eqb negb].
  rewrite stmt_calm. rewrite Hs. cbn [fst snd error_eqb negb].
  unfold bind. rewrite Hpay. cbn [lift ret].
  unfold CreateSubmission. rewrite stmt_calm. cbn [Submission.ID].
  replace (existsb _ (submissions d)) with false.
  2:{ symmetry. apply not_true_is_false. intros Q.
      apply existsb_find in Q as [x Q]. unfold submission_of in Hfresh.
      congruence. }
  cbn [fst snd]. eexists. split; reflexivity.
Qed.

(** X24. The submit endpoint: every refusal leaves the store as it was; an
    undecodable body is answered 400 without a store access, a request that
    fails validation 400 as a validation error; with no fault in the store,
    a name a project carries is answered 409 as a duplicate project name,
    and else a name a submission carries 409 as a duplicate submission; a
    201 means that exactly one submission, pending, was appended under the
    identifier of the response. *)
Theorem SubmitProject_status_codes
    (bound : option SubmitProjectRequest) (timestamp : Z) (draw : nat -> nat)
    (now : Z) (w : World) :
  let answer := Handlers.SubmitProject bound timestamp draw now w in
  (forall status code, answer.1 = Handlers.Refused status code ->
     db answer.2 = db w)
  /\ (bound = None ->
      answer = (Handlers.Refused 400 "INVALID_SUBMISSION_DATA", w))
  /\ (forall req err,
        bound = Some req -> validateSubmissionRequest req = Some err ->
        answer = (Handlers.Refused 400 "VALIDATION_ERROR", w))
  /\ (forall req,
        bound = Some req -> validateSubmissionRequest req = None ->
        faults w = [] ->
        (has_project_named (db w) (ProjectName req) = true ->
         answer = (Handlers.Refused 409 "DUPLICATE_PROJECT_NAME", w))
        /\ (has_project_named (db w) (ProjectName req) = false ->
            has_submission_named (db w) (ProjectName req) = true ->
            answer = (Handlers.Refused 409 "DUPLICATE_SUBMISSION", w)))
  /\ (forall status resp, answer.1 = Handlers.Sent status resp ->
        status = 201%nat
        /\ exists req new,
             bound = Some req
             /\ submissions (db answer.2) = submissions (db w) ++ [new]
             /\ Submission.ID new = SubmissionID resp
             /\ Submission.ProjectName new = ProjectName req
             /\ Submission.Status new = "pending").
Proof.
  cbv zeta. split; [|split; [|split; [|split]]].
  - intros status code Ha. rewrite handler_submit_store.
    destruct bound as [req|]; [|reflexivity].
    unfold Handlers.SubmitProject in Ha.
    destruct (SubmitProject req timestamp draw now w) as [[e|resp] w'] eqn:E.
    + cbn [snd]. apply submit_effect in E as [[Hd _]|(? & ? & ? & _)];
        [exact Hd|discriminate].
    + discriminate.
  - intros ->. reflexivity.
  - intros req err -> Hv. unfold Handlers.SubmitProject, SubmitProject.
    rewrite Hv. unfold fail.
    unfold validateSubmissionRequest in Hv.
    destruct (negb (Utils.ValidateCategories (Categories req)));
      [injection Hv as <-; reflexivity|].
    destruct (negb (Utils.ValidateEvent (Event req)));
      [injection Hv as <-; reflexivity|].
    destruct (validate_members_spec (TeamMembers req)) as [_ [Hn|Hn]];
      rewrite Hn in Hv; [discriminate|].
    injection Hv as <-. reflexivity.
  - intros req -> Hv Hf. destruct w as [fs d]. cbn in Hf. subst fs. cbn [db].
    unfold Handlers.SubmitProject, SubmitProject. rewrite Hv.
    unfold has_project_named, has_submission_named.
    unfold GetProjectByName, GetSubmissionByProjectName. rewrite stmt_calm.
    split.
    + intros Hp. apply existsb_find in Hp as [p Hp]. now rewrite Hp.
    + intros Hp Hs. apply existsb_find in Hp.
      apply existsb_find in Hs as [s Hs].
      rewrite Hp. cbn [fst snd error_eqb negb]. rewrite stmt_calm.
      now rewrite Hs.
  - intros status resp Ha. unfold Handlers.SubmitProject in *.
    destruct bound as [req|]; [|discriminate].
    destruct (SubmitProject req timestamp draw now w) as [[e|resp'] w'] eqn:E.
    + repeat match type of Ha with
             | context [if ?c then _ else _] => destruct c
             end; discriminate.
    + cbn [fst snd] in *. injection Ha as <- <-. split; [reflexivity|].
      apply submit_effect in E
        as [[_ [e ?]]|(resp0 & payload & Hr & Hid & _ & _ & _ & _ & _ & _ & _ & Hs)];
        [discriminate|].
      injection Hr as <-. exists req. eexists. split; [reflexivity|].
      split; [exact Hs|]. cbn. rewrite Hid. auto.
Qed.

End HandlerFacts.

(** ** Reading back what was written *)
Section ReadBack.
Context `{JSON} `{Render}.
Import Store Repository Schema Services.

Lemma find_snoc {A} (f : A -> bool) l x :
  find f l = None -> f x = true -> find f (l ++ [x]) = Some x.
Proof.
  induction l as [|y l IH]; cbn [app find]; intros Hn Hx.
  - now rewrite Hx.
  - destruct (f y); [discriminate|]. now apply IH.
Qed.

(** The timeline has an entry for the submission instant and one for each
    later instant that is set. *)
Lemma timeline_keys (x : SubmissionService.SubmissionWithTeamMembers) :
  Handlers.build_timeline x !! "submitted" = Some (SubmissionService.SubmittedAt x)
  /\ Handlers.build_timeline x !! "published" = SubmissionService.PublishedAt x
  /\ Handlers.build_timeline x !! "review_started"
     = SubmissionService.ReviewStartedAt x
  /\ Handlers.build_timeline x !! "review_completed"
     = SubmissionService.ReviewedAt x.
Proof.
  unfold Handlers.build_timeline.
  destruct (SubmissionService.ReviewStartedAt x),
    (SubmissionService.ReviewedAt x), (SubmissionService.PublishedAt x);
    repeat split;
    repeat first [rewrite lookup_insert_eq
                 |rewrite lookup_insert_ne by discriminate];
    first [reflexivity
          |apply lookup_singleton_eq
          |apply lookup_singleton_ne; discriminate].
Qed.

(** X25. Whether a submission accepted by the submit endpoint can be read
    under the identifier of the response depends on the clock reading the
    identifier was made from. At a reading of at least 10^9 milliseconds
    since the epoch the status endpoint shows it at once: pending, with no
    review, no feedback, no project, and a timeline that holds the submission
    instant only. At a lower reading the submit endpoint still answers 201
    and stores the submission, but the status endpoint refuses the identifier
    as malformed and leaves the store as it is. *)
Theorem submit_then_status (req : SubmitProjectRequest) (timestamp : Z)
    (draw : nat -> nat) (now : Z) (d : DB) (payload : string)
    (Hvalid : validateSubmissionRequest req = None)
    (Hproject : has_project_named d (ProjectName req) = false)
    (Hsubmission : has_submission_named d (ProjectName req) = false)
    (Hpayload : Marshal (TeamMembers req) = inr payload)
    (Hfresh : submission_of d (Utils.GenerateSubmissionID timestamp draw) = None) :
  exists resp d',
    Handlers.SubmitProject (Some req) timestamp draw now (mkWorld [] d)
    = (Handlers.Sent 201 resp, mkWorld [] d')
    /\ SubmissionID resp = Utils.GenerateSubmissionID timestamp draw
    /\ (10 ^ 9 <= timestamp ->
        Handlers.GetSubmissionStatus (SubmissionID resp) (mkWorld [] d')
        = (Handlers.Sent 200
             (Handlers.StatusBody.mk (SubmissionID resp) "pending"
                (ProjectName req) (Format now) None None None
                {[ "submitted" := Format now ]}),
           mkWorld [] d'))
    /\ (timestamp < 10 ^ 9 ->
        Handlers.GetSubmissionStatus (SubmissionID resp) (mkWorld [] d')
        = (Handlers.Refused 400 "INVALID_SUBMISSION_ID", mkWorld [] d')).
Proof.
  destruct (submit_calm req timestamp draw now d payload
              Hvalid Hproject Hsubmission Hpayload Hfresh) as (resp & Hrun & Hid).
  exists resp. eexists. split; [|split; [exact Hid|split]].
  - unfold Handlers.SubmitProject. rewrite Hrun. reflexivity.
  - intros Hclock. rewrite Hid. unfold Handlers.GetSubmissionStatus.
    rewrite (Generate_valid timestamp draw Hclock). cbn [negb].
    unfold SubmissionService.GetSubmissionByID, bind, GetSubmissionWithProject.
    rewrite stmt_calm. cbn [submissions with_submissions].
    unfold submission_of in Hfresh.
    rewrite (find_snoc _ _ _ Hfresh) by apply String.eqb_refl.
    reflexivity.
  - intros Hearly. rewrite Hid. unfold Handlers.GetSubmissionStatus.
    rewrite (Generate_early_invalid timestamp draw Hearly). reflexivity.
Qed.

(** X26. The team of a request comes back from the store as it was sent, when
    the codec reads back what it wrote and writes no empty text: right after
    the submit, [GetSubmissionByID] of the service returns the submission as
    pending, with the fields and the team members of the request. *)
Theorem submitted_team_read_back (req : SubmitProjectRequest) (timestamp : Z)
    (draw : nat -> nat) (now : Z) (d : DB) (payload : string)
    (Hvalid : validateSubmissionRequest req = None)
    (Hproject : has_project_named d (ProjectName req) = false)
    (Hsubmission : has_submission_named d (ProjectName req) = false)
    (Hpayload : Marshal (TeamMembers req) = inr payload)
    (Hfresh : submission_of d (Utils.GenerateSubmissionID timestamp draw) = None)
    (Hcodec : Unmarshal payload = inr (TeamMembers req))
    (Htext : payload <> "") :
  exists resp d' shown,
    SubmitProject req timestamp draw now (mkWorld [] d)
    = (inr resp, mkWorld [] d')
    /\ SubmissionService.GetSubmissionByID (SubmissionID resp) (mkWorld [] d')
       = (inr shown, mkWorld [] d')
    /\ SubmissionService.ID shown = SubmissionID resp
    /\ SubmissionService.ProjectName shown = ProjectName req
    /\ SubmissionService.Description shown = Description req
    /\ SubmissionService.Categories shown = Categories req
    /\ SubmissionService.TeamMembers shown = TeamMembers req
    /\ SubmissionService.Status shown = "pending"
    /\ SubmissionService.SubmittedAt shown = Format now
    /\ SubmissionService.ApprovedProject shown = None.
Proof.
  destruct (submit_calm req timestamp draw now d payload
              Hvalid Hproject Hsubmission Hpayload Hfresh) as (resp & Hrun & Hid).
  exists resp. eexists. eexists. split; [exact Hrun|].
  rewrite Hid.
  unfold SubmissionService.GetSubmissionByID, bind, GetSubmissionWithProject.
  rewrite stmt_calm. cbn [submissions with_submissions].
  unfold submission_of in Hfresh.
  rewrite (find_snoc _ _ _ Hfresh) by apply String.eqb_refl.
  cbn [fst snd ret]. split; [reflexivity|].
  cbn [SubmissionService.ID SubmissionService.ProjectName
       SubmissionService.Description SubmissionService.Categories
       SubmissionService.TeamMembers SubmissionService.Status
       SubmissionService.SubmittedAt SubmissionService.ApprovedProject
       Submission.ID Submission.ProjectName Submission.Description
       Submission.Categories Submission.TeamMembers Submission.Status
       Submission.SubmittedAt Submission.ApprovedProjectID].
  repeat split.
  unfold SubmissionService.shown_team.
  apply String.eqb_neq in Htext. rewrite Htext. cbn [negb]. now rewrite Hcodec.
Qed.

(** X27. In a store the service can reach, the status endpoint answers 200 for
    every stored submission whose identifier has the valid shape; the body
    shows the stored project with its team exactly when the submission is
    linked, and the timeline holds a publication instant in that case and
    in no other. *)
Theorem status_of_stored_submission (d : DB) (id : string) (s : Submission.t)
    (Hreach : Lifecycle.reachable d)
    (Hsub : submission_of d id = Some s)
    (Hshape : Utils.ValidateSubmissionID id = true) :
  exists body,
    Handlers.GetSubmissionStatus id (mkWorld [] d)
    = (Handlers.Sent 200 body, mkWorld [] d)
    /\ Handlers.StatusBody.submissionId body = id
    /\ Handlers.StatusBody.status body = Submission.Status s
    /\ Handlers.StatusBody.projectName body = Submission.ProjectName s
    /\ Handlers.StatusBody.feedback body = Submission.Feedback s
    /\ Handlers.StatusBody.timeline body !! "submitted"
       = Some (Format (Submission.SubmittedAt s))
    /\ match Submission.ApprovedProjectID s with
       | Some pid =>
           exists p,
             project_of d pid = Some p
             /\ Project.Name p = Submission.ProjectName s
             /\ Handlers.StatusBody.project body
                = Some (Project.with_TeamMembers p (preload_team d pid))
             /\ Handlers.StatusBody.timeline body !! "published" <> None
       | None =>
           Handlers.StatusBody.project body = None
           /\ Handlers.StatusBody.timeline body !! "published" = None
       end.
Proof.
  apply reachable_consistent in Hreach as [C _].
  pose proof (found_submission _ _ _ Hsub) as [Hin Hid].
  unfold Handlers.GetSubmissionStatus. rewrite Hshape. cbn [negb].
  unfold SubmissionService.GetSubmissionByID, bind, GetSubmissionWithProject.
  rewrite stmt_calm. unfold submission_of in Hsub. rewrite Hsub.
  cbn [fst snd ret]. eexists. split; [reflexivity|].
  cbn [Handlers.StatusBody.submissionId Handlers.StatusBody.status
       Handlers.StatusBody.projectName Handlers.StatusBody.feedback
       Handlers.StatusBody.timeline Handlers.StatusBody.project
       SubmissionService.ID SubmissionService.Status
       SubmissionService.ProjectName SubmissionService.Feedback
       SubmissionService.ApprovedProject].
  split; [exact Hid|]. split; [reflexivity|]. split; [reflexivity|].
  split; [reflexivity|].
  pose proof (published_linked d C s Hin) as Hpub.
  match goal with
  | |- context [Handlers.build_timeline ?x] =>
      destruct (timeline_keys x) as (K1 & K2 & _)
  end.
  cbn [SubmissionService.SubmittedAt SubmissionService.PublishedAt] in K1, K2.
  split; [exact K1|].
  destruct (Submission.ApprovedProjectID s) as [pid|] eqn:Hlink.
  - destruct (link_target d C s pid Hin Hlink) as (p & Hp & Hpid & Hpsub).
    assert (Hfind : find (fun q => Nat.eqb (Project.ID q) pid) (projects d) = Some p).
    { apply (find_unique Project.ID _ (projects d) p (project_ids d C) Hp).
      - now apply Nat.eqb_eq.
      - intros y _ Hy. apply Nat.eqb_eq in Hy. congruence. }
    exists p. split; [exact Hfind|]. split.
    { destruct (project_origin d C p Hp) as (s0 & Hs0 & Hid0 & Hname0).
      assert (s0 = s) as ->.
      { apply (key_unique Submission.ID (submissions d)); auto.
        - exact (submission_ids d C).
        - congruence. }
      exact Hname0. }
    split.
    { unfold preload_project. now rewrite Hfind. }
    rewrite K2.
    destruct (Submission.PublishedAt s); [discriminate|].
    exfalso. apply (proj2 Hpub); congruence.
  - split; [reflexivity|]. rewrite K2.
    destruct (Submission.PublishedAt s) eqn:P; [|reflexivity].
    exfalso. apply (proj1 Hpub); congruence.
Qed.

End ReadBack.

Section ProjectEndpoints.
Context `{JSON}.
Import Store Repository Schema Services.

(** X28. The project endpoint reads a project under the decimal text of its key,
    with the members of its team; it answers 404 when no project has the
    key, and 400, without a store access, for a text that is empty or holds
    a byte that is no digit. It never writes. *)
Theorem GetProject_answers (d : DB) (n : nat) (idStr : string)
    (Hkey : Z.of_nat n < 2 ^ 32) :
  Handlers.GetProject (Utils.FormatInt (Z.of_nat n)) (mkWorld [] d)
  = (match project_of d n with
     | Some row =>
         Handlers.Sent 200 (Project.with_TeamMembers row (preload_team d n))
     | None => Handlers.Refused 404 "PROJECT_NOT_FOUND"
     end, mkWorld [] d)
  /\ (Utils.all_digits idStr = false \/ idStr = "" ->
      forall w, Handlers.GetProject idStr w
                = (Handlers.Refused 400 "INVALID_PROJECT_ID", w))
  /\ forall w, db (Handlers.GetProject idStr w).2 = db w.
Proof.
  split; [|split].
  - unfold Handlers.GetProject. rewrite (ParseUint32_FormatInt n Hkey).
    unfold ProjectService.GetProject, GetProjectByID. rewrite stmt_calm.
    unfold project_of. now destruct (find _ (projects d)).
  - intros Hbad w. unfold Handlers.GetProject.
    replace (Utils.ParseUint32 idStr) with (@None nat); [reflexivity|].
    symmetry. unfold Utils.ParseUint32.
    destruct Hbad as [Hbad| ->]; [|reflexivity].
    destruct idStr as [|c r]; [reflexivity|].
    rewrite (digits_value_bad _ _ Hbad). reflexivity.
  - intros w. unfold Handlers.GetProject.
    destruct (Utils.ParseUint32 idStr) as [id|]; [|reflexivity].
    unfold ProjectService.GetProject.
    destruct (GetProjectByID id w) as [[e|p] w'] eqn:G;
      apply GetProjectByID_inv in G as [Hd _]; exact Hd.
Qed.

(** X29. The extras endpoint on a store the service can reach, with no fault in
    the store and a well-formed request: 404 for an identifier no
    submission has, 404 with the project code for a submission that is not
    linked, and 200 for every linked submission. *)
Theorem UpdateProjectExtras_answers (d : DB) (id : string)
    (updateRequest : Handlers.UpdateRequest)
    (Hreach : Lifecycle.reachable d)
    (Hshape : Utils.ValidateSubmissionID id = true) :
  (Handlers.UpdateProjectExtras id (Some updateRequest) (mkWorld [] d)).1
  = match submission_of d id with
    | None => Handlers.mkResponse 404 "SUBMISSION_NOT_FOUND"
    | Some sub =>
        match Submission.ApprovedProjectID sub with
        | None => Handlers.mkResponse 404 "PROJECT_NOT_FOUND"
        | Some _ => Handlers.mkResponse 200 ""
        end
    end.
Proof.
  unfold Handlers.UpdateProjectExtras. rewrite Hshape. cbn [negb].
  destruct (submission_of d id) as [sub|] eqn:Hsub.
  - destruct (Submission.ApprovedProjectID sub) as [pid|] eqn:Hlink.
    + apply reachable_consistent in Hreach as [C _].
      pose proof (found_submission _ _ _ Hsub) as [Hin _].
      destruct (link_target d C sub pid Hin Hlink) as (p & Hp & Hpid & _).
      assert (Hfind : project_of d pid = Some p).
      { unfold project_of.
        apply (find_unique Project.ID _ (projects d) p (project_ids d C) Hp).
        - now apply Nat.eqb_eq.
        - intros y _ Hy. apply Nat.eqb_eq in Hy. congruence. }
      destruct (extras_calm id (Handlers.Award updateRequest)
                  (Handlers.TeamPhotos updateRequest) d sub pid p Hsub Hlink Hfind)
        as [d' ->].
      reflexivity.
    + unfold UpdateProjectExtras, bind, GetSubmissionByID. rewrite stmt_calm.
      unfold submission_of in Hsub. rewrite Hsub. cbn [fst snd].
      rewrite Hlink. reflexivity.
  - unfold UpdateProjectExtras, bind, GetSubmissionByID. rewrite stmt_calm.
    unfold submission_of in Hsub. rewrite Hsub. reflexivity.
Qed.

End ProjectEndpoints.

(** ** More scenarios on the sample store *)
Section MoreScenarios.
Import Store Repository Schema Services.

(** The sample stores are stores the service reaches: the sample request is
    submitted at instant 1000, approved at 2000, liked once. *)
Lemma db0_reachable : Lifecycle.reachable (H := Sample.codec) Sample.db0.
Proof.
  assert (E : db (SubmitProject (H := Sample.codec) Sample.request Sample.clock
                    Sample.draw 1000 (mkWorld [] (mkDB [] [] []))).2
              = Sample.db0) by (vm_compute; reflexivity).
  rewrite <- E.
  exact (Lifecycle.reach_step _ _ Lifecycle.reach_empty
           (Lifecycle.submit _ Sample.request Sample.clock Sample.draw 1000 [])).
Qed.

Lemma approve_step :
  Lifecycle.step (H := Sample.codec) Sample.db0 Sample.approved_db.
Proof.
  assert (E : db (UpdateSubmissionStatus (H := Sample.codec) Sample.sid "approved"
                    None [] (Some 7%nat) 2000 (mkWorld [] Sample.db0)).2
              = Sample.approved_db) by (vm_compute; reflexivity).
  rewrite <- E.
  exact (Lifecycle.review _ Sample.sid "approved" None [] (Some 7%nat) 2000 []).
Qed.

Lemma approved_db_reachable :
  Lifecycle.reachable (H := Sample.codec) Sample.approved_db.
Proof.
  exact (Lifecycle.reach_step _ _ db0_reachable approve_step).
Qed.

Lemma like_step :
  Lifecycle.step (H := Sample.codec) Sample.approved_db Sample.liked_db.
Proof.
  assert (E : db (ProjectService.LikeProject 1 (mkWorld [] Sample.approved_db)).2
              = Sample.liked_db) by (vm_compute; reflexivity).
  rewrite <- E.
  exact (Lifecycle.like _ 1%nat []).
Qed.

Lemma approved_db_served :
  Lifecycle.served (H := Sample.codec) Sample.approved_db.
Proof.
  assert (E1 : db (Handlers.SubmitProject (H := Sample.codec) (Some Sample.request)
                     Sample.clock Sample.draw 1000
                     (mkWorld [] (mkDB [] [] []))).2
               = Sample.db0) by (vm_compute; reflexivity).
  assert (E2 : db (Handlers.ReviewSubmission (H := Sample.codec) Sample.sid
                     (Handlers.mkReviewRequest "approved" None [] 7) 2000
                     (mkWorld [] Sample.db0)).2
               = Sample.approved_db) by (vm_compute; reflexivity).
  rewrite <- E2.
  apply (Lifecycle.serve_next Sample.db0);
    [|exact (Lifecycle.put_review _ Sample.sid
               (Handlers.mkReviewRequest "approved" None [] 7) 2000 [])].
  rewrite <- E1.
  exact (Lifecycle.serve_next _ _ Lifecycle.serve_empty
           (Lifecycle.post_submission _ (Some Sample.request) Sample.clock
              Sample.draw 1000 [])).
Qed.

Lemma RemoveEmpty_cleans_witness :
  (forall s, Sample.trim (Sample.trim s) = Sample.trim s)
  /\ Utils.RemoveEmpty Sample.trim ["a"; " "; ""; "b"] = ["a"; "b"].
Proof.
  assert (Hidem : forall s, Sample.trim (Sample.trim s) = Sample.trim s).
  { intros s. unfold Sample.trim.
    destruct (String.eqb s " ") eqn:E; [reflexivity|]. now rewrite E. }
  split; [exact Hidem|].
  destruct (RemoveEmpty_cleans Sample.trim ["a"; " "; ""; "b"] Hidem) as [-> _].
  reflexivity.
Defined.

Lemma RateLimit_window_bound_witness :
  Middleware.monotonic 0 [(0, "a"); (1, "a"); (2, "a")] = true
  /\ le (length (List.filter
                   (fun t : Z => (0 <=? t) && (t <? 0 + Middleware.Minute))
                   (Middleware.passes "a" [(0, "a"); (1, "a"); (2, "a")]
                      (Middleware.verdicts (Middleware.newRateLimiter 2)
                         [(0, "a"); (1, "a"); (2, "a")]))))
        (Z.to_nat 2).
Proof.
  assert (H1 : Middleware.monotonic 0 [(0, "a"); (1, "a"); (2, "a")] = true)
    by reflexivity.
  split; [exact H1|].
  exact (RateLimit_window_bound 2 [(0, "a"); (1, "a"); (2, "a")] 0 "a" 0 H1).
Defined.

Lemma RateLimit_blocks_all_witness :
  0 <= 0
  /\ Forall (fun ok => ok = false)
       (Middleware.verdicts (Middleware.newRateLimiter 0) [(5, "a"); (6, "b")]).
Proof.
  assert (H1 : 0 <= 0) by lia.
  split; [exact H1|].
  exact (RateLimit_blocks_all 0 [(5, "a"); (6, "b")] H1).
Defined.

Lemma RateLimit_recovers_witness :
  1 <= 1
  /\ (forall t, In (t, "a") [(0, "a"); (1, "b")] -> t + Middleware.Minute <= 60000000000)
  /\ last (Middleware.verdicts (Middleware.newRateLimiter 1)
             ([(0, "a"); (1, "b")] ++ [(60000000000, "a")]))
     = Some true.
Proof.
  assert (H1 : 1 <= 1) by lia.
  assert (H2 : forall t, In (t, "a") [(0, "a"); (1, "b")] ->
                         t + Middleware.Minute <= 60000000000).
  { intros t [E|[E|[]]]; [|discriminate].
    injection E as <-. vm_compute. discriminate. }
  split; [exact H1|]. split; [exact H2|].
  exact (RateLimit_recovers 1 [(0, "a"); (1, "b")] 60000000000 "a" H1 H2).
Defined.

Lemma LikeProject_counts_witness :
  ProjectService.LikeProject 1 (mkWorld [] Sample.approved_db)
  = (inr tt, mkWorld [] Sample.liked_db)
  /\ exists p,
       project_of Sample.approved_db 1 = Some p
       /\ project_of Sample.liked_db 1
          = Some (Project.with_Likes p (Project.Likes p + 1)).
Proof.
  assert (H1 : ProjectService.LikeProject 1 (mkWorld [] Sample.approved_db)
               = (inr tt, mkWorld [] Sample.liked_db))
    by (vm_compute; reflexivity).
  split; [exact H1|].
  destruct (LikeProject_counts 1 (mkWorld [] Sample.approved_db)
              (mkWorld [] Sample.liked_db) H1)
    as (p & Hp & _ & Hp' & _).
  exists p. split; [exact Hp|exact Hp'].
Defined.

Lemma LikeProject_refused_witness :
  ProjectService.LikeProject 2 (mkWorld [] Sample.approved_db)
  = (inl ErrRecordNotFound, mkWorld [] Sample.approved_db)
  /\ project_of Sample.approved_db 2 = None
  /\ db (mkWorld [] Sample.approved_db) = Sample.approved_db.
Proof.
  assert (H1 : ProjectService.LikeProject 2 (mkWorld [] Sample.approved_db)
               = (inl ErrRecordNotFound, mkWorld [] Sample.approved_db))
    by (vm_compute; reflexivity).
  assert (H2 : project_of Sample.approved_db 2 = None) by reflexivity.
  split; [exact H1|]. split; [exact H2|].
  destruct (LikeProject_refused 2 (mkWorld [] Sample.approved_db)
              (mkWorld [] Sample.approved_db) (inl ErrRecordNotFound) H1)
    as [Herr _].
  exact (Herr ErrRecordNotFound eq_refl).
Defined.

Lemma GetSubmissionStats_histogram_witness :
  GetSubmissionStats (mkWorld [] Sample.approved_db)
  = ((GetSubmissionStats (mkWorld [] Sample.approved_db)).1,
     (GetSubmissionStats (mkWorld [] Sample.approved_db)).2)
  /\ db (GetSubmissionStats (mkWorld [] Sample.approved_db)).2
     = Sample.approved_db.
Proof.
  assert (H1 : GetSubmissionStats (mkWorld [] Sample.approved_db)
               = ((GetSubmissionStats (mkWorld [] Sample.approved_db)).1,
                  (GetSubmissionStats (mkWorld [] Sample.approved_db)).2))
    by apply surjective_pairing.
  split; [exact H1|].
  exact (proj1 (GetSubmissionStats_histogram (mkWorld [] Sample.approved_db)
                  _ _ H1)).
Defined.

Lemma team_keys_invariant_witness :
  Lifecycle.reachable (H := Sample.codec) Sample.approved_db
  /\ team_keys_ok Sample.approved_db.
Proof.
  split; [exact approved_db_reachable|].
  exact (team_keys_invariant (H := Sample.codec) Sample.approved_db
           approved_db_reachable).
Defined.

Lemma reachable_submissions_unique_witness :
  Lifecycle.reachable (H := Sample.codec) Sample.approved_db
  /\ NoDup (map Submission.ID (submissions Sample.approved_db)).
Proof.
  split; [exact approved_db_reachable|].
  exact (proj1 (reachable_submissions_unique (H := Sample.codec)
                  Sample.approved_db approved_db_reachable)).
Defined.

Lemma reachable_projects_unique_witness :
  Lifecycle.reachable (H := Sample.codec) Sample.approved_db
  /\ NoDup (map Project.ID (projects Sample.approved_db)).
Proof.
  split; [exact approved_db_reachable|].
  exact (proj1 (reachable_projects_unique (H := Sample.codec)
                  Sample.approved_db approved_db_reachable)).
Defined.

Lemma reachable_project_origin_witness :
  Lifecycle.reachable (H := Sample.codec) Sample.approved_db
  /\ In Sample.project (projects Sample.approved_db)
  /\ exists s,
       submission_of Sample.approved_db (Submission.ID s) = Some s
       /\ Project.SubmissionID Sample.project = Some (Submission.ID s).
Proof.
  assert (H1 : In Sample.project (projects Sample.approved_db))
    by (left; reflexivity).
  split; [exact approved_db_reachable|]. split; [exact H1|].
  destruct (reachable_project_origin (H := Sample.codec) Sample.approved_db
              Sample.project approved_db_reachable H1) as (s & Hs & Hid & _).
  exists s. split; [exact Hs|exact Hid].
Defined.

Lemma reachable_link_target_witness :
  Lifecycle.reachable (H := Sample.codec) Sample.approved_db
  /\ In Sample.approved_submission (submissions Sample.approved_db)
  /\ Submission.ApprovedProjectID Sample.approved_submission = Some 1%nat
  /\ exists p,
       project_of Sample.approved_db 1 = Some p
       /\ Project.Name p = "MonadSwap".
Proof.
  assert (H1 : In Sample.approved_submission (submissions Sample.approved_db))
    by (left; reflexivity).
  assert (H2 : Submission.ApprovedProjectID Sample.approved_submission
               = Some 1%nat) by reflexivity.
  split; [exact approved_db_reachable|]. split; [exact H1|]. split; [exact H2|].
  destruct (reachable_link_target (H := Sample.codec) Sample.approved_db
              Sample.approved_submission 1 approved_db_reachable H1 H2)
    as (p & Hp & _ & Hname).
  exists p. split; [exact Hp|exact Hname].
Defined.

Lemma reachable_approved_published_witness :
  Lifecycle.reachable (H := Sample.codec) Sample.approved_db
  /\ In Sample.approved_submission (submissions Sample.approved_db)
  /\ Submission.ApprovedProjectID Sample.approved_submission <> None.
Proof.
  assert (H1 : In Sample.approved_submission (submissions Sample.approved_db))
    by (left; reflexivity).
  split; [exact approved_db_reachable|]. split; [exact H1|].
  exact (proj1 (reachable_approved_published (H := Sample.codec)
                  Sample.approved_db Sample.approved_submission
                  approved_db_reachable H1) eq_refl).
Defined.

Lemma reachable_team_refs_witness :
  Lifecycle.reachable (H := Sample.codec) Sample.approved_db
  /\ team_refs_ok Sample.approved_db.
Proof.
  split; [exact approved_db_reachable|].
  exact (reachable_team_refs (H := Sample.codec) Sample.approved_db
           approved_db_reachable).
Defined.

Lemma step_keeps_submissions_witness :
  Lifecycle.reachable (H := Sample.codec) Sample.db0
  /\ Lifecycle.step (H := Sample.codec) Sample.db0 Sample.approved_db
  /\ In (Sample.submission Sample.payload) (submissions Sample.db0)
  /\ exists s',
       In s' (submissions Sample.approved_db)
       /\ submitted s' = submitted (Sample.submission Sample.payload).
Proof.
  assert (H1 : In (Sample.submission Sample.payload) (submissions Sample.db0))
    by (left; reflexivity).
  split; [exact db0_reachable|]. split; [exact approve_step|].
  split; [exact H1|].
  destruct (step_keeps_submissions (H := Sample.codec) Sample.db0
              Sample.approved_db (Sample.submission Sample.payload)
              db0_reachable approve_step H1) as (s' & Hin & Hsame & _).
  exists s'. split; [exact Hin|exact Hsame].
Defined.

Lemma step_keeps_projects_witness :
  Lifecycle.reachable (H := Sample.codec) Sample.approved_db
  /\ Lifecycle.step (H := Sample.codec) Sample.approved_db Sample.liked_db
  /\ In Sample.project (projects Sample.approved_db)
  /\ exists p',
       In p' (projects Sample.liked_db)
       /\ listed p' = listed Sample.project
       /\ Project.Likes Sample.project <= Project.Likes p'.
Proof.
  assert (H1 : In Sample.project (projects Sample.approved_db))
    by (left; reflexivity).
  split; [exact approved_db_reachable|]. split; [exact like_step|].
  split; [exact H1|].
  destruct (step_keeps_projects (H := Sample.codec) Sample.approved_db
              Sample.liked_db Sample.project approved_db_reachable like_step H1)
    as (p' & Hin & Hsame & Hle & _).
  exists p'. split; [exact Hin|]. split; [exact Hsame|exact Hle].
Defined.

Lemma approval_blocked_by_name_witness :
  submission_of Sample.orphan_db Sample.sid = Some (Sample.submission Sample.payload)
  /\ Submission.Status (Sample.submission Sample.payload) <> "approved"
  /\ Submission.ApprovedProjectID (Sample.submission Sample.payload) = None
  /\ has_project_named Sample.orphan_db "MonadSwap" = true
  /\ UpdateSubmissionStatus (H := Sample.codec) Sample.sid "approved" None []
       (Some 7%nat) 3000 (mkWorld [] Sample.orphan_db)
     = (inl ErrDuplicatedKey, mkWorld [] Sample.orphan_db)
  /\ db (mkWorld [] Sample.orphan_db) = Sample.orphan_db.
Proof.
  assert (H1 : submission_of (db (mkWorld [] Sample.orphan_db)) Sample.sid
               = Some (Sample.submission Sample.payload)) by reflexivity.
  assert (H2 : Submission.Status (Sample.submission Sample.payload) <> "approved")
    by discriminate.
  assert (H3 : Submission.ApprovedProjectID (Sample.submission Sample.payload)
               = None) by reflexivity.
  assert (H4 : has_project_named (db (mkWorld [] Sample.orphan_db))
                 (Submission.ProjectName (Sample.submission Sample.payload))
               = true) by reflexivity.
  assert (H5 : UpdateSubmissionStatus (H := Sample.codec) Sample.sid "approved"
                 None [] (Some 7%nat) 3000 (mkWorld [] Sample.orphan_db)
               = (inl ErrDuplicatedKey, mkWorld [] Sample.orphan_db))
    by (vm_compute; reflexivity).
  split; [exact H1|]. split; [exact H2|]. split; [exact H3|].
  split; [exact H4|]. split; [exact H5|].
  exact (proj1 (approval_blocked_by_name (H := Sample.codec) Sample.sid None []
                  (Some 7%nat) 3000 (mkWorld [] Sample.orphan_db)
                  (mkWorld [] Sample.orphan_db) (inl ErrDuplicatedKey)
                  (Sample.submission Sample.payload) H1 H2 H3 H4 H5)).
Defined.

Lemma UpdateSubmissionStatus_any_status_witness :
  submission_of Sample.db0 Sample.sid = Some (Sample.submission Sample.payload)
  /\ "archived" <> "approved"
  /\ Utils.ValidateStatus "archived" = false
  /\ exists d' final,
       UpdateSubmissionStatus (H := Sample.codec) Sample.sid "archived" None []
         None 1500 (mkWorld [] Sample.db0)
       = (inr tt, mkWorld [] d')
       /\ submission_of d' Sample.sid = Some final
       /\ Submission.Status final = "archived".
Proof.
  assert (H1 : submission_of Sample.db0 Sample.sid
               = Some (Sample.submission Sample.payload)) by reflexivity.
  assert (H2 : "archived" <> "approved") by discriminate.
  split; [exact H1|]. split; [exact H2|]. split; [reflexivity|].
  exact (UpdateSubmissionStatus_any_status (H := Sample.codec) Sample.sid
           "archived" None [] None 1500 Sample.db0
           (Sample.submission Sample.payload) H1 H2).
Defined.

Lemma served_statuses_witness :
  Lifecycle.served (H := Sample.codec) Sample.approved_db
  /\ statuses_ok Sample.approved_db.
Proof.
  split; [exact approved_db_served|].
  exact (served_statuses (H := Sample.codec) Sample.approved_db
           approved_db_served).
Defined.

Lemma submit_then_status_witness :
  validateSubmissionRequest Sample.request = None
  /\ has_project_named (mkDB [] [] []) (ProjectName Sample.request) = false
  /\ has_submission_named (mkDB [] [] []) (ProjectName Sample.request) = false
  /\ Marshal (JSON := Sample.codec) (TeamMembers Sample.request)
     = inr Sample.payload
  /\ submission_of (mkDB [] [] [])
       (Utils.GenerateSubmissionID Sample.clock Sample.draw) = None
  /\ submission_of (mkDB [] [] [])
       (Utils.GenerateSubmissionID 5 Sample.draw) = None
  /\ (exists resp d',
       Handlers.SubmitProject (H := Sample.codec) (Some Sample.request)
         Sample.clock Sample.draw 1000 (mkWorld [] (mkDB [] [] []))
       = (Handlers.Sent 201 resp, mkWorld [] d')
       /\ (Handlers.GetSubmissionStatus (H := Sample.codec) (H0 := Sample.render)
             (SubmissionID resp) (mkWorld [] d')).1
          = Handlers.Sent 200
              (Handlers.StatusBody.mk (SubmissionID resp) "pending" "MonadSwap"
                 "1000" None None None {[ "submitted" := "1000" ]}))
  /\ (exists resp d',
       Handlers.SubmitProject (H := Sample.codec) (Some Sample.request)
         5 Sample.draw 1000 (mkWorld [] (mkDB [] [] []))
       = (Handlers.Sent 201 resp, mkWorld [] d')
       /\ (Handlers.GetSubmissionStatus (H := Sample.codec) (H0 := Sample.render)
             (SubmissionID resp) (mkWorld [] d')).1
          = Handlers.Refused 400 "INVALID_SUBMISSION_ID").
Proof.
  assert (H1 : 10 ^ 9 <= Sample.clock) by (vm_compute; discriminate).
  assert (H1' : 5 < 10 ^ 9) by reflexivity.
  assert (H2 : validateSubmissionRequest Sample.request = None) by reflexivity.
  assert (H3 : has_project_named (mkDB [] [] []) (ProjectName Sample.request)
               = false) by reflexivity.
  assert (H4 : has_submission_named (mkDB [] [] []) (ProjectName Sample.request)
               = false) by reflexivity.
  assert (H5 : Marshal (JSON := Sample.codec) (TeamMembers Sample.request)
               = inr Sample.payload) by reflexivity.
  assert (H6 : submission_of (mkDB [] [] [])
                 (Utils.GenerateSubmissionID Sample.clock Sample.draw) = None)
    by reflexivity.
  assert (H6' : submission_of (mkDB [] [] [])
                  (Utils.GenerateSubmissionID 5 Sample.draw) = None)
    by reflexivity.
  split; [exact H2|]. split; [exact H3|].
  split; [exact H4|]. split; [exact H5|]. split; [exact H6|].
  split; [exact H6'|]. split.
  - destruct (submit_then_status (H := Sample.codec) (H0 := Sample.render)
                Sample.request Sample.clock Sample.draw 1000 (mkDB [] [] [])
                Sample.payload H2 H3 H4 H5 H6)
      as (resp & d' & Hrun & _ & Hget & _).
    exists resp, d'. split; [exact Hrun|]. rewrite (Hget H1). reflexivity.
  - destruct (submit_then_status (H := Sample.codec) (H0 := Sample.render)
                Sample.request 5 Sample.draw 1000 (mkDB [] [] [])
                Sample.payload H2 H3 H4 H5 H6')
      as (resp & d' & Hrun & _ & _ & Hget).
    exists resp, d'. split; [exact Hrun|]. rewrite (Hget H1'). reflexivity.
Defined.

Lemma submitted_team_read_back_witness :
  validateSubmissionRequest Sample.request = None
  /\ Unmarshal (JSON := Sample.codec) Sample.payload
     = inr (TeamMembers Sample.request)
  /\ Sample.payload <> ""
  /\ exists resp d' shown,
       SubmitProject (H := Sample.codec) Sample.request Sample.clock Sample.draw
         1000 (mkWorld [] (mkDB [] [] []))
       = (inr resp, mkWorld [] d')
       /\ SubmissionService.GetSubmissionByID (H := Sample.codec)
            (H0 := Sample.render) (SubmissionID resp) (mkWorld [] d')
          = (inr shown, mkWorld [] d')
       /\ SubmissionService.TeamMembers shown = Sample.team.
Proof.
  assert (H1 : validateSubmissionRequest Sample.request = None) by reflexivity.
  assert (H2 : Unmarshal (JSON := Sample.codec) Sample.payload
               = inr (TeamMembers Sample.request)) by reflexivity.
  assert (H3 : Sample.payload <> "") by discriminate.
  split; [exact H1|]. split; [exact H2|]. split; [exact H3|].
  destruct (submitted_team_read_back (H := Sample.codec) (H0 := Sample.render)
              Sample.request Sample.clock Sample.draw 1000 (mkDB [] [] [])
              Sample.payload H1 eq_refl eq_refl eq_refl eq_refl H2 H3)
    as (resp & d' & shown & Hrun & Hget & _ & _ & _ & _ & Hteam & _).
  exists resp, d', shown. split; [exact Hrun|]. split; [exact Hget|exact Hteam].
Defined.

Lemma status_of_stored_submission_witness :
  Lifecycle.reachable (H := Sample.codec) Sample.approved_db
  /\ submission_of Sample.approved_db Sample.sid = Some Sample.approved_submission
  /\ Utils.ValidateSubmissionID Sample.sid = true
  /\ exists body,
       Handlers.GetSubmissionStatus (H := Sample.codec) (H0 := Sample.render)
         Sample.sid (mkWorld [] Sample.approved_db)
       = (Handlers.Sent 200 body, mkWorld [] Sample.approved_db)
       /\ Handlers.StatusBody.status body = "approved".
Proof.
  assert (H1 : submission_of Sample.approved_db Sample.sid
               = Some Sample.approved_submission) by reflexivity.
  assert (H2 : Utils.ValidateSubmissionID Sample.sid = true) by reflexivity.
  split; [exact approved_db_reachable|]. split; [exact H1|]. split; [exact H2|].
  destruct (status_of_stored_submission (H := Sample.codec) (H0 := Sample.render)
              Sample.approved_db Sample.sid Sample.approved_submission
              approved_db_reachable H1 H2) as (body & Hget & _ & Hst & _).
  exists body. split; [exact Hget|exact Hst].
Defined.

Lemma GetProject_answers_witness :
  Z.of_nat 1 < 2 ^ 32
  /\ Handlers.GetProject "1" (mkWorld [] Sample.approved_db)
     = (Handlers.Sent 200
          (Project.with_TeamMembers Sample.project [Sample.alex ""]),
        mkWorld [] Sample.approved_db).
Proof.
  assert (H1 : Z.of_nat 1 < 2 ^ 32) by (vm_compute; reflexivity).
  split; [exact H1|].
  destruct (GetProject_answers Sample.approved_db 1 "" H1) as [Hget _].
  exact Hget.
Defined.

Lemma UpdateProjectExtras_answers_witness :
  Lifecycle.reachable (H := Sample.codec) Sample.approved_db
  /\ Utils.ValidateSubmissionID Sample.sid = true
  /\ (Handlers.UpdateProjectExtras Sample.sid
        (Some (Handlers.mkUpdateRequest None Sample.photos))
        (mkWorld [] Sample.approved_db)).1
     = Handlers.mkResponse 200 "".
Proof.
  assert (H1 : Utils.ValidateSubmissionID Sample.sid = true) by reflexivity.
  split; [exact approved_db_reachable|]. split; [exact H1|].
  exact (UpdateProjectExtras_answers (H := Sample.codec) Sample.approved_db
           Sample.sid (Handlers.mkUpdateRequest None Sample.photos)
           approved_db_reachable H1).
Defined.

End MoreScenarios.
